(** * DipCoin perpetual-trading client: order construction and response
      normalisation

    A shallow embedding of [HttpClient] (services/httpClient.ts) and
    [DipCoinPerpSDK] (sdk/index.ts).  JavaScript values are a small tree
    type, the wall clock and the HTTP server are oracles carried by the
    world, and exceptions are an explicit outcome of every call. *)

From Stdlib Require Import ZArith QArith List String Ascii Bool Lia DecimalString.
Import ListNotations.

Local Open Scope list_scope.
Local Open Scope string_scope.

(* ================================================================== *)
(** ** JavaScript values *)
(* ================================================================== *)

(** A JS number.  Finite doubles are read as the rationals they denote;
    the SDK itself only adds 1 or 2 to an integer millisecond count,
    which is exact on doubles (time values stay below 2^53). *)
Inductive JsNumber : Type :=
| JNaN
| JInfinity (negative : bool)
| JFinite (q : Q).

#[warnings="-register-all"]
Inductive JsValue : Type :=
| JUndefined
| JNull
| JBool (b : bool)
| JNum (n : JsNumber)
| JStr (s : string)
| JArr (items : list JsValue)
| JObj (props : list (string * JsValue)).

Definition number_of_Z (z : Z) : JsNumber := JFinite (inject_Z z).
Definition number_of_nat (n : nat) : JsNumber := number_of_Z (Z.of_nat n).

(** [a + b] on numbers. *)
Definition number_add (a b : JsNumber) : JsNumber :=
  match a, b with
  | JNaN, _ | _, JNaN => JNaN
  | JInfinity s, JInfinity t => if Bool.eqb s t then JInfinity s else JNaN
  | JInfinity s, JFinite _ | JFinite _, JInfinity s => JInfinity s
  | JFinite x, JFinite y => JFinite (Qplus x y)
  end.

(** [a === b] on numbers: NaN differs from everything. *)
Definition number_eqb (a b : JsNumber) : bool :=
  match a, b with
  | JFinite x, JFinite y => Qeq_bool x y
  | JInfinity s, JInfinity t => Bool.eqb s t
  | _, _ => false
  end.

(** ToBoolean. *)
Definition truthy (v : JsValue) : bool :=
  match v with
  | JUndefined | JNull => false
  | JBool b => b
  | JNum JNaN => false
  | JNum (JInfinity _) => true
  | JNum (JFinite q) => negb (Qeq_bool q 0)
  | JStr s => negb (String.eqb s "")
  | JArr _ | JObj _ => true
  end.

Definition falsy (v : JsValue) : bool := negb (truthy v).

(** [a || b] on values. *)
Definition js_or (a b : JsValue) : JsValue := if truthy a then a else b.

(** [v === "s"] and [v === n] against a literal. *)
Definition strict_eq_str (v : JsValue) (s : string) : bool :=
  match v with JStr t => String.eqb t s | _ => false end.

Definition strict_eq_num (v : JsValue) (n : JsNumber) : bool :=
  match v with JNum m => number_eqb m n | _ => false end.

Definition isArray (v : JsValue) : bool :=
  match v with JArr _ => true | _ => false end.

Definition typeof (v : JsValue) : string :=
  match v with
  | JUndefined => "undefined"
  | JNull | JArr _ | JObj _ => "object"
  | JBool _ => "boolean"
  | JNum _ => "number"
  | JStr _ => "string"
  end.

Definition nullish (v : JsValue) : bool :=
  match v with JUndefined | JNull => true | _ => false end.

(** Own enumerable properties, in enumeration order, as an association
    list.  A property that is not there reads as [undefined]. *)
Fixpoint lookup (k : string) (props : list (string * JsValue)) : JsValue :=
  match props with
  | [] => JUndefined
  | (k', v) :: rest => if String.eqb k k' then v else lookup k rest
  end.

(** [obj.k = v]: overwrite in place, or add at the end. *)
Fixpoint assign (k : string) (v : JsValue) (props : list (string * JsValue))
  : list (string * JsValue) :=
  match props with
  | [] => [(k, v)]
  | (k', v') :: rest =>
      if String.eqb k k' then (k, v) :: rest else (k', v') :: assign k v rest
  end.

(** Error objects. *)
Definition new_Error (message : string) : JsValue :=
  JObj [("name", JStr "Error"); ("message", JStr message)].

Definition TypeError (message : string) : JsValue :=
  JObj [("name", JStr "TypeError"); ("message", JStr message)].

(* ================================================================== *)
(** ** Outcomes: a value, or a thrown exception *)
(* ================================================================== *)

Inductive Outcome (A : Type) : Type :=
| Returned (a : A)
| Thrown (e : JsValue).
Arguments Returned {A} a.
Arguments Thrown {A} e.

(** [v.k]: reading a property of [undefined] or [null] throws.  Arrays and
    strings answer [length]; no other inherited property is read by the
    client. *)
Definition get_prop (v : JsValue) (k : string) : Outcome JsValue :=
  match v with
  | JUndefined | JNull =>
      Thrown (TypeError ("Cannot read properties of nullish value: " ++ k))
  | JObj props => Returned (lookup k props)
  | JArr items =>
      if String.eqb k "length" then Returned (JNum (number_of_nat (List.length items)))
      else Returned JUndefined
  | JStr s =>
      if String.eqb k "length" then Returned (JNum (number_of_nat (String.length s)))
      else Returned JUndefined
  | JBool _ | JNum _ => Returned JUndefined
  end.

(** [v?.k]. *)
Definition get_prop_opt (v : JsValue) (k : string) : JsValue :=
  match get_prop v k with
  | Returned x => x
  | Thrown _ => JUndefined
  end.

(** Destructuring with a default: the default replaces [undefined] only. *)
Definition with_default (v d : JsValue) : JsValue :=
  match v with JUndefined => d | _ => v end.

(* ================================================================== *)
(** ** BigNumber (bignumber.js) *)
(* ================================================================== *)

Inductive BigNumber : Type :=
| BigNaN
| BigInfinity (negative : bool)
| BigFinite (q : Q).

(** [new BigNumber(n)] for a number [n]. *)
Definition new_BigNumber (n : JsNumber) : BigNumber :=
  match n with
  | JNaN => BigNaN
  | JInfinity s => BigInfinity s
  | JFinite q => BigFinite q
  end.

Definition BigNumber_of_Z (z : Z) : BigNumber := new_BigNumber (number_of_Z z).

(** [a.isEqualTo(b)]. *)
Definition isEqualTo (a b : BigNumber) : bool :=
  match a, b with
  | BigFinite x, BigFinite y => Qeq_bool x y
  | BigInfinity s, BigInfinity t => Bool.eqb s t
  | _, _ => false
  end.

(** [a.plus(k)] for an integer [k]. *)
Definition plusZ (a : BigNumber) (k : Z) : BigNumber :=
  match a with
  | BigFinite x => BigFinite (Qplus x (inject_Z k))
  | other => other
  end.

(* ================================================================== *)
(** ** The canonical order object *)
(* ================================================================== *)

Module Order.
Record t : Type := {
  market : JsValue;
  creator : string;
  isLong : bool;
  reduceOnly : JsValue;
  postOnly : bool;
  orderbookOnly : bool;
  ioc : bool;
  quantity : BigNumber;
  price : BigNumber;
  leverage : BigNumber;
  expiration : BigNumber;
  salt : BigNumber
}.
End Order.

(** The string enums of types/index.ts. *)
Module OrderSide.
Definition BUY : string := "BUY".
Definition SELL : string := "SELL".
End OrderSide.

Module OrderType.
Definition MARKET : string := "MARKET".
Definition LIMIT : string := "LIMIT".
End OrderType.

(* ================================================================== *)
(** ** HTTP requests, the world, and the call monad *)
(* ================================================================== *)

Inductive Method : Type := GET | POST.

Record Request : Type := {
  req_method : Method;
  req_baseURL : string;
  req_url : string;
  req_params : JsValue;            (* query parameters, [undefined] if none *)
  req_data : option string;        (* request body *)
  req_headers : list (string * string)
}.

(** What the transport does with a request: a response whose body is
    [response.data], or a rejection with an error value. *)
Inductive AxiosOutcome : Type :=
| Fulfilled (response_data : JsValue)
| Rejected (error : JsValue).

(** The world a call runs in: the readings successive [Date.now()] calls
    give, how many were taken, the server, and the requests sent so far. *)
Record World : Type := {
  clock : nat -> Z;
  reads : nat;
  server : Request -> AxiosOutcome;
  sent : list Request
}.

Definition M (A : Type) : Type := World -> Outcome A * World.

Definition ret {A} (a : A) : M A := fun w => (Returned a, w).

Definition bind {A B} (m : M A) (f : A -> M B) : M B :=
  fun w =>
    match m w with
    | (Returned a, w') => f a w'
    | (Thrown e, w') => (Thrown e, w')
    end.

Definition throw {A} (e : JsValue) : M A := fun w => (Thrown e, w).

Definition lift {A} (o : Outcome A) : M A := fun w => (o, w).

(** [try { body } catch (error) { handler error }]. *)
Definition try_catch {A} (body : M A) (handler : JsValue -> M A) : M A :=
  fun w =>
    match body w with
    | (Returned a, w') => (Returned a, w')
    | (Thrown e, w') => handler e w'
    end.

Declare Scope js_scope.
Delimit Scope js_scope with js.
Notation "x <- m ;; k" := (bind m (fun x => k))
  (at level 100, m at next level, right associativity) : js_scope.
Notation "m ;;; k" := (bind m (fun _ => k))
  (at level 100, right associativity) : js_scope.
Local Open Scope js_scope.

(** The world after one more reading of the clock. *)
Definition tick (w : World) : World :=
  {| clock := clock w; reads := S (reads w); server := server w; sent := sent w |}.

(** The world once [r] has been sent. *)
Definition recorded (w : World) (r : Request) : World :=
  {| clock := clock w; reads := reads w; server := server w;
     sent := (sent w ++ [r])%list |}.

(** [Date.now()]: the next reading of the clock. *)
Definition Date_now : M JsNumber :=
  fun w => (Returned (number_of_Z (clock w (reads w))), tick w).

(** Hand a request to the transport and record it. *)
Definition transport (r : Request) : M AxiosOutcome :=
  fun w => (Returned (server w r), recorded w r).

(* ================================================================== *)
(** ** What the client imports from outside these two files *)
(* ================================================================== *)

(** The helpers of utils ([formatNormalToWei], [formatNormalToWeiBN],
    [signMessage], [formatError]), the endpoint table of constants, the
    order-signing library and the JavaScript built-ins with long
    specifications are taken as given.  Any helper that can throw returns
    an [Outcome].  [axios_transformRequest contentType data] is the body
    axios makes of the data handed to it under a content type; there is
    none when it is [None]. *)
Class Platform : Type := {
  Keypair : Type;
  formatNormalToWei : JsValue -> Outcome string;
  formatNormalToWeiBN : JsValue -> Outcome BigNumber;
  signMessage : Keypair -> list ascii -> Outcome string;
  formatError : JsValue -> string;
  fromExportedKeypair : string -> Outcome Keypair;
  toSuiAddress : Keypair -> string;
  getOrderMessageForUIWallet : Order.t -> Outcome string;
  JSON_stringify : JsValue -> string;
  Number_toString : JsNumber -> string;
  Object_toString : JsValue -> string;
  BigNumber_toString : BigNumber -> string;
  PLACE_ORDER : string;
  CANCEL_ORDER : string;
  GET_ACCOUNT_INFO : string;
  GET_POSITIONS : string;
  GET_OPEN_ORDERS : string;
  axios_transformRequest : option string -> JsValue -> option string
}.

(** [new TextEncoder().encode(s)]: strings are kept as their UTF-8 bytes. *)
Definition TextEncoder_encode (s : string) : list ascii := list_ascii_of_string s.

(* ================================================================== *)
(** ** URLSearchParams *)
(* ================================================================== *)

Definition URLSearchParams : Type := list (string * string).

Definition append (formData : URLSearchParams) (name value : string)
  : URLSearchParams := (formData ++ [(name, value)])%list.

(** The application/x-www-form-urlencoded byte serialiser: ASCII
    alphanumerics and [*-._] stay, a space becomes [+], every other byte
    is percent-encoded. *)
Definition form_safe (c : ascii) : bool :=
  let n := nat_of_ascii c in
  ((48 <=? n) && (n <=? 57) || (65 <=? n) && (n <=? 90) || (97 <=? n) && (n <=? 122)
   || (n =? 42) || (n =? 45) || (n =? 46) || (n =? 95))%nat.

Definition hex_digit (n : nat) : ascii :=
  if (n <? 10)%nat then ascii_of_nat (48 + n) else ascii_of_nat (55 + n).

Definition percent_encode (c : ascii) : string :=
  let n := nat_of_ascii c in
  String "%" (String (hex_digit (n / 16)) (String (hex_digit (n mod 16)) EmptyString)).

Fixpoint urlencode (s : string) : string :=
  match s with
  | EmptyString => EmptyString
  | String c rest =>
      (if form_safe c then String c EmptyString
       else if Ascii.eqb c " " then "+"
       else percent_encode c) ++ urlencode rest
  end.

Definition URLSearchParams_toString (formData : URLSearchParams) : string :=
  String.concat "&" (map (fun nv => urlencode (fst nv) ++ "=" ++ urlencode (snd nv)) formData).

Section Client.
Context {P : Platform}.

(** [String(v)]. *)
Definition String_ (v : JsValue) : string :=
  match v with
  | JUndefined => "undefined"
  | JNull => "null"
  | JBool true => "true"
  | JBool false => "false"
  | JNum n => Number_toString n
  | JStr s => s
  | JArr _ | JObj _ => Object_toString v
  end.

(** [v.toString()]. *)
Definition toString (v : JsValue) : Outcome string :=
  match v with
  | JUndefined | JNull =>
      Thrown (TypeError "Cannot read properties of nullish value: toString")
  | _ => Returned (String_ v)
  end.

(* ================================================================== *)
(** ** HttpClient (services/httpClient.ts) *)
(* ================================================================== *)

Record AxiosRequestConfig : Type := {
  cfg_params : JsValue;
  cfg_headers : list (string * string)
}.

Record HttpClient : Type := {
  baseURL : string;
  http_walletAddress : option string;
  authToken : option string
}.

Definition new_HttpClient (url : string) : HttpClient :=
  {| baseURL := url; http_walletAddress := None; authToken := None |}.

Definition setWalletAddress (c : HttpClient) (address : string) : HttpClient :=
  {| baseURL := baseURL c; http_walletAddress := Some address; authToken := authToken c |}.

Definition setAuthToken (c : HttpClient) (token : string) : HttpClient :=
  {| baseURL := baseURL c; http_walletAddress := http_walletAddress c; authToken := Some token |}.

(** Header names are matched without regard to case: axios merges the
    headers of a request caselessly and normalizes them before it sends
    them. *)
Definition lower (c : ascii) : ascii :=
  let n := nat_of_ascii c in
  if ((65 <=? n) && (n <=? 90))%nat then ascii_of_nat (n + 32) else c.

Fixpoint toLowerCase (s : string) : string :=
  match s with
  | EmptyString => EmptyString
  | String c rest => String (lower c) (toLowerCase rest)
  end.

Definition header_eqb (a b : string) : bool :=
  String.eqb (toLowerCase a) (toLowerCase b).

(** [h[k] = v] as the request goes out: a header of that name, in whatever
    case, takes the new value and keeps the name it was first written
    with; otherwise the header is added. *)
Fixpoint set_header (k v : string) (h : list (string * string)) : list (string * string) :=
  match h with
  | [] => [(k, v)]
  | (k', v') :: rest =>
      if header_eqb k k' then (k', v) :: rest else (k', v') :: set_header k v rest
  end.

(** [{...base, ...extra}] on header objects, as the request goes out. *)
Definition spread_headers (base extra : list (string * string)) : list (string * string) :=
  fold_left (fun h kv => set_header (fst kv) (snd kv) h) extra base.

(** The value of a header, if it is set; the name in any case. *)
Fixpoint get_header (k : string) (h : list (string * string)) : option string :=
  match h with
  | [] => None
  | (k', v) :: rest => if header_eqb k k' then Some v else get_header k rest
  end.

(** Truthiness of a string that may be undefined. *)
Definition present (s : option string) : bool :=
  match s with Some t => negb (String.eqb t "") | None => false end.

(** The request interceptor of [setupInterceptors]. *)
Definition request_interceptor (c : HttpClient) (config : Request) : Request :=
  let headers := req_headers config in
  let headers :=
    match http_walletAddress c with
    | Some address =>
        if present (Some address)
        then set_header "X-Wallet-Address" address headers
        else headers
    | None => headers
    end in
  let headers :=
    match authToken c with
    | Some token =>
        if present (Some token)
        then set_header "Authorization" ("Bearer " ++ token) headers
        else headers
    | None => headers
    end in
  {| req_method := req_method config; req_baseURL := req_baseURL config;
     req_url := req_url config; req_params := req_params config;
     req_data := req_data config; req_headers := headers |}.

(** The response interceptor: a response is replaced by its [data]; an
    error by [new Error(errorMessage)]. *)
Definition response_interceptor (o : AxiosOutcome) : M JsValue :=
  match o with
  | Fulfilled response_data => ret response_data
  | Rejected error =>
      response <- lift (get_prop error "response") ;;
      message <- lift (get_prop error "message") ;;
      let errorMessage :=
        js_or (js_or (get_prop_opt (get_prop_opt response "data") "message") message)
              (JStr "Request failed") in
      throw (new_Error (String_ errorMessage))
  end.

(** One request through the axios instance made by the constructor
    (defaults: the base URL and a JSON content type). *)
Definition instance_request (c : HttpClient) (method : Method) (url : string)
    (data : option string) (config : option AxiosRequestConfig) : M JsValue :=
  let params := match config with Some cfg => cfg_params cfg | None => JUndefined end in
  let headers := match config with Some cfg => cfg_headers cfg | None => [] end in
  let request :=
    {| req_method := method; req_baseURL := baseURL c; req_url := url;
       req_params := params; req_data := data;
       req_headers := spread_headers [("Content-Type", "application/json")] headers |} in
  o <- transport (request_interceptor c request) ;;
  response_interceptor o.

Definition get (c : HttpClient) (url : string) (config : option AxiosRequestConfig)
  : M JsValue :=
  instance_request c GET url None config.

(** The content type of a request made with [config], before the body is
    encoded: that of the config, or the JSON default of the instance. *)
Definition content_type (config : option AxiosRequestConfig) : option string :=
  get_header "Content-Type"
    (spread_headers [("Content-Type", "application/json")]
       (match config with Some cfg => cfg_headers cfg | None => [] end)).

(** [post] hands any data to the instance; the body sent is what axios
    makes of the data under the content type of the request. *)
Definition post (c : HttpClient) (url : string) (data : JsValue)
    (config : option AxiosRequestConfig) : M JsValue :=
  instance_request c POST url (axios_transformRequest (content_type config) data) config.

(** The body of the [forEach] callback of [postForm]. *)
Definition postForm_field (data : list (string * JsValue))
    (formData : URLSearchParams) (key : string) : URLSearchParams :=
  let value := lookup key data in
  if negb (nullish value) then
    if String.eqb (typeof value) "object"
    then append formData key (JSON_stringify value)
    else append formData key (String_ value)
  else formData.

Definition Object_keys (data : list (string * JsValue)) : list string := map fst data.

Definition postForm_formData (data : list (string * JsValue)) : URLSearchParams :=
  fold_left (postForm_field data) (Object_keys data) [].

Definition postForm (c : HttpClient) (url : string) (data : list (string * JsValue))
    (config : option AxiosRequestConfig) : M JsValue :=
  let formData := postForm_formData data in
  let params := match config with Some cfg => cfg_params cfg | None => JUndefined end in
  let headers := match config with Some cfg => cfg_headers cfg | None => [] end in
  instance_request c POST url (Some (URLSearchParams_toString formData))
    (Some {| cfg_params := params;
             cfg_headers :=
               spread_headers [("Content-Type", "application/x-www-form-urlencoded")] headers |}).

(** The fields of the form as the specification words them: the entries
    whose value is neither undefined nor null, a structured value as its
    JSON text and any other value as its string. *)
Definition spec_form_fields (data : list (string * JsValue)) : URLSearchParams :=
  map (fun kv =>
         (fst kv,
          if String.eqb (typeof (snd kv)) "object"
          then JSON_stringify (snd kv)
          else String_ (snd kv)))
      (filter (fun kv => negb (nullish (snd kv))) data).

(** The request [get] hands to the transport. *)
Definition get_request (c : HttpClient) (url : string) (config : option AxiosRequestConfig)
  : Request :=
  request_interceptor c
    {| req_method := GET; req_baseURL := baseURL c; req_url := url;
       req_params := match config with Some cfg => cfg_params cfg | None => JUndefined end;
       req_data := None;
       req_headers :=
         spread_headers [("Content-Type", "application/json")]
           (match config with Some cfg => cfg_headers cfg | None => [] end) |}.

(** The request [postForm] hands to the transport. *)
Definition form_request_with (c : HttpClient) (url : string)
    (data : list (string * JsValue)) (config : option AxiosRequestConfig) : Request :=
  request_interceptor c
    {| req_method := POST; req_baseURL := baseURL c; req_url := url;
       req_params := match config with Some cfg => cfg_params cfg | None => JUndefined end;
       req_data := Some (URLSearchParams_toString (postForm_formData data));
       req_headers :=
         spread_headers [("Content-Type", "application/json")]
           (spread_headers [("Content-Type", "application/x-www-form-urlencoded")]
              (match config with Some cfg => cfg_headers cfg | None => [] end)) |}.

(** The same without a config, as the SDK calls it. *)
Definition form_request (c : HttpClient) (url : string) (data : list (string * JsValue))
  : Request :=
  form_request_with c url data None.

End Client.

(* ================================================================== *)
(** ** DipCoinPerpSDK (sdk/index.ts) *)
(* ================================================================== *)

(** The uniform result [SDKResponse<T>]: [data] and [error] are optional. *)
Record SDKResponse : Type := {
  status : bool;
  data : option JsValue;
  error : option JsValue
}.

(** The locals bound by the destructuring in [placeOrder], defaults
    applied. *)
Module Params.
Record t : Type := {
  symbol : JsValue;
  side : JsValue;
  orderType : JsValue;
  quantity : JsValue;
  price : JsValue;
  leverage : JsValue;
  market : JsValue;
  reduceOnly : JsValue;
  clientId : JsValue;
  tpTriggerPrice : JsValue;
  tpOrderType : JsValue;
  tpOrderPrice : JsValue;
  slTriggerPrice : JsValue;
  slOrderType : JsValue;
  slOrderPrice : JsValue
}.
End Params.

(** The orders and salts [placeOrder] holds once its legs are built;
    [None] is the source's [null]. *)
Record Legs : Type := {
  order : Order.t;
  saltBN : BigNumber;
  tpOrder : option Order.t;
  tpSalt : option BigNumber;
  slOrder : option Order.t;
  slSalt : option BigNumber
}.

Record Signatures : Type := {
  orderSignature : string;
  tpOrderSignature : option string;
  slOrderSignature : option string
}.

Section SDK.
Context {P : Platform}.

Record DipCoinPerpSDK : Type := {
  httpClient : HttpClient;
  keypair : Keypair;
  walletAddress : string
}.

(** The constructor: the key is imported when given as a string, and the
    derived address is set on the HTTP client. *)
Definition new_DipCoinPerpSDK (privateKey : string + Keypair) (apiBaseUrl : string)
  : Outcome DipCoinPerpSDK :=
  let build kp :=
    let address := toSuiAddress kp in
    {| httpClient := setWalletAddress (new_HttpClient apiBaseUrl) address;
       keypair := kp;
       walletAddress := address |} in
  match privateKey with
  | inl exported =>
      match fromExportedKeypair exported with
      | Returned kp => Returned (build kp)
      | Thrown e => Thrown e
      end
  | inr kp => Returned (build kp)
  end.

Definition success (d : JsValue) : SDKResponse :=
  {| status := true; data := Some d; error := None |}.

Definition failure (e : JsValue) : SDKResponse :=
  {| status := false; data := None; error := Some e |}.

(** The [catch (error)] block every operation ends with. *)
Definition catch_all (error : JsValue) : M SDKResponse :=
  ret (failure (JStr (formatError error))).

(** *** placeOrder *)

(** "Validate required parameters". *)
Definition placeOrder_validate (params : JsValue) : M unit :=
  symbol <- lift (get_prop params "symbol") ;;
  side <- lift (get_prop params "side") ;;
  orderType <- lift (get_prop params "orderType") ;;
  quantity <- lift (get_prop params "quantity") ;;
  leverage <- lift (get_prop params "leverage") ;;
  if falsy symbol || falsy side || falsy orderType || falsy quantity || falsy leverage
  then throw (new_Error "Missing required order parameters")
  else
    price <- lift (get_prop params "price") ;;
    if strict_eq_str orderType OrderType.LIMIT && falsy price
    then throw (new_Error "Price is required for LIMIT orders")
    else ret tt.

(** [const { symbol, ..., slOrderPrice = "" } = params]. *)
Definition destructure (params : JsValue) : Outcome Params.t :=
  match params with
  | JUndefined | JNull => Thrown (TypeError "Cannot destructure nullish value")
  | _ =>
      let field := get_prop_opt params in
      Returned
        {| Params.symbol := field "symbol";
           Params.side := field "side";
           Params.orderType := field "orderType";
           Params.quantity := field "quantity";
           Params.price := field "price";
           Params.leverage := field "leverage";
           Params.market := field "market";
           Params.reduceOnly := with_default (field "reduceOnly") (JBool false);
           Params.clientId := with_default (field "clientId") (JStr "");
           Params.tpTriggerPrice := field "tpTriggerPrice";
           Params.tpOrderType := with_default (field "tpOrderType") (JStr OrderType.MARKET);
           Params.tpOrderPrice := with_default (field "tpOrderPrice") (JStr "");
           Params.slTriggerPrice := field "slTriggerPrice";
           Params.slOrderType := with_default (field "slOrderType") (JStr OrderType.MARKET);
           Params.slOrderPrice := with_default (field "slOrderPrice") (JStr "") |}
  end.

Definition zeroBN : BigNumber := new_BigNumber (number_of_Z 0).

(** "Build main order object", with the conversions before it. *)
Definition buildMainOrder (sdk : DipCoinPerpSDK) (p : Params.t) : M Order.t :=
  priceBN <- (if truthy (Params.price p)
              then lift (formatNormalToWeiBN (Params.price p))
              else ret zeroBN) ;;
  quantityBN <- lift (formatNormalToWeiBN (Params.quantity p)) ;;
  leverageBN <- lift (formatNormalToWeiBN (Params.leverage p)) ;;
  let expirationBN := zeroBN in
  now <- Date_now ;;
  let saltBN := new_BigNumber now in
  ret {| Order.market := js_or (Params.market p) (Params.symbol p);
         Order.creator := walletAddress sdk;
         Order.isLong := strict_eq_str (Params.side p) "BUY";
         Order.reduceOnly := Params.reduceOnly p;
         Order.postOnly := false;
         Order.orderbookOnly := true;
         Order.ioc := false;
         Order.quantity := quantityBN;
         Order.price :=
           if strict_eq_str (Params.orderType p) OrderType.LIMIT then priceBN else zeroBN;
         Order.leverage := leverageBN;
         Order.expiration := expirationBN;
         Order.salt := saltBN |}.

(** "Build TP order if trigger price is provided". *)
Definition buildTpOrder (sdk : DipCoinPerpSDK) (p : Params.t) (order : Order.t)
  : M (option Order.t * option BigNumber) :=
  if truthy (Params.tpTriggerPrice p) then
    now <- Date_now ;;
    let tpSalt := new_BigNumber (number_add now (number_of_Z 1)) in
    tpPrice <- (if strict_eq_str (Params.tpOrderType p) OrderType.LIMIT
                then lift (formatNormalToWeiBN
                             (js_or (Params.tpOrderPrice p) (Params.tpTriggerPrice p)))
                else ret zeroBN) ;;
    ret (Some {| Order.market := Order.market order;
                 Order.creator := walletAddress sdk;
                 Order.isLong := negb (Order.isLong order);
                 Order.reduceOnly := JBool true;
                 Order.postOnly := false;
                 Order.orderbookOnly := true;
                 Order.ioc := false;
                 Order.quantity := Order.quantity order;
                 Order.price := tpPrice;
                 Order.leverage := Order.leverage order;
                 Order.expiration := Order.expiration order;
                 Order.salt := tpSalt |},
         Some tpSalt)
  else ret (None, None).

(** "Build SL order if trigger price is provided". *)
Definition buildSlOrder (sdk : DipCoinPerpSDK) (p : Params.t) (order : Order.t)
  : M (option Order.t * option BigNumber) :=
  if truthy (Params.slTriggerPrice p) then
    now <- Date_now ;;
    let slSalt := new_BigNumber (number_add now (number_of_Z 2)) in
    slPrice <- (if strict_eq_str (Params.slOrderType p) OrderType.LIMIT
                then lift (formatNormalToWeiBN
                             (js_or (Params.slOrderPrice p) (Params.slTriggerPrice p)))
                else ret zeroBN) ;;
    ret (Some {| Order.market := Order.market order;
                 Order.creator := walletAddress sdk;
                 Order.isLong := negb (Order.isLong order);
                 Order.reduceOnly := JBool true;
                 Order.postOnly := false;
                 Order.orderbookOnly := true;
                 Order.ioc := false;
                 Order.quantity := Order.quantity order;
                 Order.price := slPrice;
                 Order.leverage := Order.leverage order;
                 Order.expiration := Order.expiration order;
                 Order.salt := slSalt |},
         Some slSalt)
  else ret (None, None).

Definition buildLegs (sdk : DipCoinPerpSDK) (p : Params.t) : M Legs :=
  order <- buildMainOrder sdk p ;;
  tp <- buildTpOrder sdk p order ;;
  sl <- buildSlOrder sdk p order ;;
  ret {| order := order; saltBN := Order.salt order;
         tpOrder := fst tp; tpSalt := snd tp;
         slOrder := fst sl; slSalt := snd sl |}.

(** Message, bytes and signature of one leg. *)
Definition signOrder (sdk : DipCoinPerpSDK) (o : Order.t) : M string :=
  orderMsg <- lift (getOrderMessageForUIWallet o) ;;
  let orderHashBytes := TextEncoder_encode orderMsg in
  lift (signMessage (keypair sdk) orderHashBytes).

(** "Sign main order", "Sign TP order if exists", "Sign SL order if
    exists". *)
Definition signLegs (sdk : DipCoinPerpSDK) (l : Legs) : M Signatures :=
  orderSignature <- signOrder sdk (order l) ;;
  tpOrderSignature <- match tpOrder l with
                      | Some tp => s <- signOrder sdk tp ;; ret (Some s)
                      | None => ret None
                      end ;;
  slOrderSignature <- match slOrder l with
                      | Some sl => s <- signOrder sdk sl ;; ret (Some s)
                      | None => ret None
                      end ;;
  ret {| orderSignature := orderSignature;
         tpOrderSignature := tpOrderSignature;
         slOrderSignature := slOrderSignature |}.

(** [salt?.toString()]. *)
Definition salt_toString (s : option BigNumber) : JsValue :=
  match s with Some b => JStr (BigNumber_toString b) | None => JUndefined end.

(** "Build request parameters" and the two conditional additions. *)
Definition buildRequestParams (sdk : DipCoinPerpSDK) (p : Params.t) (l : Legs)
    (sg : Signatures) : M (list (string * JsValue)) :=
  quantity <- lift (formatNormalToWei (Params.quantity p)) ;;
  price <- (if strict_eq_str (Params.orderType p) OrderType.LIMIT && truthy (Params.price p)
            then lift (formatNormalToWei (Params.price p))
            else ret "") ;;
  leverage <- lift (formatNormalToWei (Params.leverage p)) ;;
  reduceOnly <- lift (toString (Params.reduceOnly p)) ;;
  let requestParams :=
    [ ("symbol", Params.symbol p);
      ("side", Params.side p);
      ("orderType", Params.orderType p);
      ("quantity", JStr quantity);
      ("price", JStr price);
      ("leverage", JStr leverage);
      ("salt", JStr (BigNumber_toString (saltBN l)));
      ("creator", JStr (walletAddress sdk));
      ("clientId", Params.clientId p);
      ("reduceOnly", JStr reduceOnly);
      ("orderSignature", JStr (orderSignature sg)) ] in
  requestParams <-
    (if truthy (Params.tpTriggerPrice p) && present (tpOrderSignature sg) then
       let requestParams :=
         assign "tpOrderSignature"
           (match tpOrderSignature sg with Some s => JStr s | None => JUndefined end)
           requestParams in
       tpTriggerPrice <- lift (formatNormalToWei (Params.tpTriggerPrice p)) ;;
       let requestParams := assign "tpTriggerPrice" (JStr tpTriggerPrice) requestParams in
       let requestParams := assign "tpOrderType" (Params.tpOrderType p) requestParams in
       tpOrderPrice <-
         (if strict_eq_str (Params.tpOrderType p) OrderType.LIMIT
          then lift (formatNormalToWei
                       (js_or (Params.tpOrderPrice p) (Params.tpTriggerPrice p)))
          else ret "") ;;
       let requestParams := assign "tpOrderPrice" (JStr tpOrderPrice) requestParams in
       let requestParams := assign "tpSalt" (salt_toString (tpSalt l)) requestParams in
       ret (assign "triggerWay" (JStr "oracle") requestParams)
     else ret requestParams) ;;
  (if truthy (Params.slTriggerPrice p) && present (slOrderSignature sg) then
     let requestParams :=
       assign "slOrderSignature"
         (match slOrderSignature sg with Some s => JStr s | None => JUndefined end)
         requestParams in
     slTriggerPrice <- lift (formatNormalToWei (Params.slTriggerPrice p)) ;;
     let requestParams := assign "slTriggerPrice" (JStr slTriggerPrice) requestParams in
     let requestParams := assign "slOrderType" (Params.slOrderType p) requestParams in
     slOrderPrice <-
       (if strict_eq_str (Params.slOrderType p) OrderType.LIMIT
        then lift (formatNormalToWei
                     (js_or (Params.slOrderPrice p) (Params.slTriggerPrice p)))
        else ret "") ;;
     let requestParams := assign "slOrderPrice" (JStr slOrderPrice) requestParams in
     ret (assign "slSalt" (salt_toString (slSalt l)) requestParams)
   else ret requestParams).

(** [code === 200] decides between the two results; [fallback] is the
    operation's generic message. *)
Definition order_result (response : JsValue) (fallback : string) : M SDKResponse :=
  code <- lift (get_prop response "code") ;;
  if strict_eq_num code (number_of_Z 200)
  then ret (success response)
  else
    message <- lift (get_prop response "message") ;;
    ret (failure (js_or message (JStr fallback))).

Definition placeOrder (sdk : DipCoinPerpSDK) (params : JsValue) : M SDKResponse :=
  try_catch
    (placeOrder_validate params ;;;
     p <- lift (destructure params) ;;
     legs <- buildLegs sdk p ;;
     signatures <- signLegs sdk legs ;;
     requestParams <- buildRequestParams sdk p legs signatures ;;
     response <- postForm (httpClient sdk) PLACE_ORDER requestParams None ;;
     order_result response "Failed to place order")
    catch_all.

(** The steps of [placeOrder] up to its legs: validation, destructuring
    and the three orders.  [placeOrder_runs_build] below shows that
    [placeOrder] begins with exactly these. *)
Definition placeOrder_build (sdk : DipCoinPerpSDK) (params : JsValue)
  : M (Params.t * Legs) :=
  placeOrder_validate params ;;;
  p <- lift (destructure params) ;;
  legs <- buildLegs sdk p ;;
  ret (p, legs).

(** *** cancelOrder *)

Definition cancelOrder (sdk : DipCoinPerpSDK) (params : JsValue) : M SDKResponse :=
  try_catch
    (symbol <- lift (get_prop params "symbol") ;;
     orderHashes <- lift (get_prop params "orderHashes") ;;
     parentAddress0 <- lift (get_prop params "parentAddress") ;;
     let parentAddress := with_default parentAddress0 (JStr (walletAddress sdk)) in
     length <- (if truthy orderHashes then lift (get_prop orderHashes "length")
                else ret JUndefined) ;;
     if falsy orderHashes || strict_eq_num length (number_of_Z 0)
     then throw (new_Error "Order hashes are required")
     else
       let cancelOrderObj := JObj [("orderHashes", orderHashes)] in
       let orderHashBytes := TextEncoder_encode (JSON_stringify cancelOrderObj) in
       signature <- lift (signMessage (keypair sdk) orderHashBytes) ;;
       let requestParams :=
         [ ("symbol", symbol);
           ("orderHashes", JStr (JSON_stringify orderHashes));
           ("signature", JStr signature);
           ("parentAddress", parentAddress) ] in
       response <- postForm (httpClient sdk) CANCEL_ORDER requestParams None ;;
       order_result response "Failed to cancel order")
    catch_all.

(** *** getAccountInfo *)

Definition getAccountInfo (sdk : DipCoinPerpSDK) : M SDKResponse :=
  try_catch
    (response <- get (httpClient sdk) GET_ACCOUNT_INFO None ;;
     code <- lift (get_prop response "code") ;;
     data <- lift (get_prop response "data") ;;
     if strict_eq_num code (number_of_Z 200) && truthy data then
       let field k := js_or (get_prop_opt data k) (JStr "0") in
       ret (success (JObj [ ("walletBalance", field "walletBalance");
                            ("totalUnrealizedProfit", field "totalUnrealizedProfit");
                            ("accountValue", field "accountValue");
                            ("freeCollateral", field "freeCollateral");
                            ("totalMargin", field "totalMargin") ]))
     else
       message <- lift (get_prop response "message") ;;
       ret (failure (js_or message (JStr "Failed to get account info"))))
    catch_all.

(** *** getPositions and getOpenOrders *)

(** [const params = {}; if (symbol) { params.symbol = symbol; }]. *)
Definition symbol_filter (symbol : JsValue) : list (string * JsValue) :=
  if truthy symbol then assign "symbol" symbol [] else [].

(** [Array.isArray(response.data) ? response.data : response.data?.data || []]. *)
Definition normalize_list (response_data : JsValue) : JsValue :=
  if isArray response_data then response_data
  else js_or (get_prop_opt response_data "data") (JArr []).

Definition getPositions (sdk : DipCoinPerpSDK) (symbol : JsValue) : M SDKResponse :=
  try_catch
    (let params := symbol_filter symbol in
     response <- get (httpClient sdk) GET_POSITIONS
                   (Some {| cfg_params := JObj params; cfg_headers := [] |}) ;;
     code <- lift (get_prop response "code") ;;
     if strict_eq_num code (number_of_Z 200) then
       response_data <- lift (get_prop response "data") ;;
       let positions := normalize_list response_data in
       ret (success positions)
     else
       message <- lift (get_prop response "message") ;;
       ret (failure (js_or message (JStr "Failed to get positions"))))
    catch_all.

Definition getOpenOrders (sdk : DipCoinPerpSDK) (symbol : JsValue) : M SDKResponse :=
  try_catch
    (let params := symbol_filter symbol in
     response <- get (httpClient sdk) GET_OPEN_ORDERS
                   (Some {| cfg_params := JObj params; cfg_headers := [] |}) ;;
     code <- lift (get_prop response "code") ;;
     if strict_eq_num code (number_of_Z 200) then
       response_data <- lift (get_prop response "data") ;;
       let orders := normalize_list response_data in
       ret (success orders)
     else
       message <- lift (get_prop response "message") ;;
       ret (failure (js_or message (JStr "Failed to get open orders"))))
    catch_all.

End SDK.

(* ================================================================== *)
(** ** Configuration (config/index.ts) and the entry point (index.ts) *)
(* ================================================================== *)

(** ["mainnet" | "testnet"]. *)
Inductive Network : Type := mainnet | testnet.

Record DipCoinPerpSDKOptions : Type := {
  apiBaseUrl : string;
  network : Network;
  customRpc : option string
}.

(** [Partial<DipCoinPerpSDKOptions> & { network }]: only the network has
    to be there. *)
Record PartialOptions : Type := {
  given_apiBaseUrl : option string;
  given_network : Network;
  given_customRpc : option string
}.

(** [a || b] for a string that may be undefined. *)
Definition string_or (a : option string) (b : string) : string :=
  match a with
  | Some s => if String.eqb s "" then b else s
  | None => b
  end.

Module Config.

Definition DEFAULT_API_URLS (n : Network) : string :=
  match n with
  | mainnet => "https://gray-api.dipcoin.io"
  | testnet => "https://demoapi.dipcoin.io/exchange"
  end.

Definition initSDKOptions (options : PartialOptions) : DipCoinPerpSDKOptions :=
  {| apiBaseUrl :=
       string_or (given_apiBaseUrl options) (DEFAULT_API_URLS (given_network options));
     network := given_network options;
     customRpc := given_customRpc options |}.

End Config.

(** The second copy of the configuration module among the sources: the
    same function over another table. *)
Module Config2.

Definition DEFAULT_API_URLS (n : Network) : string :=
  match n with
  | mainnet => "https://api.dipcoin.io"
  | testnet => "https://testnet-api.dipcoin.io"
  end.

Definition initSDKOptions (options : PartialOptions) : DipCoinPerpSDKOptions :=
  {| apiBaseUrl :=
       string_or (given_apiBaseUrl options) (DEFAULT_API_URLS (given_network options));
     network := given_network options;
     customRpc := given_customRpc options |}.

End Config2.

Section EntryPoint.
Context {P : Platform}.

(** [initDipCoinPerpSDK]: the options are resolved, then the SDK is
    constructed on the resolved base URL. *)
Definition initDipCoinPerpSDK (privateKey : string + Keypair) (options : PartialOptions)
  : Outcome DipCoinPerpSDK :=
  let sdkOptions := Config.initSDKOptions options in
  new_DipCoinPerpSDK privateKey (apiBaseUrl sdkOptions).

End EntryPoint.

(* ================================================================== *)
(** ** A concrete platform, for running the client on inputs *)
(* ================================================================== *)

Module Demo.

Definition string_of_Z (z : Z) : string := NilZero.string_of_int (Z.to_int z).

Definition digit_value (c : ascii) : option Z :=
  let n := nat_of_ascii c in
  if ((48 <=? n) && (n <=? 57))%nat then Some (Z.of_nat (n - 48)) else None.

(** Digits with at most one point: the digits read as one integer, and
    how many of them stood after the point. *)
Fixpoint parse_decimal_from (s : string) (mantissa : Z) (fraction : option nat)
  : option (Z * nat) :=
  match s with
  | EmptyString =>
      Some (mantissa, match fraction with Some n => n | None => 0%nat end)
  | String c rest =>
      if Ascii.eqb c "." then
        match fraction with
        | None => parse_decimal_from rest mantissa (Some 0%nat)
        | Some _ => None
        end
      else
        match digit_value c with
        | Some d => parse_decimal_from rest (10 * mantissa + d) (option_map S fraction)
        | None => None
        end
  end.

Definition parse_decimal (s : string) : option Q :=
  if String.eqb s "" then None
  else match parse_decimal_from s 0 None with
       | Some (m, n) => Some (Qmake m (Z.to_pos (10 ^ Z.of_nat n)))
       | None => None
       end.

(** Modelled from the spec: the numeric normaliser of utils is not among
    the sources.  A non-negative decimal is scaled by 10^18 and truncated;
    anything else is refused. *)
Definition toWei (v : JsValue) : Outcome Z :=
  let scaled q := (Qnum q * 10 ^ 18 / Zpos (Qden q))%Z in
  match v with
  | JNum (JFinite q) =>
      if (Qnum q <? 0)%Z then Thrown (new_Error "Invalid number")
      else Returned (scaled q)
  | JStr s =>
      match parse_decimal s with
      | Some q => Returned (scaled q)
      | None => Thrown (new_Error "Invalid number")
      end
  | _ => Thrown (new_Error "Invalid number")
  end.

Definition formatNormalToWeiBN (v : JsValue) : Outcome BigNumber :=
  match toWei v with
  | Returned z => Returned (BigNumber_of_Z z)
  | Thrown e => Thrown e
  end.

Definition formatNormalToWei (v : JsValue) : Outcome string :=
  match toWei v with
  | Returned z => Returned (string_of_Z z)
  | Thrown e => Thrown e
  end.

(** Fraction digits of [r / d], while a remainder is left. *)
Fixpoint fraction_digits (fuel : nat) (r d : Z) : string :=
  match fuel with
  | O => EmptyString
  | S fuel' =>
      if (r =? 0)%Z then EmptyString
      else string_of_Z (10 * r / d) ++ fraction_digits fuel' ((10 * r) mod d) d
  end.

Definition string_of_Q (q : Q) : string :=
  let n := Qnum q in
  let d := Zpos (Qden q) in
  let a := Z.abs n in
  let whole := string_of_Z (a / d) in
  let frac := fraction_digits 20 (a mod d) d in
  (if (n <? 0)%Z then "-" else "")
  ++ whole ++ (if String.eqb frac "" then "" else "." ++ frac).

Definition Number_toString (n : JsNumber) : string :=
  match n with
  | JNaN => "NaN"
  | JInfinity false => "Infinity"
  | JInfinity true => "-Infinity"
  | JFinite q => string_of_Q q
  end.

Definition BigNumber_toString (b : BigNumber) : string :=
  match b with
  | BigNaN => "NaN"
  | BigInfinity false => "Infinity"
  | BigInfinity true => "-Infinity"
  | BigFinite q => string_of_Q q
  end.

Definition quote_char : ascii := ascii_of_nat 34.
Definition backslash : ascii := ascii_of_nat 92.

Fixpoint escape (s : string) : string :=
  match s with
  | EmptyString => EmptyString
  | String c rest =>
      if Ascii.eqb c quote_char || Ascii.eqb c backslash
      then String backslash (String c (escape rest))
      else String c (escape rest)
  end.

Definition quote (s : string) : string :=
  String quote_char (escape s ++ String quote_char EmptyString).

(** [JSON.stringify] on value trees (control characters are not escaped). *)
Fixpoint JSON_stringify (v : JsValue) : string :=
  match v with
  | JUndefined | JNull => "null"
  | JBool true => "true"
  | JBool false => "false"
  | JNum (JFinite q) => string_of_Q q
  | JNum _ => "null"
  | JStr s => quote s
  | JArr items => "[" ++ String.concat "," (map JSON_stringify items) ++ "]"
  | JObj props =>
      "{" ++ String.concat ","
               (flat_map (fun kv =>
                            match kv with
                            | (_, JUndefined) => []
                            | (k, x) => [quote k ++ ":" ++ JSON_stringify x]
                            end) props) ++ "}"
  end.

Definition Object_toString (v : JsValue) : string :=
  match v with
  | JArr items =>
      String.concat ","
        (map (fun x => match x with
                       | JStr s => s
                       | JBool true => "true"
                       | JBool false => "false"
                       | JNum n => Number_toString n
                       | JUndefined | JNull => ""
                       | _ => "[object Object]"
                       end) items)
  | _ => "[object Object]"
  end.

(** Modelled from the spec: [formatError] of utils is not among the
    sources.  The message of the error when it has one. *)
Definition formatError (error : JsValue) : string :=
  match get_prop_opt error "message" with
  | JStr m => m
  | _ => match error with JStr s => s | _ => "Unknown error" end
  end.

(** A stand-in signer: the message length, in place of a signature. *)
Definition signMessage (_ : unit) (bytes : list ascii) : Outcome string :=
  Returned ("sig" ++ string_of_Z (Z.of_nat (List.length bytes))).

Definition getOrderMessageForUIWallet (o : Order.t) : Outcome string :=
  Returned (BigNumber_toString (Order.salt o) ++ (if Order.isLong o then "L" else "S")).

(** A stand-in for the request transform of axios: no body for undefined
    data; under a JSON content type the JSON text of the data (a string
    that is JSON text already is not told apart); otherwise a string as it
    is. *)
Definition transformRequest (contentType : option string) (data : JsValue)
  : option string :=
  let json :=
    match contentType with
    | Some t => match String.index 0 "application/json" t with Some _ => true | None => false end
    | None => false
    end in
  match data with
  | JUndefined => None
  | JStr s => Some (if json then JSON_stringify data else s)
  | _ => Some (JSON_stringify data)
  end.

#[local] Instance platform : Platform :=
  Build_Platform unit formatNormalToWei formatNormalToWeiBN signMessage formatError
    (fun _ => Returned tt) (fun _ => "0xwallet") getOrderMessageForUIWallet
    JSON_stringify Number_toString Object_toString BigNumber_toString
    "/api/perp-trade-api/trade/placeorder"
    "/api/perp-trade-api/trade/cancelorder"
    "/api/perp-trade-api/curr-info/account"
    "/api/perp-trade-api/curr-info/positions"
    "/api/perp-trade-api/curr-info/orders"
    transformRequest.

Definition sdk : DipCoinPerpSDK :=
  {| httpClient := setWalletAddress (new_HttpClient "https://demoapi.dipcoin.io/exchange") "0xwallet";
     keypair := tt;
     walletAddress := "0xwallet" |}.

(** A world whose clock stands still at [t] and whose server answers every
    request with [response]. *)
Definition still (t : Z) (response : AxiosOutcome) : World :=
  {| clock := fun _ => t; reads := 0; server := fun _ => response; sent := [] |}.

(** A world whose clock gives the listed readings, one per reading taken
    (and 0 once they are used up), and whose server answers every request
    with [response]. *)
Definition replay (readings : list Z) (response : AxiosOutcome) : World :=
  {| clock := fun i => nth i readings 0%Z; reads := 0;
     server := fun _ => response; sent := [] |}.

(** The clock gains a millisecond between two readings. *)
Definition advancing (response : AxiosOutcome) : World :=
  replay [1700000000000; 1700000000001; 1700000000002]%Z response.

(** The clock is set back by a millisecond between two readings. *)
Definition set_back (response : AxiosOutcome) : World :=
  replay [1700000000002; 1700000000001; 1700000000000]%Z response.

(** The server's answer to an order that went through. *)
Definition order_200 : AxiosOutcome :=
  Fulfilled (JObj [("code", JNum (number_of_Z 200)); ("message", JStr "success")]).

(** The MARKET intent of the specification's end-to-end scenario. *)
Definition market_intent : JsValue :=
  JObj [ ("symbol", JStr "BTC-PERP"); ("side", JStr "BUY"); ("orderType", JStr "MARKET");
         ("quantity", JStr "0.01"); ("leverage", JStr "10"); ("market", JStr "0xabc") ].

(** A LIMIT intent with a take-profit and a stop-loss trigger. *)
Definition bracket_intent : JsValue :=
  JObj [ ("symbol", JStr "BTC-PERP"); ("side", JStr "BUY"); ("orderType", JStr "LIMIT");
         ("quantity", JStr "0.01"); ("price", JStr "65000"); ("leverage", JStr "10");
         ("market", JStr "0xabc");
         ("tpTriggerPrice", JStr "70000"); ("tpOrderType", JStr "LIMIT");
         ("slTriggerPrice", JStr "60000") ].

(** The MARKET intent with a take-profit trigger price of 0. *)
Definition zero_trigger_intent : JsValue :=
  JObj [ ("symbol", JStr "BTC-PERP"); ("side", JStr "BUY"); ("orderType", JStr "MARKET");
         ("quantity", JStr "0.01"); ("leverage", JStr "10"); ("market", JStr "0xabc");
         ("tpTriggerPrice", JNum (number_of_Z 0)) ].

Definition cancel_intent : list (string * JsValue) :=
  [ ("symbol", JStr "BTC-PERP"); ("orderHashes", JArr [JStr "0xab"; JStr "0xcd"]) ].

Definition position (symbol : string) : JsValue :=
  JObj [("symbol", JStr symbol); ("quantity", JStr "1")].

Definition bare_positions : JsValue :=
  JObj [ ("code", JNum (number_of_Z 200));
         ("data", JArr [position "BTC-PERP"; position "ETH-PERP"]) ].

Definition wrapped_positions : JsValue :=
  JObj [ ("code", JNum (number_of_Z 200));
         ("data", JObj [ ("data", JArr [position "BTC-PERP"; position "ETH-PERP"]);
                         ("pageNum", JNum (number_of_Z 1)) ]) ].

Definition account_response : JsValue :=
  JObj [ ("code", JNum (number_of_Z 200));
         ("data", JObj [ ("walletBalance", JStr "125.5");
                         ("accountValue", JStr "130") ]) ].

Definition code_only_response : JsValue :=
  JObj [ ("code", JNum (number_of_Z 200)) ].

Definition form_data : list (string * JsValue) :=
  [ ("symbol", JStr "BTC PERP"); ("clientId", JUndefined); ("reduceOnly", JBool false);
    ("parent", JNull); ("orderHashes", JArr [JStr "0xab"]); ("leverage", JNum (number_of_Z 10)) ].

End Demo.

(* ================================================================== *)
(** ** Reasoning about calls *)
(* ================================================================== *)


(** [m] leaves the clock and the network alone. *)
Definition quiet {A} (m : M A) : Prop := forall w, snd (m w) = w.



Section CallLemmas.
Context {P : Platform}.








Lemma bind_returned_inv {A B} (m : M A) (f : A -> M B) (w w' : World) (b : B) :
  bind m f w = (Returned b, w') ->
  exists a w1, m w = (Returned a, w1) /\ f a w1 = (Returned b, w').
Proof.
  unfold bind. destruct (m w) as [[a | e] w1]; intro H.
  - exists a, w1. split; [reflexivity | exact H].
  - discriminate H.
Qed.

Lemma lift_returned_inv {A} (o : Outcome A) (w w' : World) (a : A) :
  lift o w = (Returned a, w') -> o = Returned a /\ w' = w.
Proof. unfold lift. intro H. inversion H. split; reflexivity. Qed.

Lemma ret_returned_inv {A} (x a : A) (w w' : World) :
  ret x w = (Returned a, w') -> a = x /\ w' = w.
Proof. unfold ret. intro H. inversion H. split; reflexivity. Qed.

Lemma Date_now_inv (w w' : World) (n : JsNumber) :
  Date_now w = (Returned n, w') -> n = number_of_Z (clock w (reads w)) /\ w' = tick w.
Proof. unfold Date_now. intro H. inversion H. split; reflexivity. Qed.

(** *** Salts as integers *)

Lemma isEqualTo_of_Z (a b : Z) :
  isEqualTo (BigNumber_of_Z a) (BigNumber_of_Z b) = (a =? b)%Z.
Proof.
  cbn. destruct (Z.eqb_spec a b) as [-> | N].
  - apply Qeq_bool_refl.
  - destruct (Qeq_bool (inject_Z a) (inject_Z b)) eqn:E; [| reflexivity].
    apply Qeq_bool_eq in E. apply (proj1 (inject_Z_injective a b)) in E. contradiction.
Qed.

(** [new BigNumber(t + k)] for a clock reading [t] is the integer [t + k]. *)
Lemma offset_salt (t k b : Z) :
  isEqualTo (new_BigNumber (number_add (number_of_Z t) (number_of_Z k))) (BigNumber_of_Z b)
  = (t + k =? b)%Z.
Proof.
  rewrite <- isEqualTo_of_Z.
  unfold BigNumber_of_Z, number_of_Z, number_add, new_BigNumber, isEqualTo.
  rewrite inject_Z_plus. reflexivity.
Qed.

Lemma offset_salts (t k u j : Z) :
  isEqualTo (new_BigNumber (number_add (number_of_Z t) (number_of_Z k)))
            (new_BigNumber (number_add (number_of_Z u) (number_of_Z j)))
  = (t + k =? u + j)%Z.
Proof.
  rewrite <- isEqualTo_of_Z.
  unfold BigNumber_of_Z, number_of_Z, number_add, new_BigNumber, isEqualTo.
  rewrite !inject_Z_plus. reflexivity.
Qed.

Lemma plusZ_of_Z (a k : Z) (x : BigNumber) :
  isEqualTo x (plusZ (BigNumber_of_Z a) k) = isEqualTo x (BigNumber_of_Z (a + k)).
Proof.
  unfold BigNumber_of_Z, number_of_Z, new_BigNumber, plusZ.
  rewrite inject_Z_plus. reflexivity.
Qed.

(** *** Steps that leave the world alone *)

Lemma quiet_ret {A} (a : A) : quiet (ret a).
Proof. intro w. reflexivity. Qed.

Lemma quiet_throw {A} (e : JsValue) : quiet (@throw A e).
Proof. intro w. reflexivity. Qed.

Lemma quiet_lift {A} (o : Outcome A) : quiet (lift o).
Proof. intro w. reflexivity. Qed.

Lemma quiet_bind {A B} (m : M A) (f : A -> M B) :
  quiet m -> (forall a, quiet (f a)) -> quiet (bind m f).
Proof.
  intros Hm Hf w. unfold bind. specialize (Hm w).
  destruct (m w) as [[a | e] w1]; cbn in Hm; subst w1.
  - apply Hf.
  - reflexivity.
Qed.

Lemma quiet_try_catch {A} (body : M A) (handler : JsValue -> M A) :
  quiet body -> (forall e, quiet (handler e)) -> quiet (try_catch body handler).
Proof.
  intros Hb Hh w. unfold try_catch. specialize (Hb w).
  destruct (body w) as [[a | e] w1]; cbn in Hb; subst w1.
  - reflexivity.
  - apply Hh.
Qed.

Lemma quiet_response_interceptor (o : AxiosOutcome) : quiet (response_interceptor o).
Proof.
  destruct o as [d | error]; cbn.
  - apply quiet_ret.
  - apply quiet_bind; [apply quiet_lift | intro].
    apply quiet_bind; [apply quiet_lift | intro]. apply quiet_throw.
Qed.

Lemma quiet_order_result (response : JsValue) (fallback : string) :
  quiet (order_result response fallback).
Proof.
  unfold order_result. apply quiet_bind; [apply quiet_lift | intro code].
  destruct (strict_eq_num code (number_of_Z 200)).
  - apply quiet_ret.
  - apply quiet_bind; [apply quiet_lift | intro]. apply quiet_ret.
Qed.

Lemma number_eqb_of_Z (a b : Z) :
  number_eqb (number_of_Z a) (number_of_Z b) = (a =? b)%Z.
Proof.
  cbn. destruct (Z.eqb_spec a b) as [-> | N].
  - apply Qeq_bool_refl.
  - destruct (Qeq_bool (inject_Z a) (inject_Z b)) eqn:E; [| reflexivity].
    apply Qeq_bool_eq in E. apply (proj1 (inject_Z_injective a b)) in E. contradiction.
Qed.

(** *** The validation step of [placeOrder] on an object *)

(** The first test of [placeOrder]: one of the five fields is falsy. *)
Definition missing_required (props : list (string * JsValue)) : bool :=
  falsy (lookup "symbol" props) || falsy (lookup "side" props)
  || falsy (lookup "orderType" props) || falsy (lookup "quantity" props)
  || falsy (lookup "leverage" props).

(** The second test: a LIMIT order with a falsy price. *)
Definition limit_without_price (props : list (string * JsValue)) : bool :=
  strict_eq_str (lookup "orderType" props) OrderType.LIMIT && falsy (lookup "price" props).

Lemma placeOrder_validate_object (props : list (string * JsValue)) (w : World) :
  placeOrder_validate (JObj props) w =
  (if missing_required props
   then Thrown (new_Error "Missing required order parameters")
   else if limit_without_price props
        then Thrown (new_Error "Price is required for LIMIT orders")
        else Returned tt, w).
Proof.
  unfold placeOrder_validate, missing_required, limit_without_price, bind, lift, get_prop.
  destruct (falsy (lookup "symbol" props) || falsy (lookup "side" props)
            || falsy (lookup "orderType" props) || falsy (lookup "quantity" props)
            || falsy (lookup "leverage" props)); [reflexivity |].
  destruct (strict_eq_str (lookup "orderType" props) OrderType.LIMIT
            && falsy (lookup "price" props)); reflexivity.
Qed.

Lemma placeOrder_validation_thrown (sdk : DipCoinPerpSDK) (params e : JsValue) (w w' : World) :
  placeOrder_validate params w = (Thrown e, w') ->
  placeOrder sdk params w = (Returned (failure (JStr (formatError e))), w').
Proof.
  intro H. unfold placeOrder, try_catch, bind. rewrite H. reflexivity.
Qed.

Lemma placeOrder_missing_required (sdk : DipCoinPerpSDK) (props : list (string * JsValue))
    (w : World) :
  missing_required props = true ->
  placeOrder sdk (JObj props) w =
  (Returned (failure (JStr (formatError (new_Error "Missing required order parameters")))), w).
Proof.
  intro H. apply placeOrder_validation_thrown.
  rewrite placeOrder_validate_object, H. reflexivity.
Qed.

Lemma placeOrder_limit_without_price (sdk : DipCoinPerpSDK) (props : list (string * JsValue))
    (w : World) :
  missing_required props = false ->
  limit_without_price props = true ->
  placeOrder sdk (JObj props) w =
  (Returned (failure (JStr (formatError (new_Error "Price is required for LIMIT orders")))), w).
Proof.
  intros H1 H2. apply placeOrder_validation_thrown.
  rewrite placeOrder_validate_object, H1, H2. reflexivity.
Qed.

End CallLemmas.

(** Takes a returning run apart into the runs of its steps. *)
Ltac run_inv :=
  repeat match goal with
    | H : bind _ _ _ = (Returned _, _) |- _ =>
        apply bind_returned_inv in H; destruct H as (? & ? & ? & H)
    | H : lift _ _ = (Returned _, _) |- _ =>
        apply lift_returned_inv in H; destruct H as [H ?]; subst
    | H : ret _ _ = (Returned _, _) |- _ =>
        apply ret_returned_inv in H; destruct H as [? ?]; subst
    | H : Date_now _ = (Returned _, _) |- _ =>
        apply Date_now_inv in H; destruct H as [? ?]; subst
    end.


(* ================================================================== *)
(** ** What a returning run of each builder tells *)
(* ================================================================== *)

Section Builders.
Context {P : Platform}.

Lemma buildMainOrder_inv (sdk : DipCoinPerpSDK) (p : Params.t) (w w' : World) (o : Order.t) :
  buildMainOrder sdk p w = (Returned o, w') ->
  w' = tick w
  /\ Order.salt o = BigNumber_of_Z (clock w (reads w))
  /\ Order.isLong o = strict_eq_str (Params.side p) "BUY"
  /\ Order.reduceOnly o = Params.reduceOnly p
  /\ formatNormalToWeiBN (Params.quantity p) = Returned (Order.quantity o)
  /\ formatNormalToWeiBN (Params.leverage p) = Returned (Order.leverage o)
  /\ (strict_eq_str (Params.orderType p) OrderType.LIMIT = false -> Order.price o = zeroBN)
  /\ (strict_eq_str (Params.orderType p) OrderType.LIMIT = true ->
      if truthy (Params.price p)
      then formatNormalToWeiBN (Params.price p) = Returned (Order.price o)
      else Order.price o = zeroBN).
Proof.
  unfold buildMainOrder. intro H.
  destruct (truthy (Params.price p)); run_inv; cbn;
    repeat split; try assumption; intros ->; first [assumption | reflexivity].
Qed.

Lemma buildTpOrder_inv (sdk : DipCoinPerpSDK) (p : Params.t) (order : Order.t)
    (w w' : World) (r : option Order.t * option BigNumber) :
  buildTpOrder sdk p order w = (Returned r, w') ->
  if truthy (Params.tpTriggerPrice p) then
    w' = tick w
    /\ exists tp,
         fst r = Some tp /\ snd r = Some (Order.salt tp)
         /\ Order.salt tp =
            new_BigNumber (number_add (number_of_Z (clock w (reads w))) (number_of_Z 1))
         /\ Order.reduceOnly tp = JBool true
         /\ Order.isLong tp = negb (Order.isLong order)
         /\ (if strict_eq_str (Params.tpOrderType p) OrderType.LIMIT
             then formatNormalToWeiBN
                    (js_or (Params.tpOrderPrice p) (Params.tpTriggerPrice p))
                  = Returned (Order.price tp)
             else Order.price tp = zeroBN)
  else r = (None, None) /\ w' = w.
Proof.
  unfold buildTpOrder. intro H.
  destruct (truthy (Params.tpTriggerPrice p)); run_inv; [| split; reflexivity].
  destruct (strict_eq_str (Params.tpOrderType p) OrderType.LIMIT); run_inv;
    (split; [reflexivity |]); eexists; (split; [reflexivity |]); cbn;
    repeat split; assumption.
Qed.

Lemma buildSlOrder_inv (sdk : DipCoinPerpSDK) (p : Params.t) (order : Order.t)
    (w w' : World) (r : option Order.t * option BigNumber) :
  buildSlOrder sdk p order w = (Returned r, w') ->
  if truthy (Params.slTriggerPrice p) then
    w' = tick w
    /\ exists sl,
         fst r = Some sl /\ snd r = Some (Order.salt sl)
         /\ Order.salt sl =
            new_BigNumber (number_add (number_of_Z (clock w (reads w))) (number_of_Z 2))
         /\ Order.reduceOnly sl = JBool true
         /\ Order.isLong sl = negb (Order.isLong order)
         /\ (if strict_eq_str (Params.slOrderType p) OrderType.LIMIT
             then formatNormalToWeiBN
                    (js_or (Params.slOrderPrice p) (Params.slTriggerPrice p))
                  = Returned (Order.price sl)
             else Order.price sl = zeroBN)
  else r = (None, None) /\ w' = w.
Proof.
  unfold buildSlOrder. intro H.
  destruct (truthy (Params.slTriggerPrice p)); run_inv; [| split; reflexivity].
  destruct (strict_eq_str (Params.slOrderType p) OrderType.LIMIT); run_inv;
    (split; [reflexivity |]); eexists; (split; [reflexivity |]); cbn;
    repeat split; assumption.
Qed.

Lemma buildLegs_inv (sdk : DipCoinPerpSDK) (p : Params.t) (w w' : World) (l : Legs) :
  buildLegs sdk p w = (Returned l, w') ->
  exists w2,
    buildMainOrder sdk p w = (Returned (order l), tick w)
    /\ buildTpOrder sdk p (order l) (tick w) = (Returned (tpOrder l, tpSalt l), w2)
    /\ buildSlOrder sdk p (order l) w2 = (Returned (slOrder l, slSalt l), w')
    /\ saltBN l = Order.salt (order l).
Proof.
  unfold buildLegs. intro H.
  apply bind_returned_inv in H. destruct H as (o & w1 & Hm & H).
  apply bind_returned_inv in H. destruct H as ([tp tps] & w2 & Ht & H).
  apply bind_returned_inv in H. destruct H as ([sl sls] & w3 & Hs & H).
  apply ret_returned_inv in H. destruct H as [-> ->].
  pose proof (proj1 (buildMainOrder_inv _ _ _ _ _ Hm)) as E. subst w1.
  exists w2. cbn. repeat split; assumption.
Qed.

Lemma placeOrder_validate_pure (params : JsValue) :
  exists o, forall w, placeOrder_validate params w = (o, w).
Proof.
  unfold placeOrder_validate, bind, lift, throw, ret.
  destruct (get_prop params "symbol"); [| eexists; reflexivity].
  destruct (get_prop params "side"); [| eexists; reflexivity].
  destruct (get_prop params "orderType"); [| eexists; reflexivity].
  destruct (get_prop params "quantity"); [| eexists; reflexivity].
  destruct (get_prop params "leverage"); [| eexists; reflexivity].
  match goal with |- context [if ?c then _ else _] => destruct c end;
    [eexists; reflexivity |].
  destruct (get_prop params "price"); [| eexists; reflexivity].
  match goal with |- context [if ?c then _ else _] => destruct c end;
    eexists; reflexivity.
Qed.

Lemma placeOrder_build_inv (sdk : DipCoinPerpSDK) (params : JsValue) (w w' : World)
    (p : Params.t) (l : Legs) :
  placeOrder_build sdk params w = (Returned (p, l), w') ->
  placeOrder_validate params w = (Returned tt, w)
  /\ destructure params = Returned p
  /\ buildLegs sdk p w = (Returned l, w').
Proof.
  unfold placeOrder_build. intro H.
  destruct (placeOrder_validate_pure params) as [o Ho].
  apply bind_returned_inv in H. destruct H as (u & w1 & Hv & H).
  rewrite Ho in Hv. inversion Hv; subst. destruct u.
  run_inv. match goal with H : (_, _) = (_, _) |- _ => inversion H; subst end.
  repeat split; try assumption. apply Ho.
Qed.

(** *** When the legs get built *)

(** The fixed-point conversion of [v] succeeds. *)
Definition converts (v : JsValue) : Prop :=
  exists b, formatNormalToWeiBN v = Returned b.

Lemma buildMainOrder_returns (sdk : DipCoinPerpSDK) (p : Params.t) (w : World) :
  (truthy (Params.price p) = true -> converts (Params.price p)) ->
  converts (Params.quantity p) ->
  converts (Params.leverage p) ->
  exists o, buildMainOrder sdk p w = (Returned o, tick w).
Proof.
  intros Hp [q Hq] [lv Hl]. unfold buildMainOrder, bind, lift, ret, Date_now.
  destruct (truthy (Params.price p)).
  - destruct (Hp eq_refl) as [b Hb]. rewrite Hb, Hq, Hl. eexists. reflexivity.
  - rewrite Hq, Hl. eexists. reflexivity.
Qed.

Lemma buildTpOrder_returns (sdk : DipCoinPerpSDK) (p : Params.t) (order : Order.t)
    (w : World) :
  (truthy (Params.tpTriggerPrice p) = true ->
   strict_eq_str (Params.tpOrderType p) OrderType.LIMIT = true ->
   converts (js_or (Params.tpOrderPrice p) (Params.tpTriggerPrice p))) ->
  exists r w', buildTpOrder sdk p order w = (Returned r, w').
Proof.
  intro H. unfold buildTpOrder, bind, lift, ret, Date_now.
  destruct (truthy (Params.tpTriggerPrice p)); [| do 2 eexists; reflexivity].
  destruct (strict_eq_str (Params.tpOrderType p) OrderType.LIMIT).
  - destruct (H eq_refl eq_refl) as [b Hb]. rewrite Hb. do 2 eexists. reflexivity.
  - do 2 eexists. reflexivity.
Qed.

Lemma buildSlOrder_returns (sdk : DipCoinPerpSDK) (p : Params.t) (order : Order.t)
    (w : World) :
  (truthy (Params.slTriggerPrice p) = true ->
   strict_eq_str (Params.slOrderType p) OrderType.LIMIT = true ->
   converts (js_or (Params.slOrderPrice p) (Params.slTriggerPrice p))) ->
  exists r w', buildSlOrder sdk p order w = (Returned r, w').
Proof.
  intro H. unfold buildSlOrder, bind, lift, ret, Date_now.
  destruct (truthy (Params.slTriggerPrice p)); [| do 2 eexists; reflexivity].
  destruct (strict_eq_str (Params.slOrderType p) OrderType.LIMIT).
  - destruct (H eq_refl eq_refl) as [b Hb]. rewrite Hb. do 2 eexists. reflexivity.
  - do 2 eexists. reflexivity.
Qed.

(** A call on an object that passes validation builds its legs as soon as
    the conversions it needs succeed. *)
Lemma placeOrder_build_returns (sdk : DipCoinPerpSDK) (props : list (string * JsValue))
    (p : Params.t) (w : World) :
  missing_required props = false ->
  limit_without_price props = false ->
  destructure (JObj props) = Returned p ->
  (truthy (Params.price p) = true -> converts (Params.price p)) ->
  converts (Params.quantity p) ->
  converts (Params.leverage p) ->
  (truthy (Params.tpTriggerPrice p) = true ->
   strict_eq_str (Params.tpOrderType p) OrderType.LIMIT = true ->
   converts (js_or (Params.tpOrderPrice p) (Params.tpTriggerPrice p))) ->
  (truthy (Params.slTriggerPrice p) = true ->
   strict_eq_str (Params.slOrderType p) OrderType.LIMIT = true ->
   converts (js_or (Params.slOrderPrice p) (Params.slTriggerPrice p))) ->
  exists l w', placeOrder_build sdk (JObj props) w = (Returned (p, l), w').
Proof.
  intros V1 V2 D Hp Hq Hl Htp Hsl.
  unfold placeOrder_build, bind at 1.
  rewrite placeOrder_validate_object, V1, V2.
  unfold bind at 1, lift at 1. rewrite D.
  unfold buildLegs.
  destruct (buildMainOrder_returns sdk p w Hp Hq Hl) as [o Ho].
  destruct (buildTpOrder_returns sdk p o (tick w) Htp) as (tp & w2 & Ht).
  destruct (buildSlOrder_returns sdk p o w2 Hsl) as (sl & w3 & Hs).
  unfold bind. rewrite Ho, Ht, Hs. do 2 eexists. reflexivity.
Qed.

(** [placeOrder] is its build steps followed by signing and sending. *)
Lemma placeOrder_runs_build (sdk : DipCoinPerpSDK) (params : JsValue) (w : World) :
  placeOrder sdk params w =
  try_catch
    (pl <- placeOrder_build sdk params ;;
     signatures <- signLegs sdk (snd pl) ;;
     requestParams <- buildRequestParams sdk (fst pl) (snd pl) signatures ;;
     response <- postForm (httpClient sdk) PLACE_ORDER requestParams None ;;
     order_result response "Failed to place order")
    catch_all w.
Proof.
  unfold placeOrder, placeOrder_build, try_catch, bind.
  destruct (placeOrder_validate params w) as [[u | e] w1]; [| reflexivity].
  destruct (lift (destructure params) w1) as [[p | e] w2]; [| reflexivity].
  destruct (buildLegs sdk p w2) as [[l | e] w3]; reflexivity.
Qed.

(** The locals are the fields of [params], with the defaults of the
    destructuring pattern. *)
Lemma destructure_inv (params : JsValue) (p : Params.t) :
  destructure params = Returned p ->
  let field := get_prop_opt params in
  Params.symbol p = field "symbol"
  /\ Params.side p = field "side"
  /\ Params.orderType p = field "orderType"
  /\ Params.quantity p = field "quantity"
  /\ Params.price p = field "price"
  /\ Params.leverage p = field "leverage"
  /\ Params.market p = field "market"
  /\ Params.reduceOnly p = with_default (field "reduceOnly") (JBool false)
  /\ Params.clientId p = with_default (field "clientId") (JStr "")
  /\ Params.tpTriggerPrice p = field "tpTriggerPrice"
  /\ Params.tpOrderType p = with_default (field "tpOrderType") (JStr OrderType.MARKET)
  /\ Params.tpOrderPrice p = with_default (field "tpOrderPrice") (JStr "")
  /\ Params.slTriggerPrice p = field "slTriggerPrice"
  /\ Params.slOrderType p = with_default (field "slOrderType") (JStr OrderType.MARKET)
  /\ Params.slOrderPrice p = with_default (field "slOrderPrice") (JStr "").
Proof.
  unfold destructure. intro H.
  destruct params; try discriminate H; inversion H; subst; cbn; repeat split.
Qed.

Lemma strict_eq_str_iff (v : JsValue) (s : string) :
  strict_eq_str v s = true <-> v = JStr s.
Proof.
  destruct v; cbn; split; intro H; try discriminate H.
  - apply String.eqb_eq in H. subst. reflexivity.
  - inversion H. apply String.eqb_refl.
Qed.

(** *** Assigning a property *)

Lemma lookup_assign_other (k k' : string) (v : JsValue) (props : list (string * JsValue)) :
  String.eqb k k' = false -> lookup k (assign k' v props) = lookup k props.
Proof.
  intro N. induction props as [| [a x] rest IH]; cbn.
  - rewrite N. reflexivity.
  - destruct (String.eqb k' a) eqn:E; cbn.
    + apply String.eqb_eq in E. subst a. rewrite N. reflexivity.
    + rewrite IH. reflexivity.
Qed.

Lemma keys_assign_keep (k k' : string) (v : JsValue) (props : list (string * JsValue)) :
  In k (Object_keys props) -> In k (Object_keys (assign k' v props)).
Proof.
  unfold Object_keys.
  induction props as [| [a x] rest IH]; cbn; intro H; [destruct H |].
  destruct H as [H | H].
  - destruct (String.eqb k' a) eqn:E; cbn.
    + apply String.eqb_eq in E. subst. left. reflexivity.
    + left. exact H.
  - destruct (String.eqb k' a) eqn:E; cbn; right; [exact H | apply IH; exact H].
Qed.

(** *** Form fields *)

Lemma postForm_field_keeps (data : list (string * JsValue)) (formData : URLSearchParams)
    (key : string) (entry : string * string) :
  In entry formData -> In entry (postForm_field data formData key).
Proof.
  intro H. unfold postForm_field, append.
  destruct (negb (nullish (lookup key data))); [| exact H].
  destruct (String.eqb (typeof (lookup key data)) "object");
    apply in_or_app; left; exact H.
Qed.

Lemma fold_postForm_field_In (data : list (string * JsValue)) (k s : string)
    (keys : list string) (formData : URLSearchParams) :
  lookup k data = JStr s ->
  In k keys \/ In (k, s) formData ->
  In (k, s) (fold_left (postForm_field data) keys formData).
Proof.
  intro L. revert formData.
  induction keys as [| a keys IH]; intros formData H; cbn.
  - destruct H as [[] | H]. exact H.
  - apply IH. destruct H as [[-> | H] | H].
    + right. unfold postForm_field, append. rewrite L. cbn.
      apply in_or_app. right. left. reflexivity.
    + left. exact H.
    + right. apply postForm_field_keeps. exact H.
Qed.

(** A string-valued property of the data is a field of the form, under the
    same name and with the same text. *)
Lemma postForm_formData_In (data : list (string * JsValue)) (k s : string) :
  In k (Object_keys data) -> lookup k data = JStr s ->
  In (k, s) (postForm_formData data).
Proof.
  intros Hk L. unfold postForm_formData.
  apply fold_postForm_field_In; [exact L | left; exact Hk].
Qed.

(** The [price] entry of the request parameters. *)
Lemma buildRequestParams_price (sdk : DipCoinPerpSDK) (p : Params.t) (l : Legs)
    (sg : Signatures) (w w' : World) (rp : list (string * JsValue)) :
  buildRequestParams sdk p l sg w = (Returned rp, w') ->
  exists price,
    lookup "price" rp = JStr price
    /\ In "price" (Object_keys rp)
    /\ (if strict_eq_str (Params.orderType p) OrderType.LIMIT && truthy (Params.price p)
        then formatNormalToWei (Params.price p) = Returned price
        else price = "").
Proof.
  unfold buildRequestParams. intro H.
  apply bind_returned_inv in H. destruct H as (quantity & w1 & Hq & H).
  apply bind_returned_inv in H. destruct H as (price & w2 & Hp & H).
  exists price.
  assert (Hprice : if strict_eq_str (Params.orderType p) OrderType.LIMIT
                      && truthy (Params.price p)
                   then formatNormalToWei (Params.price p) = Returned price
                   else price = "").
  { destruct (strict_eq_str (Params.orderType p) OrderType.LIMIT && truthy (Params.price p));
      run_inv; [assumption | reflexivity]. }
  clear Hp Hq.
  apply bind_returned_inv in H. destruct H as (leverage & w3 & _ & H).
  apply bind_returned_inv in H. destruct H as (reduceOnly & w4 & _ & H).
  apply bind_returned_inv in H. destruct H as (rp1 & w5 & Htp & Hsl).
  assert (H1 : lookup "price" rp1 = JStr price /\ In "price" (Object_keys rp1)).
  { destruct (truthy (Params.tpTriggerPrice p) && present (tpOrderSignature sg)).
    - apply bind_returned_inv in Htp. destruct Htp as (a & wa & _ & Htp).
      apply bind_returned_inv in Htp. destruct Htp as (b & wb & _ & Htp).
      apply ret_returned_inv in Htp. destruct Htp as [-> _].
      split; [reflexivity | cbn; auto 10].
    - apply ret_returned_inv in Htp. destruct Htp as [-> _].
      split; [reflexivity | cbn; auto 10]. }
  destruct H1 as [L1 K1].
  assert (A : forall k v props, String.eqb "price" k = false ->
                lookup "price" props = JStr price /\ In "price" (Object_keys props) ->
                lookup "price" (assign k v props) = JStr price
                /\ In "price" (Object_keys (assign k v props))).
  { intros k v props N [HL HK]. split.
    - rewrite lookup_assign_other; assumption.
    - apply keys_assign_keep. exact HK. }
  cut (lookup "price" rp = JStr price /\ In "price" (Object_keys rp)).
  { intros [R1 R2]. repeat split; assumption. }
  destruct (truthy (Params.slTriggerPrice p) && present (slOrderSignature sg)).
  - apply bind_returned_inv in Hsl. destruct Hsl as (a & wa & _ & Hsl).
    apply bind_returned_inv in Hsl. destruct Hsl as (b & wb & _ & Hsl).
    apply ret_returned_inv in Hsl. destruct Hsl as [-> _].
    repeat (apply A; [reflexivity |]). split; assumption.
  - apply ret_returned_inv in Hsl. destruct Hsl as [-> _]. split; assumption.
Qed.

Lemma lookup_app_notin (k : string) (pre rest : list (string * JsValue)) :
  ~ In k (Object_keys pre) -> lookup k (pre ++ rest)%list = lookup k rest.
Proof.
  unfold Object_keys. induction pre as [| [a x] pre IH]; cbn; intro N.
  - reflexivity.
  - destruct (String.eqb k a) eqn:E.
    + apply String.eqb_eq in E. subst a. exfalso. apply N. left. reflexivity.
    + apply IH. intro H. apply N. right. exact H.
Qed.

(** The loop of [postForm] over the keys from some point on adds the
    fields the specification names for the entries from that point on. *)
Lemma fold_postForm_field_spec (data : list (string * JsValue)) :
  NoDup (Object_keys data) ->
  forall (rest pre : list (string * JsValue)) (formData : URLSearchParams),
    data = (pre ++ rest)%list ->
    fold_left (postForm_field data) (Object_keys rest) formData
    = (formData ++ spec_form_fields rest)%list.
Proof.
  intro ND. induction rest as [| [k v] rest IH]; intros pre formData E.
  - cbn. rewrite app_nil_r. reflexivity.
  - assert (L : lookup k data = v).
    { rewrite E. rewrite lookup_app_notin.
      - cbn. rewrite String.eqb_refl. reflexivity.
      - rewrite E in ND. unfold Object_keys in *. rewrite map_app in ND. cbn in ND.
        apply NoDup_remove_2 in ND. intro H. apply ND. apply in_or_app. left. exact H. }
    cbn [Object_keys map fst fold_left].
    change (map fst rest) with (Object_keys rest).
    rewrite (IH (pre ++ [(k, v)])%list).
    + unfold postForm_field at 1. rewrite L.
      unfold spec_form_fields. cbn [filter snd fst].
      destruct (negb (nullish v)).
      * cbn [map fst snd]. unfold append.
        destruct (String.eqb (typeof v) "object"); rewrite <- app_assoc; reflexivity.
      * reflexivity.
    + rewrite E, <- app_assoc. reflexivity.
Qed.

Lemma postForm_formData_spec (data : list (string * JsValue)) :
  NoDup (Object_keys data) -> postForm_formData data = spec_form_fields data.
Proof.
  intro ND. unfold postForm_formData.
  rewrite (fold_postForm_field_spec data ND data []); reflexivity.
Qed.

Lemma header_eqb_refl (k : string) : header_eqb k k = true.
Proof. apply String.eqb_refl. Qed.

Lemma header_eqb_sym (a b : string) : header_eqb a b = header_eqb b a.
Proof. apply String.eqb_sym. Qed.

(** Two names that match a third in the same way match each other. *)
Lemma header_eqb_trans (a b k : string) :
  header_eqb a b = true -> header_eqb k a = header_eqb k b.
Proof.
  unfold header_eqb. intro E. apply String.eqb_eq in E. rewrite E. reflexivity.
Qed.

Lemma get_header_eqb (a b : string) (h : list (string * string)) :
  header_eqb a b = true -> get_header a h = get_header b h.
Proof.
  intro E. induction h as [| [k x] h IH]; cbn; [reflexivity |].
  rewrite (header_eqb_sym a k), (header_eqb_sym b k), (header_eqb_trans a b k E), IH.
  reflexivity.
Qed.

Lemma get_header_set_other (k k' v : string) (h : list (string * string)) :
  header_eqb k k' = false -> get_header k (set_header k' v h) = get_header k h.
Proof.
  intro N. induction h as [| [a x] h IH]; cbn.
  - rewrite N. reflexivity.
  - destruct (header_eqb k' a) eqn:E; cbn.
    + rewrite <- (header_eqb_trans k' a k E), N. reflexivity.
    + rewrite IH. reflexivity.
Qed.

(** The interceptor adds identity headers and leaves the content type. *)
Lemma request_interceptor_content_type (c : HttpClient) (r : Request) :
  get_header "Content-Type" (req_headers (request_interceptor c r))
  = get_header "Content-Type" (req_headers r).
Proof.
  unfold request_interceptor. cbn [req_headers].
  destruct (authToken c) as [t |], (http_walletAddress c) as [a |]; cbn [present];
    repeat match goal with |- context [if ?b then _ else _] => destruct b end;
    rewrite ?get_header_set_other by reflexivity; reflexivity.
Qed.

(** *** Requests and responses *)

Lemma get_run (c : HttpClient) (url : string) (config : option AxiosRequestConfig)
    (w : World) :
  get c url config w =
  response_interceptor (server w (get_request c url config))
                       (recorded w (get_request c url config)).
Proof. reflexivity. Qed.

Lemma postForm_run_with (c : HttpClient) (url : string)
    (data : list (string * JsValue)) (config : option AxiosRequestConfig) (w : World) :
  postForm c url data config w =
  response_interceptor (server w (form_request_with c url data config))
                       (recorded w (form_request_with c url data config)).
Proof. reflexivity. Qed.

Lemma postForm_run (c : HttpClient) (url : string) (data : list (string * JsValue))
    (w : World) :
  postForm c url data None w =
  response_interceptor (server w (form_request c url data))
                       (recorded w (form_request c url data)).
Proof. reflexivity. Qed.

Lemma response_interceptor_rejected (error : JsValue) (w : World) :
  exists x, response_interceptor (Rejected error) w = (Thrown x, w).
Proof.
  unfold response_interceptor, bind, lift, throw.
  destruct (get_prop error "response"); [| eexists; reflexivity].
  destruct (get_prop error "message"); eexists; reflexivity.
Qed.

Lemma get_prop_present (v : JsValue) (k : string) :
  nullish v = false -> get_prop v k = Returned (get_prop_opt v k).
Proof.
  unfold get_prop_opt.
  destruct v; cbn; intro H; try discriminate H; try reflexivity;
    destruct (String.eqb k "length"); reflexivity.
Qed.

Lemma get_prop_nullish (v : JsValue) (k : string) :
  nullish v = true -> exists e, get_prop v k = Thrown e.
Proof.
  destruct v; cbn; intro H; try discriminate H; eexists; reflexivity.
Qed.

Lemma code_present (v : JsValue) (n : JsNumber) :
  strict_eq_num (get_prop_opt v "code") n = true -> nullish v = false.
Proof.
  destruct v; cbn; intro H; try discriminate H; reflexivity.
Qed.

(** What a list query makes of a response that is there. *)
Lemma getPositions_fulfilled (sdk : DipCoinPerpSDK) (symbol response : JsValue) (w : World) :
  let request :=
    get_request (httpClient sdk) GET_POSITIONS
      (Some {| cfg_params := JObj (symbol_filter symbol); cfg_headers := [] |}) in
  server w request = Fulfilled response ->
  nullish response = false ->
  getPositions sdk symbol w =
  (Returned
     (if strict_eq_num (get_prop_opt response "code") (number_of_Z 200)
      then success (normalize_list (get_prop_opt response "data"))
      else failure (js_or (get_prop_opt response "message")
                          (JStr "Failed to get positions"))),
   recorded w request).
Proof.
  intros request Hs Hn.
  unfold getPositions, try_catch, bind. cbv zeta. rewrite get_run. fold request.
  rewrite Hs. cbn [response_interceptor ret].
  unfold lift. rewrite !(get_prop_present response) by exact Hn.
  destruct (strict_eq_num (get_prop_opt response "code") (number_of_Z 200)); reflexivity.
Qed.

(** What [getAccountInfo] makes of a response that is there. *)
Lemma getAccountInfo_fulfilled (sdk : DipCoinPerpSDK) (response : JsValue) (w : World) :
  let request := get_request (httpClient sdk) GET_ACCOUNT_INFO None in
  let data := get_prop_opt response "data" in
  let field k := js_or (get_prop_opt data k) (JStr "0") in
  server w request = Fulfilled response ->
  nullish response = false ->
  getAccountInfo sdk w =
  (Returned
     (if strict_eq_num (get_prop_opt response "code") (number_of_Z 200) && truthy data
      then success (JObj [ ("walletBalance", field "walletBalance");
                           ("totalUnrealizedProfit", field "totalUnrealizedProfit");
                           ("accountValue", field "accountValue");
                           ("freeCollateral", field "freeCollateral");
                           ("totalMargin", field "totalMargin") ])
      else failure (js_or (get_prop_opt response "message")
                          (JStr "Failed to get account info"))),
   recorded w request).
Proof.
  intros request data field Hs Hn.
  unfold getAccountInfo, try_catch, bind. rewrite get_run. fold request.
  rewrite Hs. cbn [response_interceptor ret].
  unfold lift. rewrite !(get_prop_present response) by exact Hn. fold data.
  destruct (strict_eq_num (get_prop_opt response "code") (number_of_Z 200) && truthy data);
    reflexivity.
Qed.

(** Without a response that is there, [getAccountInfo] fails. *)
Lemma getAccountInfo_no_response (sdk : DipCoinPerpSDK) (w w' : World) (r : SDKResponse) :
  let request := get_request (httpClient sdk) GET_ACCOUNT_INFO None in
  getAccountInfo sdk w = (Returned r, w') ->
  status r = true ->
  exists response, server w request = Fulfilled response /\ nullish response = false.
Proof.
  intros request H St.
  unfold getAccountInfo, try_catch, bind in H. rewrite get_run in H. fold request in H.
  destruct (server w request) as [response | err] eqn:Hs.
  - exists response. split; [reflexivity |].
    destruct (nullish response) eqn:Hn; [| reflexivity].
    cbn [response_interceptor ret] in H. unfold lift in H.
    destruct (get_prop_nullish response "code" Hn) as [e He]. rewrite He in H.
    cbn in H. inversion H; subst. discriminate St.
  - destruct (response_interceptor_rejected err (recorded w request)) as [x Hx].
    rewrite Hx in H. cbn in H. inversion H; subst. discriminate St.
Qed.

(** *** cancelOrder on an object *)

(** The parameters [cancelOrder] posts. *)
Definition cancel_requestParams (sdk : DipCoinPerpSDK) (props : list (string * JsValue))
    (signature : string) : list (string * JsValue) :=
  [ ("symbol", lookup "symbol" props);
    ("orderHashes", JStr (JSON_stringify (lookup "orderHashes" props)));
    ("signature", JStr signature);
    ("parentAddress",
     with_default (lookup "parentAddress" props) (JStr (walletAddress sdk))) ].

(** The bytes [cancelOrder] signs. *)
Definition cancel_bytes (props : list (string * JsValue)) : list ascii :=
  TextEncoder_encode (JSON_stringify (JObj [("orderHashes", lookup "orderHashes" props)])).

Lemma truthy_present (v : JsValue) : truthy v = true -> nullish v = false.
Proof. destruct v; cbn; intro H; try discriminate H; reflexivity. Qed.

(** [cancelOrder] on an object, step by step. *)
Lemma cancelOrder_object (sdk : DipCoinPerpSDK) (props : list (string * JsValue))
    (w : World) :
  cancelOrder sdk (JObj props) w =
  let orderHashes := lookup "orderHashes" props in
  if falsy orderHashes
     || strict_eq_num (get_prop_opt orderHashes "length") (number_of_Z 0)
  then (Returned (failure (JStr (formatError (new_Error "Order hashes are required")))), w)
  else
    match signMessage (keypair sdk) (cancel_bytes props) with
    | Thrown e => (Returned (failure (JStr (formatError e))), w)
    | Returned signature =>
        try_catch
          (response <- postForm (httpClient sdk) CANCEL_ORDER
                         (cancel_requestParams sdk props signature) None ;;
           order_result response "Failed to cancel order")
          catch_all w
    end.
Proof.
  unfold cancelOrder, cancel_bytes, cancel_requestParams, try_catch, bind, lift, throw.
  cbn [get_prop]. cbv zeta. unfold falsy.
  destruct (truthy (lookup "orderHashes" props)) eqn:T; cbn [negb orb ret].
  - rewrite (get_prop_present _ "length" (truthy_present _ T)).
    destruct (strict_eq_num (get_prop_opt (lookup "orderHashes" props) "length")
                            (number_of_Z 0)); [reflexivity |].
    destruct (signMessage (keypair sdk) _); reflexivity.
  - reflexivity.
Qed.

Lemma nonempty_length (h : JsValue) (rest : list JsValue) :
  strict_eq_num (get_prop_opt (JArr (h :: rest)) "length") (number_of_Z 0) = false.
Proof.
  unfold get_prop_opt, get_prop. cbn [String.eqb Ascii.eqb Bool.eqb].
  unfold strict_eq_num, number_of_nat. rewrite number_eqb_of_Z.
  apply Z.eqb_neq. cbn [List.length]. lia.
Qed.

Lemma cancelOrder_rejects (sdk : DipCoinPerpSDK) (props : list (string * JsValue))
    (w : World) :
  lookup "orderHashes" props = JArr [] \/ falsy (lookup "orderHashes" props) = true ->
  cancelOrder sdk (JObj props) w =
  (Returned (failure (JStr (formatError (new_Error "Order hashes are required")))), w).
Proof.
  intro H. rewrite cancelOrder_object. cbv zeta.
  destruct H as [H | H]; rewrite H; reflexivity.
Qed.

Lemma cancelOrder_sends (sdk : DipCoinPerpSDK) (props : list (string * JsValue))
    (w : World) (h : JsValue) (rest : list JsValue) (signature : string) :
  lookup "orderHashes" props = JArr (h :: rest) ->
  signMessage (keypair sdk) (cancel_bytes props) = Returned signature ->
  snd (cancelOrder sdk (JObj props) w) =
  recorded w (form_request (httpClient sdk) CANCEL_ORDER
                (cancel_requestParams sdk props signature)).
Proof.
  intros H Hs. rewrite cancelOrder_object. cbv zeta.
  rewrite H, nonempty_length, Hs. cbn [falsy truthy negb orb].
  unfold try_catch, bind at 1. rewrite postForm_run.
  match goal with
  | |- context [response_interceptor ?o ?w1] =>
      pose proof (quiet_response_interceptor o w1) as Q;
      destruct (response_interceptor o w1) as [[response | e] w2]; cbn [snd] in Q; subst w2
  end.
  - match goal with
    | |- context [order_result ?r ?f ?w1] =>
        pose proof (quiet_order_result r f w1) as Q;
        destruct (order_result r f w1) as [[x | e] w2]; cbn [snd] in Q; subst w2
    end; reflexivity.
  - reflexivity.
Qed.

Lemma cancelOrder_unsigned (sdk : DipCoinPerpSDK) (props : list (string * JsValue))
    (w : World) (h : JsValue) (rest : list JsValue) (e : JsValue) :
  lookup "orderHashes" props = JArr (h :: rest) ->
  signMessage (keypair sdk) (cancel_bytes props) = Thrown e ->
  cancelOrder sdk (JObj props) w = (Returned (failure (JStr (formatError e))), w).
Proof.
  intros H Hs. rewrite cancelOrder_object. cbv zeta.
  rewrite H, nonempty_length, Hs. reflexivity.
Qed.

End Builders.

(* ================================================================== *)
(** ** Theorems *)
(* ================================================================== *)

Section Results.
Context {P : Platform}.


(** C9. The presence checks of [placeOrder] are truthiness checks.  A
    call fails validation, leaving the world untouched, whenever one of
    symbol, side, orderType, quantity and leverage is falsy: not only when
    the field is absent, but also for the number 0 as quantity or leverage
    and for the empty string as symbol.  A LIMIT intent whose five fields
    are truthy fails with the price message when its price is the number
    0, the empty string, or absent. *)
Theorem placeOrder_validation_is_truthiness (sdk : DipCoinPerpSDK)
    (props : list (string * JsValue)) (w : World) :
  let field k := lookup k props in
  let missing :=
    failure (JStr (formatError (new_Error "Missing required order parameters"))) in
  let no_price :=
    failure (JStr (formatError (new_Error "Price is required for LIMIT orders"))) in
  (missing_required props = true -> placeOrder sdk (JObj props) w = (Returned missing, w))
  /\ (field "quantity" = JNum (number_of_Z 0) ->
      placeOrder sdk (JObj props) w = (Returned missing, w))
  /\ (field "leverage" = JNum (number_of_Z 0) ->
      placeOrder sdk (JObj props) w = (Returned missing, w))
  /\ (field "symbol" = JStr "" ->
      placeOrder sdk (JObj props) w = (Returned missing, w))
  /\ (field "symbol" = JUndefined \/ field "side" = JUndefined
      \/ field "orderType" = JUndefined \/ field "quantity" = JUndefined
      \/ field "leverage" = JUndefined ->
      placeOrder sdk (JObj props) w = (Returned missing, w))
  /\ (missing_required props = false ->
      field "orderType" = JStr OrderType.LIMIT ->
      field "price" = JNum (number_of_Z 0) \/ field "price" = JStr ""
      \/ field "price" = JUndefined ->
      placeOrder sdk (JObj props) w = (Returned no_price, w)).
Proof.
  cbv zeta.
  assert (G : missing_required props = true ->
              placeOrder sdk (JObj props) w =
              (Returned (failure (JStr (formatError
                 (new_Error "Missing required order parameters")))), w))
    by apply placeOrder_missing_required.
  repeat split.
  - exact G.
  - intro H. apply G. unfold missing_required. rewrite H. cbn.
    rewrite !orb_true_r. reflexivity.
  - intro H. apply G. unfold missing_required. rewrite H. cbn.
    rewrite !orb_true_r. reflexivity.
  - intro H. apply G. unfold missing_required. rewrite H. reflexivity.
  - intro H. apply G. unfold missing_required.
    destruct H as [H | [H | [H | [H | H]]]]; rewrite H; cbn;
      rewrite ?orb_true_r; reflexivity.
  - intros H1 H2 H3. apply placeOrder_limit_without_price; [exact H1 |].
    unfold limit_without_price. rewrite H2.
    destruct H3 as [H | [H | H]]; rewrite H; reflexivity.
Qed.

(** C1 (as the code has it). Each leg takes its own reading of the
    clock.  When a call builds both a take-profit and a stop-loss leg, the
    main salt is the first reading, the TP salt is the second reading plus
    1 and the SL salt is the third reading plus 2.  A leg whose reading
    equals the first one has salt main+1 (TP) or main+2 (SL), and whenever
    the clock does not run backwards between the readings the three salts
    are pairwise distinct. *)
Theorem leg_salts_follow_clock_readings (sdk : DipCoinPerpSDK) (params : JsValue)
    (w w' : World) (p : Params.t) (l : Legs) :
  placeOrder_build sdk params w = (Returned (p, l), w') ->
  truthy (get_prop_opt params "tpTriggerPrice") = true ->
  truthy (get_prop_opt params "slTriggerPrice") = true ->
  let t0 := clock w (reads w) in
  let t1 := clock w (S (reads w)) in
  let t2 := clock w (S (S (reads w))) in
  exists tp sl,
    tpOrder l = Some tp /\ slOrder l = Some sl
    /\ isEqualTo (Order.salt (order l)) (BigNumber_of_Z t0) = true
    /\ isEqualTo (Order.salt tp) (BigNumber_of_Z (t1 + 1)) = true
    /\ isEqualTo (Order.salt sl) (BigNumber_of_Z (t2 + 2)) = true
    /\ (t1 = t0 -> isEqualTo (Order.salt tp) (plusZ (Order.salt (order l)) 1) = true)
    /\ (t2 = t0 -> isEqualTo (Order.salt sl) (plusZ (Order.salt (order l)) 2) = true)
    /\ ((t0 <= t1 <= t2)%Z ->
        isEqualTo (Order.salt tp) (Order.salt (order l)) = false
        /\ isEqualTo (Order.salt sl) (Order.salt (order l)) = false
        /\ isEqualTo (Order.salt tp) (Order.salt sl) = false).
Proof.
  intros H Htp Hsl.
  apply placeOrder_build_inv in H. destruct H as (_ & Hd & H).
  apply destructure_inv in Hd. cbv zeta in Hd.
  destruct Hd as (_ & _ & _ & _ & _ & _ & _ & _ & _ & Etp & _ & _ & Esl & _).
  apply buildLegs_inv in H. destruct H as (w2 & Hm & Ht & Hs & _).
  apply buildMainOrder_inv in Hm. destruct Hm as (_ & Sm & _).
  apply buildTpOrder_inv in Ht. rewrite Etp, Htp in Ht.
  destruct Ht as (-> & tp & Ftp & _ & St & _).
  apply buildSlOrder_inv in Hs. rewrite Esl, Hsl in Hs.
  destruct Hs as (_ & sl & Fsl & _ & Ss & _).
  cbn [fst] in Ftp, Fsl. unfold tick in St, Ss. cbn [clock reads] in St, Ss. cbv zeta.
  exists tp, sl. rewrite Sm, St, Ss.
  rewrite !plusZ_of_Z, !offset_salt, offset_salts, !isEqualTo_of_Z.
  repeat split; try assumption.
  - apply Z.eqb_refl.
  - apply Z.eqb_refl.
  - apply Z.eqb_refl.
  - intros ->. apply Z.eqb_refl.
  - intros ->. apply Z.eqb_refl.
  - apply Z.eqb_neq. lia.
  - apply Z.eqb_neq. lia.
  - apply Z.eqb_neq. lia.
Qed.

(** C3 (as the code has it). For a call that gets as far as its legs, a
    take-profit (resp. stop-loss) leg is built exactly when the trigger
    price is truthy, so only when one was supplied; a supplied trigger
    price of 0, NaN or the empty string builds no leg.  Every leg that is
    built is reduce-only and on the side opposite to the main order. *)
Theorem legs_follow_trigger_truthiness (sdk : DipCoinPerpSDK) (params : JsValue)
    (w w' : World) (p : Params.t) (l : Legs) :
  placeOrder_build sdk params w = (Returned (p, l), w') ->
  (tpOrder l <> None <-> truthy (get_prop_opt params "tpTriggerPrice") = true)
  /\ (slOrder l <> None <-> truthy (get_prop_opt params "slTriggerPrice") = true)
  /\ (tpOrder l <> None -> get_prop_opt params "tpTriggerPrice" <> JUndefined)
  /\ (slOrder l <> None -> get_prop_opt params "slTriggerPrice" <> JUndefined)
  /\ (forall tp, tpOrder l = Some tp ->
        Order.reduceOnly tp = JBool true
        /\ Order.isLong tp = negb (Order.isLong (order l)))
  /\ (forall sl, slOrder l = Some sl ->
        Order.reduceOnly sl = JBool true
        /\ Order.isLong sl = negb (Order.isLong (order l))).
Proof.
  intro H.
  apply placeOrder_build_inv in H. destruct H as (_ & Hd & H).
  apply destructure_inv in Hd. cbv zeta in Hd.
  destruct Hd as (_ & _ & _ & _ & _ & _ & _ & _ & _ & Etp & _ & _ & Esl & _).
  apply buildLegs_inv in H. destruct H as (w2 & _ & Ht & Hs & _).
  apply buildTpOrder_inv in Ht. apply buildSlOrder_inv in Hs.
  rewrite Etp in Ht. rewrite Esl in Hs.
  assert (Atp : (tpOrder l <> None <-> truthy (get_prop_opt params "tpTriggerPrice") = true)
                /\ (forall tp, tpOrder l = Some tp ->
                      Order.reduceOnly tp = JBool true
                      /\ Order.isLong tp = negb (Order.isLong (order l)))).
  { destruct (truthy (get_prop_opt params "tpTriggerPrice")).
    - destruct Ht as (_ & tp & F & _ & _ & R & L & _). cbn in F. rewrite F.
      split; [split; [reflexivity | discriminate] |].
      intros tp' E. inversion E; subst. split; assumption.
    - destruct Ht as [E _]. inversion E as [[E1 E2]]. rewrite E1.
      split; [split; [intro N; contradiction N; reflexivity | discriminate] |].
      intros tp' E'. discriminate E'. }
  assert (Asl : (slOrder l <> None <-> truthy (get_prop_opt params "slTriggerPrice") = true)
                /\ (forall sl, slOrder l = Some sl ->
                      Order.reduceOnly sl = JBool true
                      /\ Order.isLong sl = negb (Order.isLong (order l)))).
  { destruct (truthy (get_prop_opt params "slTriggerPrice")).
    - destruct Hs as (_ & sl & F & _ & _ & R & L & _). cbn in F. rewrite F.
      split; [split; [reflexivity | discriminate] |].
      intros sl' E. inversion E; subst. split; assumption.
    - destruct Hs as [E _]. inversion E as [[E1 E2]]. rewrite E1.
      split; [split; [intro N; contradiction N; reflexivity | discriminate] |].
      intros sl' E'. discriminate E'. }
  destruct Atp as [Itp Ptp]. destruct Asl as [Isl Psl].
  repeat split; try (apply Itp); try (apply Isl); try (apply Ptp; assumption);
    try (apply Psl; assumption).
  - intros N U. apply Itp in N. rewrite U in N. discriminate N.
  - intros N U. apply Isl in N. rewrite U in N. discriminate N.
Qed.

(** C6. When a call supplies a take-profit trigger price and no
    take-profit order price, the price of the TP leg is the fixed-point
    conversion of the trigger price if the TP order type is LIMIT, and the
    zero fixed-point value if it is MARKET (also when the type is left
    out, MARKET being the default). *)
Theorem tp_leg_price_without_order_price (sdk : DipCoinPerpSDK) (params : JsValue)
    (w w' : World) (p : Params.t) (l : Legs) :
  placeOrder_build sdk params w = (Returned (p, l), w') ->
  truthy (get_prop_opt params "tpTriggerPrice") = true ->
  get_prop_opt params "tpOrderPrice" = JUndefined ->
  exists tp,
    tpOrder l = Some tp
    /\ (get_prop_opt params "tpOrderType" = JStr OrderType.LIMIT ->
        formatNormalToWeiBN (get_prop_opt params "tpTriggerPrice")
        = Returned (Order.price tp))
    /\ (get_prop_opt params "tpOrderType" = JStr OrderType.MARKET
        \/ get_prop_opt params "tpOrderType" = JUndefined ->
        Order.price tp = zeroBN).
Proof.
  intros H Htp Hno.
  apply placeOrder_build_inv in H. destruct H as (_ & Hd & H).
  apply destructure_inv in Hd. cbv zeta in Hd.
  destruct Hd as (_ & _ & _ & _ & _ & _ & _ & _ & _ & Etp & Ety & Epr & _).
  apply buildLegs_inv in H. destruct H as (w2 & _ & Ht & _).
  apply buildTpOrder_inv in Ht. rewrite Etp, Htp, Ety, Epr, Hno in Ht.
  destruct Ht as (_ & tp & F & _ & _ & _ & _ & Pr). cbn in F.
  exists tp. split; [exact F |]. split.
  - intro E. rewrite E in Pr. cbn in Pr. exact Pr.
  - intros [E | E]; rewrite E in Pr; exact Pr.
Qed.

(** C4. [cancelOrder] with an empty or absent list of order hashes returns
    a failure result and sends nothing: the world is as it was.  With a
    non-empty list, once the message is signed, it sends exactly one
    request, the form of symbol, the JSON text of the list, the signature
    and parentAddress, where parentAddress is the wallet address of the
    SDK when the intent does not give one; if signing fails, nothing is
    sent. *)
Theorem cancelOrder_validates_then_submits (sdk : DipCoinPerpSDK)
    (props : list (string * JsValue)) (w : World) :
  let orderHashes := lookup "orderHashes" props in
  let required :=
    failure (JStr (formatError (new_Error "Order hashes are required"))) in
  (orderHashes = JArr [] \/ orderHashes = JUndefined ->
   cancelOrder sdk (JObj props) w = (Returned required, w))
  /\ (forall h rest signature,
        orderHashes = JArr (h :: rest) ->
        signMessage (keypair sdk) (cancel_bytes props) = Returned signature ->
        let parentAddress :=
          with_default (lookup "parentAddress" props) (JStr (walletAddress sdk)) in
        let requestParams :=
          [ ("symbol", lookup "symbol" props);
            ("orderHashes", JStr (JSON_stringify orderHashes));
            ("signature", JStr signature);
            ("parentAddress", parentAddress) ] in
        sent (snd (cancelOrder sdk (JObj props) w))
        = (sent w ++ [form_request (httpClient sdk) CANCEL_ORDER requestParams])%list
        /\ (lookup "parentAddress" props = JUndefined ->
            parentAddress = JStr (walletAddress sdk))
        /\ (lookup "parentAddress" props <> JUndefined ->
            parentAddress = lookup "parentAddress" props)
        /\ (forall symbol address,
              lookup "symbol" props = JStr symbol ->
              parentAddress = JStr address ->
              postForm_formData requestParams
              = [ ("symbol", symbol);
                  ("orderHashes", JSON_stringify orderHashes);
                  ("signature", signature);
                  ("parentAddress", address) ]))
  /\ (forall h rest e,
        orderHashes = JArr (h :: rest) ->
        signMessage (keypair sdk) (cancel_bytes props) = Thrown e ->
        cancelOrder sdk (JObj props) w = (Returned (failure (JStr (formatError e))), w)).
Proof.
  cbv zeta. repeat split.
  - intros [H | H]; apply cancelOrder_rejects; [left; exact H | right].
    rewrite H. reflexivity.
  - rewrite (cancelOrder_sends sdk props w h rest signature H H0). reflexivity.
  - intros ->. reflexivity.
  - intro N. destruct (lookup "parentAddress" props); try reflexivity.
    contradiction N; reflexivity.
  - intros symbol address Hs Ha. unfold postForm_formData, Object_keys.
    cbn [map fst fold_left]. unfold postForm_field.
    cbn [lookup String.eqb Ascii.eqb Bool.eqb]. rewrite Hs, Ha. reflexivity.
  - intros h rest e H He. apply (cancelOrder_unsigned sdk props w h rest e H He).
Qed.

(** C7. For a response with code 200, [getPositions] returns the same flat
    list whether the data of the response is the list itself or an
    envelope whose own data is that list. *)
Theorem getPositions_normalizes_both_shapes (sdk : DipCoinPerpSDK) (symbol : JsValue)
    (w1 w2 : World) (bare wrapped : JsValue) (items : list JsValue)
    (envelope : list (string * JsValue)) :
  let request :=
    get_request (httpClient sdk) GET_POSITIONS
      (Some {| cfg_params := JObj (symbol_filter symbol); cfg_headers := [] |}) in
  server w1 request = Fulfilled bare ->
  strict_eq_num (get_prop_opt bare "code") (number_of_Z 200) = true ->
  get_prop_opt bare "data" = JArr items ->
  server w2 request = Fulfilled wrapped ->
  strict_eq_num (get_prop_opt wrapped "code") (number_of_Z 200) = true ->
  get_prop_opt wrapped "data" = JObj envelope ->
  lookup "data" envelope = JArr items ->
  fst (getPositions sdk symbol w1) = Returned (success (JArr items))
  /\ fst (getPositions sdk symbol w2) = Returned (success (JArr items)).
Proof.
  intros request S1 C1 D1 S2 C2 D2 E2. split.
  - rewrite (getPositions_fulfilled sdk symbol bare w1 S1 (code_present _ _ C1)).
    cbn [fst]. rewrite C1, D1. reflexivity.
  - rewrite (getPositions_fulfilled sdk symbol wrapped w2 S2 (code_present _ _ C2)).
    cbn [fst]. rewrite C2, D2. unfold normalize_list, get_prop_opt. cbn [isArray get_prop].
    rewrite E2. reflexivity.
Qed.

(** C8. For a mapping with one value per key, the form [postForm] builds
    has exactly the keys whose value is neither undefined nor null, in
    their order; an object-typed value is sent as its JSON text and any
    other value as its string; and the one request sent is a POST whose
    body is these fields URL-encoded, under the form content type when the
    caller's config does not set headers of its own. *)
Theorem postForm_serializes_fields (c : HttpClient) (url : string)
    (data : list (string * JsValue)) (config : option AxiosRequestConfig) (w : World) :
  NoDup (Object_keys data) ->
  postForm_formData data = spec_form_fields data
  /\ map fst (postForm_formData data)
     = Object_keys (filter (fun kv => negb (nullish (snd kv))) data)
  /\ exists request,
       sent (snd (postForm c url data config w)) = (sent w ++ [request])%list
       /\ req_method request = POST
       /\ req_url request = url
       /\ req_data request = Some (URLSearchParams_toString (spec_form_fields data))
       /\ (config = None ->
           get_header "Content-Type" (req_headers request)
           = Some "application/x-www-form-urlencoded").
Proof.
  intro ND. pose proof (postForm_formData_spec data ND) as E.
  split; [exact E |]. split.
  - rewrite E. unfold spec_form_fields, Object_keys. rewrite map_map. reflexivity.
  - exists (form_request_with c url data config). rewrite postForm_run_with.
    rewrite (quiet_response_interceptor _ (recorded w (form_request_with c url data config))).
    split; [reflexivity |]. split; [reflexivity |]. split; [reflexivity |]. split.
    + unfold form_request_with, request_interceptor. cbn [req_data]. rewrite E. reflexivity.
    + intros ->. unfold form_request_with.
      rewrite request_interceptor_content_type. reflexivity.
Qed.

(** C10. [getAccountInfo] returns a success result only for a response
    with code 200 and truthy data.  A response with code 200 whose data is
    absent (or otherwise falsy) gives a failure result, with the message
    of the response or the generic one.  In a success result each of the
    five fields is the field of the data, replaced by the string 0 when it
    is absent. *)
Theorem getAccountInfo_needs_code_and_data (sdk : DipCoinPerpSDK) (w : World) :
  let request := get_request (httpClient sdk) GET_ACCOUNT_INFO None in
  let names := ["walletBalance"; "totalUnrealizedProfit"; "accountValue";
                "freeCollateral"; "totalMargin"] in
  (forall r w',
      getAccountInfo sdk w = (Returned r, w') -> status r = true ->
      exists response,
        server w request = Fulfilled response
        /\ strict_eq_num (get_prop_opt response "code") (number_of_Z 200) = true
        /\ truthy (get_prop_opt response "data") = true)
  /\ (forall response,
        server w request = Fulfilled response ->
        strict_eq_num (get_prop_opt response "code") (number_of_Z 200) = true ->
        falsy (get_prop_opt response "data") = true ->
        fst (getAccountInfo sdk w)
        = Returned (failure (js_or (get_prop_opt response "message")
                                   (JStr "Failed to get account info"))))
  /\ (forall response,
        server w request = Fulfilled response ->
        strict_eq_num (get_prop_opt response "code") (number_of_Z 200) = true ->
        truthy (get_prop_opt response "data") = true ->
        exists info,
          fst (getAccountInfo sdk w) = Returned (success (JObj info))
          /\ Object_keys info = names
          /\ forall k, In k names ->
               (get_prop_opt (get_prop_opt response "data") k = JUndefined ->
                lookup k info = JStr "0")
               /\ (truthy (get_prop_opt (get_prop_opt response "data") k) = true ->
                   lookup k info = get_prop_opt (get_prop_opt response "data") k)).
Proof.
  cbv zeta. repeat split.
  - intros r w' H St.
    destruct (getAccountInfo_no_response sdk w w' r H St) as (response & Hs & Hn).
    exists response. split; [exact Hs |].
    rewrite (getAccountInfo_fulfilled sdk response w Hs Hn) in H.
    inversion H as [[Hr Hw]]. clear H.
    destruct (strict_eq_num (get_prop_opt response "code") (number_of_Z 200)
              && truthy (get_prop_opt response "data")) eqn:C.
    + apply andb_true_iff in C. exact C.
    + subst r. discriminate St.
  - intros response Hs C F.
    rewrite (getAccountInfo_fulfilled sdk response w Hs (code_present _ _ C)).
    cbn [fst]. unfold falsy in F. apply negb_true_iff in F. rewrite C, F. reflexivity.
  - intros response Hs C T.
    rewrite (getAccountInfo_fulfilled sdk response w Hs (code_present _ _ C)).
    cbn [fst]. rewrite C, T. cbn [andb]. eexists. split; [reflexivity |].
    split; [reflexivity |].
    intros k Hk. cbn [In] in Hk.
    destruct Hk as [<- | [<- | [<- | [<- | [<- | []]]]]];
      (split; intro H; cbn [lookup String.eqb Ascii.eqb Bool.eqb]; unfold js_or;
       rewrite H; reflexivity).
Qed.

End Results.

(* ================================================================== *)
(** ** What a call sends *)
(* ================================================================== *)

(** [m] sends nothing: the list of requests is as it was. *)
Definition silent {A} (m : M A) : Prop := forall w, sent (snd (m w)) = sent w.

(** [m] adds at most [n] requests to those already sent, each of them
    satisfying [Q], and leaves the earlier ones in place. *)
Definition sends {A} (Q : Request -> Prop) (n : nat) (m : M A) : Prop :=
  forall w, exists new,
    sent (snd (m w)) = (sent w ++ new)%list /\ Forall Q new /\ (List.length new <= n)%nat.

Section Sending.
Context {P : Platform}.

Lemma silent_ret {A} (a : A) : silent (ret a).
Proof. intro w. reflexivity. Qed.

Lemma silent_throw {A} (e : JsValue) : silent (@throw A e).
Proof. intro w. reflexivity. Qed.

Lemma silent_lift {A} (o : Outcome A) : silent (lift o).
Proof. intro w. reflexivity. Qed.

Lemma silent_Date_now : silent Date_now.
Proof. intro w. reflexivity. Qed.

Lemma silent_bind {A B} (m : M A) (f : A -> M B) :
  silent m -> (forall a, silent (f a)) -> silent (bind m f).
Proof.
  intros Hm Hf w. unfold bind. specialize (Hm w).
  destruct (m w) as [[a | e] w1]; cbn [snd] in *.
  - rewrite Hf. exact Hm.
  - exact Hm.
Qed.

Lemma silent_of_quiet {A} (m : M A) : quiet m -> silent m.
Proof. intros H w. rewrite H. reflexivity. Qed.

Lemma sends_of_silent {A} (Q : Request -> Prop) (n : nat) (m : M A) :
  silent m -> sends Q n m.
Proof.
  intros H w. exists []. rewrite app_nil_r. split; [apply H |].
  split; [constructor | apply Nat.le_0_l].
Qed.

Lemma sends_silent_then {A B} (Q : Request -> Prop) (n : nat) (m : M A) (f : A -> M B) :
  silent m -> (forall a, sends Q n (f a)) -> sends Q n (bind m f).
Proof.
  intros Hm Hf w. unfold bind. specialize (Hm w).
  destruct (m w) as [[a | e] w1]; cbn [snd] in *.
  - destruct (Hf a w1) as (new & E & F & L). exists new. rewrite E, Hm. auto.
  - exists []. rewrite app_nil_r. split; [exact Hm |].
    split; [constructor | apply Nat.le_0_l].
Qed.

Lemma sends_then_silent {A B} (Q : Request -> Prop) (n : nat) (m : M A) (f : A -> M B) :
  sends Q n m -> (forall a, silent (f a)) -> sends Q n (bind m f).
Proof.
  intros Hm Hf w. unfold bind. destruct (Hm w) as (new & E & F & L).
  destruct (m w) as [[a | e] w1]; cbn [snd] in *; exists new.
  - rewrite Hf. auto.
  - auto.
Qed.

Lemma sends_try_catch {A} (Q : Request -> Prop) (n : nat) (body : M A)
    (handler : JsValue -> M A) :
  sends Q n body -> (forall e, silent (handler e)) -> sends Q n (try_catch body handler).
Proof.
  intros Hb Hh w. unfold try_catch. destruct (Hb w) as (new & E & F & L).
  destruct (body w) as [[a | e] w1]; cbn [snd] in *; exists new.
  - auto.
  - rewrite Hh. auto.
Qed.

Lemma silent_if {A} (c : bool) (m1 m2 : M A) :
  silent m1 -> silent m2 -> silent (if c then m1 else m2).
Proof. destruct c; auto. Qed.

Lemma sends_if {A} (Q : Request -> Prop) (n : nat) (c : bool) (m1 m2 : M A) :
  sends Q n m1 -> sends Q n m2 -> sends Q n (if c then m1 else m2).
Proof. destruct c; auto. Qed.

(** A request that went through the interceptor of [c], on its base URL. *)
Definition through (c : HttpClient) (r : Request) : Prop :=
  exists config, r = request_interceptor c config /\ req_baseURL config = baseURL c.

Lemma sends_instance_request (c : HttpClient) (method : Method) (url : string)
    (data : option string) (config : option AxiosRequestConfig) :
  sends (through c) 1 (instance_request c method url data config).
Proof.
  unfold instance_request. cbv zeta. apply sends_then_silent.
  - intro w. eexists [_]. split; [reflexivity |]. split; [| apply Nat.le_refl].
    constructor; [| constructor]. eexists. split; reflexivity.
  - intro o. apply silent_of_quiet, quiet_response_interceptor.
Qed.

Lemma silent_order_result (response : JsValue) (fallback : string) :
  silent (order_result response fallback).
Proof. apply silent_of_quiet, quiet_order_result. Qed.

Lemma silent_catch_all (e : JsValue) : silent (catch_all e).
Proof. apply silent_ret. Qed.

Lemma silent_placeOrder_validate (params : JsValue) : silent (placeOrder_validate params).
Proof.
  intro w. destruct (placeOrder_validate_pure params) as [o Ho]. rewrite Ho. reflexivity.
Qed.

Lemma silent_buildLegs (sdk : DipCoinPerpSDK) (p : Params.t) : silent (buildLegs sdk p).
Proof.
  unfold buildLegs, buildMainOrder, buildTpOrder, buildSlOrder.
  repeat first
    [ apply silent_ret | apply silent_lift | apply silent_Date_now
    | apply silent_if
    | apply silent_bind; [| intro] ].
Qed.

Lemma silent_signLegs (sdk : DipCoinPerpSDK) (l : Legs) : silent (signLegs sdk l).
Proof.
  unfold signLegs, signOrder.
  repeat first
    [ apply silent_ret | apply silent_lift
    | match goal with |- silent (match ?x with _ => _ end) => destruct x end
    | apply silent_bind; [| intro] ].
Qed.

Lemma silent_buildRequestParams (sdk : DipCoinPerpSDK) (p : Params.t) (l : Legs)
    (sg : Signatures) :
  silent (buildRequestParams sdk p l sg).
Proof.
  unfold buildRequestParams.
  repeat first
    [ apply silent_ret | apply silent_lift
    | apply silent_if
    | apply silent_bind; [| intro]
    | progress cbv zeta ].
Qed.

(** Each operation sends at most one request, through the interceptor of
    the SDK's own client. *)
Lemma sends_placeOrder (sdk : DipCoinPerpSDK) (params : JsValue) :
  sends (through (httpClient sdk)) 1 (placeOrder sdk params).
Proof.
  unfold placeOrder. apply sends_try_catch; [| apply silent_catch_all].
  apply sends_silent_then; [apply silent_placeOrder_validate | intro].
  apply sends_silent_then; [apply silent_lift | intro p].
  apply sends_silent_then; [apply silent_buildLegs | intro legs].
  apply sends_silent_then; [apply silent_signLegs | intro sg].
  apply sends_silent_then; [apply silent_buildRequestParams | intro rp].
  apply sends_then_silent; [apply sends_instance_request | intro].
  apply silent_order_result.
Qed.

Lemma sends_cancelOrder (sdk : DipCoinPerpSDK) (params : JsValue) :
  sends (through (httpClient sdk)) 1 (cancelOrder sdk params).
Proof.
  unfold cancelOrder. apply sends_try_catch; [| apply silent_catch_all].
  do 3 (apply sends_silent_then; [apply silent_lift | intro]).
  cbv zeta.
  apply sends_silent_then; [apply silent_if; [apply silent_lift | apply silent_ret] | intro].
  apply sends_if; [apply sends_of_silent, silent_throw |].
  apply sends_silent_then; [apply silent_lift | intro].
  apply sends_then_silent; [apply sends_instance_request | intro].
  apply silent_order_result.
Qed.

Lemma sends_getAccountInfo (sdk : DipCoinPerpSDK) :
  sends (through (httpClient sdk)) 1 (getAccountInfo sdk).
Proof.
  unfold getAccountInfo. apply sends_try_catch; [| apply silent_catch_all].
  apply sends_then_silent; [apply sends_instance_request | intro].
  repeat first
    [ apply silent_ret | apply silent_lift | apply silent_if
    | apply silent_bind; [| intro] | progress cbv zeta ].
Qed.

Lemma sends_getPositions (sdk : DipCoinPerpSDK) (symbol : JsValue) :
  sends (through (httpClient sdk)) 1 (getPositions sdk symbol).
Proof.
  unfold getPositions. apply sends_try_catch; [| apply silent_catch_all].
  cbv zeta. apply sends_then_silent; [apply sends_instance_request | intro].
  repeat first
    [ apply silent_ret | apply silent_lift | apply silent_if
    | apply silent_bind; [| intro] | progress cbv zeta ].
Qed.

Lemma sends_getOpenOrders (sdk : DipCoinPerpSDK) (symbol : JsValue) :
  sends (through (httpClient sdk)) 1 (getOpenOrders sdk symbol).
Proof.
  unfold getOpenOrders. apply sends_try_catch; [| apply silent_catch_all].
  cbv zeta. apply sends_then_silent; [apply sends_instance_request | intro].
  repeat first
    [ apply silent_ret | apply silent_lift | apply silent_if
    | apply silent_bind; [| intro] | progress cbv zeta ].
Qed.

End Sending.

(* ================================================================== *)
(** ** Headers, requests and transport errors *)
(* ================================================================== *)

Section Transport.
Context {P : Platform}.

Lemma sends_weaken {A} (Q Q' : Request -> Prop) (n : nat) (m : M A) :
  (forall r, Q r -> Q' r) -> sends Q n m -> sends Q' n m.
Proof.
  intros I H w. destruct (H w) as (new & E & F & L). exists new.
  split; [exact E |]. split; [| exact L].
  eapply Forall_impl; [exact I | exact F].
Qed.

Lemma get_header_set_same (k v : string) (h : list (string * string)) :
  get_header k (set_header k v h) = Some v.
Proof.
  induction h as [| [a x] h IH]; cbn.
  - rewrite header_eqb_refl. reflexivity.
  - destruct (header_eqb k a) eqn:E; cbn.
    + rewrite E. reflexivity.
    + rewrite E. exact IH.
Qed.

Lemma nonempty_present (s : string) : s <> "" -> present (Some s) = true.
Proof.
  intro N. cbn. destruct (String.eqb s "") eqn:E; [| reflexivity].
  apply String.eqb_eq in E. contradiction.
Qed.

Lemma interceptor_wallet_header (c : HttpClient) (config : Request) (address : string) :
  http_walletAddress c = Some address -> address <> "" ->
  get_header "X-Wallet-Address" (req_headers (request_interceptor c config)) = Some address.
Proof.
  intros H N. unfold request_interceptor. cbn [req_headers]. rewrite H.
  rewrite (nonempty_present address N).
  destruct (authToken c) as [t |]; [destruct (present (Some t)) |];
    rewrite ?get_header_set_other by reflexivity; apply get_header_set_same.
Qed.

Lemma interceptor_auth_header (c : HttpClient) (config : Request) (token : string) :
  authToken c = Some token -> token <> "" ->
  get_header "Authorization" (req_headers (request_interceptor c config))
  = Some ("Bearer " ++ token).
Proof.
  intros H N. unfold request_interceptor. cbn [req_headers]. rewrite H.
  rewrite (nonempty_present token N). apply get_header_set_same.
Qed.

Lemma interceptor_other_header (c : HttpClient) (config : Request) (k : string) :
  header_eqb k "X-Wallet-Address" = false -> header_eqb k "Authorization" = false ->
  get_header k (req_headers (request_interceptor c config)) = get_header k (req_headers config).
Proof.
  intros N1 N2. unfold request_interceptor. cbn [req_headers].
  destruct (authToken c) as [t |], (http_walletAddress c) as [a |];
    repeat match goal with |- context [if ?b then _ else _] => destruct b end;
    rewrite ?get_header_set_other by assumption; reflexivity.
Qed.

(** The request [instance_request] hands to the transport. *)
Definition request_of (c : HttpClient) (method : Method) (url : string)
    (data : option string) (config : option AxiosRequestConfig) : Request :=
  request_interceptor c
    {| req_method := method; req_baseURL := baseURL c; req_url := url;
       req_params := match config with Some cfg => cfg_params cfg | None => JUndefined end;
       req_data := data;
       req_headers :=
         spread_headers [("Content-Type", "application/json")]
           (match config with Some cfg => cfg_headers cfg | None => [] end) |}.

(** The request [post] hands to the transport: the body is what axios
    makes of the data. *)
Definition post_request (c : HttpClient) (url : string) (data : JsValue)
    (config : option AxiosRequestConfig) : Request :=
  request_of c POST url (axios_transformRequest (content_type config) data) config.

Lemma instance_request_run (c : HttpClient) (method : Method) (url : string)
    (data : option string) (config : option AxiosRequestConfig) (w : World) :
  instance_request c method url data config w =
  response_interceptor (server w (request_of c method url data config))
                       (recorded w (request_of c method url data config)).
Proof. reflexivity. Qed.

(** [errorMessage] of the response interceptor. *)
Definition errorMessage (error : JsValue) : JsValue :=
  js_or (js_or (get_prop_opt (get_prop_opt (get_prop_opt error "response") "data") "message")
               (get_prop_opt error "message"))
        (JStr "Request failed").

Lemma response_interceptor_rejected_message (error : JsValue) (w : World) :
  nullish error = false ->
  response_interceptor (Rejected error) w
  = (Thrown (new_Error (String_ (errorMessage error))), w).
Proof.
  intro N. unfold response_interceptor, bind, lift, throw, errorMessage.
  rewrite !(get_prop_present error) by exact N. reflexivity.
Qed.

Lemma quiet_if {A} (c : bool) (m1 m2 : M A) :
  quiet m1 -> quiet m2 -> quiet (if c then m1 else m2).
Proof. destruct c; auto. Qed.

(** A GET followed by steps that leave the world alone records exactly
    its one request, whatever comes back. *)
Lemma get_then_quiet (c : HttpClient) (url : string) (config : option AxiosRequestConfig)
    (k : JsValue -> M SDKResponse) (w : World) :
  (forall response, quiet (k response)) ->
  snd (try_catch (bind (get c url config) k) catch_all w)
  = recorded w (get_request c url config).
Proof.
  intro Hk. unfold try_catch, bind. rewrite get_run.
  pose proof (quiet_response_interceptor (server w (get_request c url config))
                (recorded w (get_request c url config))) as Q.
  destruct (response_interceptor _ _) as [[response | e] w1]; cbn [snd] in Q; subst w1.
  - pose proof (Hk response (recorded w (get_request c url config))) as Q.
    destruct (k response _) as [[r | e] w1]; cbn [snd] in Q; subst w1; reflexivity.
  - reflexivity.
Qed.

(** A query is its GET followed by the steps [k]; the handler turns what
    the transport throws into a failure. *)
Lemma query_rejected (c : HttpClient) (url : string) (config : option AxiosRequestConfig)
    (k : JsValue -> M SDKResponse) (w : World) (error : JsValue) :
  server w (get_request c url config) = Rejected error ->
  nullish error = false ->
  fst (try_catch (bind (get c url config) k) catch_all w)
  = Returned (failure (JStr (formatError (new_Error (String_ (errorMessage error)))))).
Proof.
  intros H N. unfold try_catch, bind. rewrite get_run, H.
  rewrite (response_interceptor_rejected_message error _ N). reflexivity.
Qed.

Lemma query_fulfilled (c : HttpClient) (url : string) (config : option AxiosRequestConfig)
    (k : JsValue -> M SDKResponse) (w : World) (response : JsValue) :
  server w (get_request c url config) = Fulfilled response ->
  try_catch (bind (get c url config) k) catch_all w
  = try_catch (k response) catch_all (recorded w (get_request c url config)).
Proof.
  intro H. unfold try_catch, bind. rewrite get_run, H. reflexivity.
Qed.

Lemma getOpenOrders_fulfilled (sdk : DipCoinPerpSDK) (symbol response : JsValue) (w : World) :
  let request :=
    get_request (httpClient sdk) GET_OPEN_ORDERS
      (Some {| cfg_params := JObj (symbol_filter symbol); cfg_headers := [] |}) in
  server w request = Fulfilled response ->
  nullish response = false ->
  getOpenOrders sdk symbol w =
  (Returned
     (if strict_eq_num (get_prop_opt response "code") (number_of_Z 200)
      then success (normalize_list (get_prop_opt response "data"))
      else failure (js_or (get_prop_opt response "message")
                          (JStr "Failed to get open orders"))),
   recorded w request).
Proof.
  intros request Hs Hn.
  unfold getOpenOrders, try_catch, bind. cbv zeta. rewrite get_run. fold request.
  rewrite Hs. cbn [response_interceptor ret].
  unfold lift. rewrite !(get_prop_present response) by exact Hn.
  destruct (strict_eq_num (get_prop_opt response "code") (number_of_Z 200)); reflexivity.
Qed.

(** Posting a form and mapping the answer, as both order operations end. *)
Lemma submit_sent (c : HttpClient) (url : string) (rp : list (string * JsValue))
    (fallback : string) (w : World) :
  snd (try_catch
         (response <- postForm c url rp None ;; order_result response fallback)
         catch_all w)
  = recorded w (form_request c url rp).
Proof.
  unfold try_catch, bind. rewrite postForm_run.
  pose proof (quiet_response_interceptor (server w (form_request c url rp))
                (recorded w (form_request c url rp))) as Q.
  destruct (response_interceptor _ _) as [[response | e] w1]; cbn [snd] in Q; subst w1.
  - pose proof (quiet_order_result response fallback (recorded w (form_request c url rp))) as Q.
    destruct (order_result response fallback _) as [[r | e] w1];
      cbn [snd] in Q; subst w1; reflexivity.
  - reflexivity.
Qed.

Lemma submit_fulfilled (c : HttpClient) (url : string) (rp : list (string * JsValue))
    (fallback : string) (w : World) (response : JsValue) :
  server w (form_request c url rp) = Fulfilled response ->
  nullish response = false ->
  fst (try_catch
         (response <- postForm c url rp None ;; order_result response fallback)
         catch_all w)
  = Returned (if strict_eq_num (get_prop_opt response "code") (number_of_Z 200)
              then success response
              else failure (js_or (get_prop_opt response "message") (JStr fallback))).
Proof.
  intros H N. unfold try_catch, bind at 1. rewrite postForm_run, H.
  cbn [response_interceptor ret]. unfold order_result, bind, lift.
  rewrite !(get_prop_present response) by exact N.
  destruct (strict_eq_num (get_prop_opt response "code") (number_of_Z 200)); reflexivity.
Qed.

Lemma submit_empty_response (c : HttpClient) (url : string) (rp : list (string * JsValue))
    (fallback : string) (w : World) (response : JsValue) :
  server w (form_request c url rp) = Fulfilled response ->
  nullish response = true ->
  exists e,
    fst (try_catch
           (response <- postForm c url rp None ;; order_result response fallback)
           catch_all w)
    = Returned (failure (JStr (formatError e))).
Proof.
  intros H N. destruct (get_prop_nullish response "code" N) as [e He]. exists e.
  unfold try_catch, bind at 1. rewrite postForm_run, H.
  cbn [response_interceptor ret]. unfold order_result, bind, lift. rewrite He. reflexivity.
Qed.

Lemma submit_rejected (c : HttpClient) (url : string) (rp : list (string * JsValue))
    (fallback : string) (w : World) (error : JsValue) :
  server w (form_request c url rp) = Rejected error ->
  nullish error = false ->
  fst (try_catch
         (response <- postForm c url rp None ;; order_result response fallback)
         catch_all w)
  = Returned (failure (JStr (formatError (new_Error (String_ (errorMessage error)))))).
Proof.
  intros H N. unfold try_catch, bind. rewrite postForm_run, H.
  rewrite (response_interceptor_rejected_message error _ N). reflexivity.
Qed.

End Transport.

(* ================================================================== *)
(** ** The steps of placeOrder after its legs *)
(* ================================================================== *)

(** [s] is the signature of the message of [o] under the key of the SDK. *)
Definition signed {P : Platform} (sdk : DipCoinPerpSDK) (o : Order.t) (s : string) : Prop :=
  exists orderMsg,
    getOrderMessageForUIWallet o = Returned orderMsg
    /\ signMessage (keypair sdk) (TextEncoder_encode orderMsg) = Returned s.

(** The eleven entries every order request has. *)
Definition base_requestParams {P : Platform} (sdk : DipCoinPerpSDK) (p : Params.t)
    (l : Legs) (sg : Signatures) (quantity price leverage reduceOnly : string)
  : list (string * JsValue) :=
  [ ("symbol", Params.symbol p);
    ("side", Params.side p);
    ("orderType", Params.orderType p);
    ("quantity", JStr quantity);
    ("price", JStr price);
    ("leverage", JStr leverage);
    ("salt", JStr (BigNumber_toString (saltBN l)));
    ("creator", JStr (walletAddress sdk));
    ("clientId", Params.clientId p);
    ("reduceOnly", JStr reduceOnly);
    ("orderSignature", JStr (orderSignature sg)) ].

(** The six assignments of "Add TP parameters if exists". *)
Definition tp_requestParams {P : Platform} (p : Params.t) (l : Legs) (sg : Signatures)
    (tpTriggerPrice tpOrderPrice : string) (requestParams : list (string * JsValue))
  : list (string * JsValue) :=
  assign "triggerWay" (JStr "oracle")
    (assign "tpSalt" (salt_toString (tpSalt l))
       (assign "tpOrderPrice" (JStr tpOrderPrice)
          (assign "tpOrderType" (Params.tpOrderType p)
             (assign "tpTriggerPrice" (JStr tpTriggerPrice)
                (assign "tpOrderSignature"
                   (match tpOrderSignature sg with Some s => JStr s | None => JUndefined end)
                   requestParams))))).

(** The five assignments of "Add SL parameters if exists". *)
Definition sl_requestParams {P : Platform} (p : Params.t) (l : Legs) (sg : Signatures)
    (slTriggerPrice slOrderPrice : string) (requestParams : list (string * JsValue))
  : list (string * JsValue) :=
  assign "slSalt" (salt_toString (slSalt l))
    (assign "slOrderPrice" (JStr slOrderPrice)
       (assign "slOrderType" (Params.slOrderType p)
          (assign "slTriggerPrice" (JStr slTriggerPrice)
             (assign "slOrderSignature"
                (match slOrderSignature sg with Some s => JStr s | None => JUndefined end)
                requestParams)))).

(** The tests that guard the two blocks. *)
Definition tp_on (p : Params.t) (sg : Signatures) : bool :=
  truthy (Params.tpTriggerPrice p) && present (tpOrderSignature sg).

Definition sl_on (p : Params.t) (sg : Signatures) : bool :=
  truthy (Params.slTriggerPrice p) && present (slOrderSignature sg).

(** [m] leaves the server, the requests sent and the clock's readings as
    they are: at most it takes readings. *)
Definition keeps {A} (m : M A) : Prop :=
  forall w,
    server (snd (m w)) = server w /\ sent (snd (m w)) = sent w
    /\ clock (snd (m w)) = clock w.

Section Submitting.
Context {P : Platform}.

Lemma quiet_signLegs (sdk : DipCoinPerpSDK) (l : Legs) : quiet (signLegs sdk l).
Proof.
  unfold signLegs, signOrder.
  repeat first
    [ apply quiet_ret | apply quiet_lift
    | match goal with |- quiet (match ?x with _ => _ end) => destruct x end
    | apply quiet_bind; [| intro] ].
Qed.

Lemma quiet_buildRequestParams (sdk : DipCoinPerpSDK) (p : Params.t) (l : Legs)
    (sg : Signatures) :
  quiet (buildRequestParams sdk p l sg).
Proof.
  unfold buildRequestParams.
  repeat first
    [ apply quiet_ret | apply quiet_lift | apply quiet_if
    | apply quiet_bind; [| intro] | progress cbv zeta ].
Qed.

Lemma signOrder_inv (sdk : DipCoinPerpSDK) (o : Order.t) (w w' : World) (s : string) :
  signOrder sdk o w = (Returned s, w') -> signed sdk o s.
Proof.
  unfold signOrder. intro H. run_inv. eexists. split; eassumption.
Qed.

Lemma signLegs_inv (sdk : DipCoinPerpSDK) (l : Legs) (w : World) (sg : Signatures) :
  fst (signLegs sdk l w) = Returned sg ->
  signed sdk (order l) (orderSignature sg)
  /\ match tpOrder l with
     | Some tp => exists s, tpOrderSignature sg = Some s /\ signed sdk tp s
     | None => tpOrderSignature sg = None
     end
  /\ match slOrder l with
     | Some sl => exists s, slOrderSignature sg = Some s /\ signed sdk sl s
     | None => slOrderSignature sg = None
     end.
Proof.
  intro H. destruct (signLegs sdk l w) as [o w'] eqn:E. cbn [fst] in H. subst o.
  unfold signLegs in E.
  apply bind_returned_inv in E. destruct E as (s0 & w1 & H0 & E).
  apply bind_returned_inv in E. destruct E as (s1 & w2 & H1 & E).
  apply bind_returned_inv in E. destruct E as (s2 & w3 & H2 & E).
  apply ret_returned_inv in E. destruct E as [-> _]. cbn.
  split; [eapply signOrder_inv; exact H0 |]. split.
  - destruct (tpOrder l) as [tp |].
    + apply bind_returned_inv in H1. destruct H1 as (s & w4 & Hs & H1).
      apply ret_returned_inv in H1. destruct H1 as [-> _].
      exists s. split; [reflexivity | eapply signOrder_inv; exact Hs].
    + apply ret_returned_inv in H1. destruct H1 as [-> _]. reflexivity.
  - destruct (slOrder l) as [sl |].
    + apply bind_returned_inv in H2. destruct H2 as (s & w4 & Hs & H2).
      apply ret_returned_inv in H2. destruct H2 as [-> _].
      exists s. split; [reflexivity | eapply signOrder_inv; exact Hs].
    + apply ret_returned_inv in H2. destruct H2 as [-> _]. reflexivity.
Qed.

(** The request parameters, entry by entry. *)
Lemma buildRequestParams_inv (sdk : DipCoinPerpSDK) (p : Params.t) (l : Legs)
    (sg : Signatures) (w : World) (rp : list (string * JsValue)) :
  fst (buildRequestParams sdk p l sg w) = Returned rp ->
  exists quantity price leverage reduceOnly rp1,
    formatNormalToWei (Params.quantity p) = Returned quantity
    /\ (if strict_eq_str (Params.orderType p) OrderType.LIMIT && truthy (Params.price p)
        then formatNormalToWei (Params.price p) = Returned price
        else price = "")
    /\ formatNormalToWei (Params.leverage p) = Returned leverage
    /\ toString (Params.reduceOnly p) = Returned reduceOnly
    /\ (if tp_on p sg
        then exists tpTriggerPrice tpOrderPrice,
               formatNormalToWei (Params.tpTriggerPrice p) = Returned tpTriggerPrice
               /\ (if strict_eq_str (Params.tpOrderType p) OrderType.LIMIT
                   then formatNormalToWei
                          (js_or (Params.tpOrderPrice p) (Params.tpTriggerPrice p))
                        = Returned tpOrderPrice
                   else tpOrderPrice = "")
               /\ rp1 = tp_requestParams p l sg tpTriggerPrice tpOrderPrice
                          (base_requestParams sdk p l sg quantity price leverage reduceOnly)
        else rp1 = base_requestParams sdk p l sg quantity price leverage reduceOnly)
    /\ (if sl_on p sg
        then exists slTriggerPrice slOrderPrice,
               formatNormalToWei (Params.slTriggerPrice p) = Returned slTriggerPrice
               /\ (if strict_eq_str (Params.slOrderType p) OrderType.LIMIT
                   then formatNormalToWei
                          (js_or (Params.slOrderPrice p) (Params.slTriggerPrice p))
                        = Returned slOrderPrice
                   else slOrderPrice = "")
               /\ rp = sl_requestParams p l sg slTriggerPrice slOrderPrice rp1
        else rp = rp1).
Proof.
  intro H. destruct (buildRequestParams sdk p l sg w) as [o w'] eqn:E.
  cbn [fst] in H. subst o. unfold buildRequestParams in E.
  apply bind_returned_inv in E. destruct E as (quantity & w1 & Hq & E).
  apply bind_returned_inv in E. destruct E as (price & w2 & Hp & E).
  apply bind_returned_inv in E. destruct E as (leverage & w3 & Hl & E).
  apply bind_returned_inv in E. destruct E as (reduceOnly & w4 & Hr & E).
  apply bind_returned_inv in E. destruct E as (rp1 & w5 & Htp & Hsl).
  apply lift_returned_inv in Hq. destruct Hq as [Hq _].
  apply lift_returned_inv in Hl. destruct Hl as [Hl _].
  apply lift_returned_inv in Hr. destruct Hr as [Hr _].
  exists quantity, price, leverage, reduceOnly, rp1.
  split; [exact Hq |]. split.
  { destruct (strict_eq_str (Params.orderType p) OrderType.LIMIT && truthy (Params.price p)).
    - apply lift_returned_inv in Hp. apply Hp.
    - apply ret_returned_inv in Hp. apply Hp. }
  split; [exact Hl |]. split; [exact Hr |]. split.
  - unfold tp_on. destruct (truthy (Params.tpTriggerPrice p) && present (tpOrderSignature sg)).
    + apply bind_returned_inv in Htp. destruct Htp as (a & wa & Ha & Htp).
      apply bind_returned_inv in Htp. destruct Htp as (b & wb & Hb & Htp).
      apply ret_returned_inv in Htp. destruct Htp as [-> _].
      apply lift_returned_inv in Ha. destruct Ha as [Ha _].
      exists a, b. split; [exact Ha |]. split; [| reflexivity].
      destruct (strict_eq_str (Params.tpOrderType p) OrderType.LIMIT).
      * apply lift_returned_inv in Hb. apply Hb.
      * apply ret_returned_inv in Hb. apply Hb.
    + apply ret_returned_inv in Htp. apply Htp.
  - unfold sl_on. destruct (truthy (Params.slTriggerPrice p) && present (slOrderSignature sg)).
    + apply bind_returned_inv in Hsl. destruct Hsl as (a & wa & Ha & Hsl).
      apply bind_returned_inv in Hsl. destruct Hsl as (b & wb & Hb & Hsl).
      apply ret_returned_inv in Hsl. destruct Hsl as [-> _].
      apply lift_returned_inv in Ha. destruct Ha as [Ha _].
      exists a, b. split; [exact Ha |]. split; [| reflexivity].
      destruct (strict_eq_str (Params.slOrderType p) OrderType.LIMIT).
      * apply lift_returned_inv in Hb. apply Hb.
      * apply ret_returned_inv in Hb. apply Hb.
    + apply ret_returned_inv in Hsl. apply Hsl.
Qed.

Lemma keeps_quiet {A} (m : M A) : quiet m -> keeps m.
Proof. intros Q w. rewrite Q. auto. Qed.

Lemma keeps_bind {A B} (m : M A) (f : A -> M B) :
  keeps m -> (forall a, keeps (f a)) -> keeps (bind m f).
Proof.
  intros Hm Hf w. unfold bind. specialize (Hm w).
  destruct (m w) as [[a | e] w1]; cbn [snd] in *.
  - destruct (Hf a w1) as (S1 & S2 & S3). destruct Hm as (M1 & M2 & M3).
    rewrite S1, S2, S3. auto.
  - exact Hm.
Qed.

Lemma keeps_if {A} (c : bool) (m1 m2 : M A) :
  keeps m1 -> keeps m2 -> keeps (if c then m1 else m2).
Proof. destruct c; auto. Qed.

Lemma keeps_Date_now : keeps Date_now.
Proof. intro w. cbn. auto. Qed.

(** Building the legs reads the clock and nothing else. *)
Lemma placeOrder_build_world (sdk : DipCoinPerpSDK) (params : JsValue) :
  keeps (placeOrder_build sdk params).
Proof.
  unfold placeOrder_build, buildLegs, buildMainOrder, buildTpOrder, buildSlOrder.
  apply keeps_bind; [| intro].
  { apply keeps_quiet. intro w. destruct (placeOrder_validate_pure params) as [o Ho].
    rewrite Ho. reflexivity. }
  repeat first
    [ apply keeps_quiet, quiet_ret | apply keeps_quiet, quiet_lift
    | apply keeps_Date_now | apply keeps_if | apply keeps_bind; [| intro] ].
Qed.

(** [placeOrder], step by step. *)
Lemma placeOrder_cases (sdk : DipCoinPerpSDK) (params : JsValue) (w : World) :
  placeOrder sdk params w =
  match placeOrder_build sdk params w with
  | (Thrown e, w1) => (Returned (failure (JStr (formatError e))), w1)
  | (Returned (p, l), w1) =>
      match fst (signLegs sdk l w1) with
      | Thrown e => (Returned (failure (JStr (formatError e))), w1)
      | Returned sg =>
          match fst (buildRequestParams sdk p l sg w1) with
          | Thrown e => (Returned (failure (JStr (formatError e))), w1)
          | Returned rp =>
              try_catch
                (response <- postForm (httpClient sdk) PLACE_ORDER rp None ;;
                 order_result response "Failed to place order")
                catch_all w1
          end
      end
  end.
Proof.
  rewrite placeOrder_runs_build. unfold try_catch at 1, bind at 1.
  destruct (placeOrder_build sdk params w) as [[[p l] | e] w1]; [| reflexivity].
  cbn [fst snd]. unfold bind at 1.
  pose proof (quiet_signLegs sdk l w1) as Q1.
  destruct (signLegs sdk l w1) as [[sg | e] w2]; cbn [fst snd] in *; subst w2;
    [| reflexivity].
  unfold bind at 1.
  pose proof (quiet_buildRequestParams sdk p l sg w1) as Q2.
  destruct (buildRequestParams sdk p l sg w1) as [[rp | e] w2]; cbn [fst snd] in *; subst w2;
    reflexivity.
Qed.

Lemma lookup_assign_same (k : string) (v : JsValue) (props : list (string * JsValue)) :
  lookup k (assign k v props) = v.
Proof.
  induction props as [| [a x] rest IH]; cbn.
  - rewrite String.eqb_refl. reflexivity.
  - destruct (String.eqb k a) eqn:E; cbn.
    + rewrite String.eqb_refl. reflexivity.
    + rewrite E. exact IH.
Qed.

(** The fields a leg has whatever the intent. *)
Lemma buildMainOrder_fixed (sdk : DipCoinPerpSDK) (p : Params.t) (w w' : World) (o : Order.t) :
  buildMainOrder sdk p w = (Returned o, w') ->
  Order.market o = js_or (Params.market p) (Params.symbol p)
  /\ Order.creator o = walletAddress sdk
  /\ Order.postOnly o = false /\ Order.orderbookOnly o = true /\ Order.ioc o = false
  /\ Order.expiration o = zeroBN.
Proof.
  unfold buildMainOrder. intro H.
  destruct (truthy (Params.price p)); run_inv; cbn; repeat split.
Qed.

Lemma buildTpOrder_fixed (sdk : DipCoinPerpSDK) (p : Params.t) (order : Order.t)
    (w w' : World) (r : option Order.t * option BigNumber) (tp : Order.t) :
  buildTpOrder sdk p order w = (Returned r, w') -> fst r = Some tp ->
  Order.market tp = Order.market order
  /\ Order.creator tp = walletAddress sdk
  /\ Order.postOnly tp = false /\ Order.orderbookOnly tp = true /\ Order.ioc tp = false
  /\ Order.quantity tp = Order.quantity order
  /\ Order.leverage tp = Order.leverage order
  /\ Order.expiration tp = Order.expiration order.
Proof.
  unfold buildTpOrder. intros H F.
  destruct (truthy (Params.tpTriggerPrice p)); run_inv; [| discriminate F].
  destruct (strict_eq_str (Params.tpOrderType p) OrderType.LIMIT); run_inv;
    cbn in F; inversion F; subst; cbn; repeat split.
Qed.

Lemma buildSlOrder_fixed (sdk : DipCoinPerpSDK) (p : Params.t) (order : Order.t)
    (w w' : World) (r : option Order.t * option BigNumber) (sl : Order.t) :
  buildSlOrder sdk p order w = (Returned r, w') -> fst r = Some sl ->
  Order.market sl = Order.market order
  /\ Order.creator sl = walletAddress sdk
  /\ Order.postOnly sl = false /\ Order.orderbookOnly sl = true /\ Order.ioc sl = false
  /\ Order.quantity sl = Order.quantity order
  /\ Order.leverage sl = Order.leverage order
  /\ Order.expiration sl = Order.expiration order.
Proof.
  unfold buildSlOrder. intros H F.
  destruct (truthy (Params.slTriggerPrice p)); run_inv; [| discriminate F].
  destruct (strict_eq_str (Params.slOrderType p) OrderType.LIMIT); run_inv;
    cbn in F; inversion F; subst; cbn; repeat split.
Qed.

(** Which legs and salts a build has, by the truthiness of the triggers. *)
Lemma legs_by_trigger (sdk : DipCoinPerpSDK) (params : JsValue) (w w1 : World)
    (p : Params.t) (l : Legs) :
  placeOrder_build sdk params w = (Returned (p, l), w1) ->
  saltBN l = Order.salt (order l)
  /\ (if truthy (Params.tpTriggerPrice p)
      then exists tp, tpOrder l = Some tp /\ tpSalt l = Some (Order.salt tp)
      else tpOrder l = None /\ tpSalt l = None)
  /\ (if truthy (Params.slTriggerPrice p)
      then exists sl, slOrder l = Some sl /\ slSalt l = Some (Order.salt sl)
      else slOrder l = None /\ slSalt l = None).
Proof.
  intro H. apply placeOrder_build_inv in H. destruct H as (_ & _ & H).
  apply buildLegs_inv in H. destruct H as (w2 & _ & Ht & Hs & E).
  apply buildTpOrder_inv in Ht. apply buildSlOrder_inv in Hs.
  split; [exact E |]. split.
  - destruct (truthy (Params.tpTriggerPrice p)).
    + destruct Ht as (_ & tp & F1 & F2 & _). exists tp. split; assumption.
    + destruct Ht as [Ht _]. inversion Ht. split; reflexivity.
  - destruct (truthy (Params.slTriggerPrice p)).
    + destruct Hs as (_ & sl & F1 & F2 & _). exists sl. split; assumption.
    + destruct Hs as [Hs _]. inversion Hs. split; reflexivity.
Qed.

(** The guard of each block amounts to the leg's signature being a
    non-empty string. *)
Lemma guards_by_signature (sdk : DipCoinPerpSDK) (params : JsValue) (w w1 : World)
    (p : Params.t) (l : Legs) (sg : Signatures) :
  placeOrder_build sdk params w = (Returned (p, l), w1) ->
  fst (signLegs sdk l w1) = Returned sg ->
  tp_on p sg = present (tpOrderSignature sg)
  /\ sl_on p sg = present (slOrderSignature sg).
Proof.
  intros B S. destruct (legs_by_trigger _ _ _ _ _ _ B) as (_ & Lt & Ls).
  destruct (signLegs_inv _ _ _ _ S) as (_ & St & Ss).
  unfold tp_on, sl_on. split.
  - destruct (truthy (Params.tpTriggerPrice p)); [reflexivity |].
    destruct Lt as [Lt _]. rewrite Lt in St. rewrite St. reflexivity.
  - destruct (truthy (Params.slTriggerPrice p)); [reflexivity |].
    destruct Ls as [Ls _]. rewrite Ls in Ss. rewrite Ss. reflexivity.
Qed.

Lemma js_or_with_default (x t : JsValue) :
  js_or (with_default x (JStr "")) t = js_or x t.
Proof. destruct x; reflexivity. Qed.

Lemma strict_eq_str_with_default (x : JsValue) :
  strict_eq_str (with_default x (JStr OrderType.MARKET)) OrderType.LIMIT
  = strict_eq_str x OrderType.LIMIT.
Proof. destruct x; reflexivity. Qed.

Lemma truthy_js_or_zero (x : JsValue) : truthy (js_or x (JStr "0")) = true.
Proof. unfold js_or. destruct (truthy x) eqn:T; [exact T | reflexivity]. Qed.

End Submitting.

Ltac quiet_walk :=
  repeat first
    [ apply quiet_ret | apply quiet_lift | apply quiet_throw | apply quiet_if
    | apply quiet_bind; [| intro] | progress cbv zeta ].

(* ================================================================== *)
(** ** Further results *)
(* ================================================================== *)

(** ** The request of a MARKET order *)

(** [formatNormalToWei] accepts a value. *)
Definition formats {P : Platform} (v : JsValue) : Prop :=
  exists s, formatNormalToWei v = Returned s.

(** The values of a leg that go on the wire can be formatted: the trigger
    price when it is truthy, and then, for a LIMIT leg, the order price or
    the trigger price in its place. *)
Definition leg_formats {P : Platform} (trigger type price : JsValue) : Prop :=
  truthy trigger = true ->
  formats trigger
  /\ (strict_eq_str type OrderType.LIMIT = true -> formats (js_or price trigger)).

(** What assembling the request of a MARKET intent needs of the intent:
    a quantity and a leverage that can be formatted, a reduceOnly that is
    not null, and legs that can be formatted. *)
Definition wire_ready {P : Platform} (params : JsValue) : Prop :=
  let field := get_prop_opt params in
  formats (field "quantity")
  /\ formats (field "leverage")
  /\ field "reduceOnly" <> JNull
  /\ leg_formats (field "tpTriggerPrice") (field "tpOrderType") (field "tpOrderPrice")
  /\ leg_formats (field "slTriggerPrice") (field "slOrderType") (field "slOrderPrice").

Section MarketOrders.
Context {P : Platform}.

Lemma bind_lift_run {A B} (o : Outcome A) (a : A) (k : A -> M B) (w : World) :
  o = Returned a -> (x <- lift o ;; k x) w = k a w.
Proof. intros ->. reflexivity. Qed.

Lemma bind_ret_run {A B} (a : A) (k : A -> M B) (w : World) :
  (x <- ret a ;; k x) w = k a w.
Proof. reflexivity. Qed.

Lemma toString_returns (v : JsValue) :
  v <> JNull -> exists s, toString (with_default v (JBool false)) = Returned s.
Proof.
  intro N. destruct v; cbn; try (eexists; reflexivity). contradiction N. reflexivity.
Qed.

(** The optional block of a leg returns when the leg can be formatted. *)
Lemma leg_block_returns (trigger type price : JsValue) (on : bool)
    (k : string -> string -> list (string * JsValue)) (base : list (string * JsValue))
    (w : World) :
  leg_formats trigger type price ->
  (on = true -> truthy trigger = true) ->
  exists rp,
    (if on
     then (t <- lift (formatNormalToWei trigger) ;;
           o <- (if strict_eq_str (with_default type (JStr OrderType.MARKET)) OrderType.LIMIT
                 then lift (formatNormalToWei
                              (js_or (with_default price (JStr "")) trigger))
                 else ret "") ;;
           ret (k t o))
     else ret base) w
    = (Returned rp, w).
Proof.
  intros F G. destruct on; [| eexists; reflexivity].
  destruct (F (G eq_refl)) as ((t & Ht) & Hp).
  rewrite (bind_lift_run _ t _ _ Ht).
  rewrite strict_eq_str_with_default, js_or_with_default.
  destruct (strict_eq_str type OrderType.LIMIT).
  - destruct (Hp eq_refl) as (o & Ho). rewrite (bind_lift_run _ o _ _ Ho).
    eexists. reflexivity.
  - eexists. reflexivity.
Qed.

(** Assembling the request of a MARKET intent returns when the intent is
    ready for the wire. *)
Lemma buildRequestParams_returns (sdk : DipCoinPerpSDK) (params : JsValue) (p : Params.t)
    (l : Legs) (sg : Signatures) (w : World) :
  destructure params = Returned p ->
  get_prop_opt params "orderType" = JStr OrderType.MARKET ->
  wire_ready params ->
  exists rp, buildRequestParams sdk p l sg w = (Returned rp, w).
Proof.
  intros D Hm ((q & Hq) & (lv & Hl) & Hr & Htp & Hsl).
  apply destructure_inv in D. cbv zeta in D.
  destruct D as (_ & _ & Eot & Eq & _ & El & _ & Ero & _ & Et & Ety & Etp & Es & Esy & Esp).
  destruct (toString_returns _ Hr) as (ro & Hro).
  unfold buildRequestParams.
  rewrite Eq, El, Eot, Hm, Ero, Et, Ety, Etp, Es, Esy, Esp.
  rewrite (bind_lift_run _ q _ _ Hq).
  replace (strict_eq_str (JStr OrderType.MARKET) OrderType.LIMIT) with false by reflexivity.
  cbn [andb]. rewrite bind_ret_run.
  rewrite (bind_lift_run _ lv _ _ Hl).
  rewrite (bind_lift_run _ ro _ _ Hro).
  cbv zeta.
  match goal with
  | |- context [bind (if ?on then _ else ret ?base) _] =>
      destruct (leg_block_returns
                  (get_prop_opt params "tpTriggerPrice") (get_prop_opt params "tpOrderType")
                  (get_prop_opt params "tpOrderPrice") on
                  (fun t o =>
                     assign "triggerWay" (JStr "oracle")
                       (assign "tpSalt" (salt_toString (tpSalt l))
                          (assign "tpOrderPrice" (JStr o)
                             (assign "tpOrderType"
                                (with_default (get_prop_opt params "tpOrderType")
                                              (JStr OrderType.MARKET))
                                (assign "tpTriggerPrice" (JStr t)
                                   (assign "tpOrderSignature"
                                      (match tpOrderSignature sg with
                                       | Some s => JStr s
                                       | None => JUndefined
                                       end) base))))))
                  base w Htp) as (rp1 & R1)
  end.
  { intro On. apply andb_prop in On. apply On. }
  unfold bind at 1. rewrite R1.
  match goal with
  | |- context [(if ?on then _ else ret rp1) w] =>
      destruct (leg_block_returns
                  (get_prop_opt params "slTriggerPrice") (get_prop_opt params "slOrderType")
                  (get_prop_opt params "slOrderPrice") on
                  (fun t o =>
                     assign "slSalt" (salt_toString (slSalt l))
                       (assign "slOrderPrice" (JStr o)
                          (assign "slOrderType"
                             (with_default (get_prop_opt params "slOrderType")
                                           (JStr OrderType.MARKET))
                             (assign "slTriggerPrice" (JStr t)
                                (assign "slOrderSignature"
                                   (match slOrderSignature sg with
                                    | Some s => JStr s
                                    | None => JUndefined
                                    end) rp1)))))
                  rp1 w Hsl) as (rp & R2)
  end.
  { intro On. apply andb_prop in On. apply On. }
  exists rp. exact R2.
Qed.

(** C5. For every MARKET intent whose legs get built, the main order is
    long exactly when the side is BUY, its price is the zero fixed-point
    value, its quantity is the fixed-point scaling of the quantity
    supplied, and reduceOnly is false when the intent says nothing.
    Whatever request parameters are assembled for it have the empty string
    as price.  And once the legs are signed and the intent's values can be
    formatted for the wire, request parameters are assembled, their price
    field is the empty string, and the one request [placeOrder] sends is
    the form of these parameters, its body their URL-encoded fields with
    an empty price among them. *)
Theorem market_order_canonical_form (sdk : DipCoinPerpSDK) (params : JsValue)
    (w w' : World) (p : Params.t) (l : Legs) :
  placeOrder_build sdk params w = (Returned (p, l), w') ->
  get_prop_opt params "orderType" = JStr OrderType.MARKET ->
  (Order.isLong (order l) = true <-> get_prop_opt params "side" = JStr OrderSide.BUY)
  /\ Order.price (order l) = zeroBN
  /\ formatNormalToWeiBN (get_prop_opt params "quantity")
     = Returned (Order.quantity (order l))
  /\ (get_prop_opt params "reduceOnly" = JUndefined ->
      Order.reduceOnly (order l) = JBool false)
  /\ (forall sg rp w1 w2,
        buildRequestParams sdk p l sg w1 = (Returned rp, w2) ->
        lookup "price" rp = JStr "" /\ In ("price", "") (postForm_formData rp))
  /\ (forall sg,
        fst (signLegs sdk l w') = Returned sg ->
        wire_ready params ->
        exists rp request,
          fst (buildRequestParams sdk p l sg w') = Returned rp
          /\ lookup "price" rp = JStr ""
          /\ In ("price", "") (postForm_formData rp)
          /\ sent (snd (placeOrder sdk params w)) = (sent w ++ [request])%list
          /\ request = form_request (httpClient sdk) PLACE_ORDER rp
          /\ req_method request = POST
          /\ req_url request = PLACE_ORDER
          /\ req_data request = Some (URLSearchParams_toString (postForm_formData rp))).
Proof.
  intros B Hm.
  pose proof (placeOrder_build_world sdk params w) as (_ & K & _).
  assert (Wire : forall sg rp w1 w2,
             buildRequestParams sdk p l sg w1 = (Returned rp, w2) ->
             lookup "price" rp = JStr "" /\ In ("price", "") (postForm_formData rp)).
  { intros sg rp w1 w2 R.
    pose proof B as H. apply placeOrder_build_inv in H. destruct H as (_ & Hd & _).
    apply destructure_inv in Hd. cbv zeta in Hd. destruct Hd as (_ & _ & Eot & _).
    destruct (buildRequestParams_price _ _ _ _ _ _ _ R) as (price & L & I & C).
    rewrite Eot, Hm in C. cbn in C. subst price.
    split; [exact L | apply postForm_formData_In; assumption]. }
  pose proof B as H.
  apply placeOrder_build_inv in H. destruct H as (_ & Hd & H).
  pose proof Hd as Hd'.
  apply destructure_inv in Hd. cbv zeta in Hd.
  destruct Hd as (_ & Esd & Eot & Eq & _ & _ & _ & Ero & _).
  apply buildLegs_inv in H. destruct H as (w2 & Hmain & _).
  apply buildMainOrder_inv in Hmain.
  destruct Hmain as (_ & _ & Lg & Ro & Q & _ & Pz & _).
  rewrite Eot, Hm in Pz. rewrite Esd in Lg. rewrite Eq in Q. rewrite Ero in Ro.
  split; [rewrite Lg; apply strict_eq_str_iff |].
  split; [apply Pz; reflexivity |].
  split; [exact Q |].
  split; [intro U; rewrite Ro, U; reflexivity |].
  split; [exact Wire |].
  intros sg S Rdy.
  destruct (buildRequestParams_returns sdk params p l sg w' Hd' Hm Rdy) as (rp & R).
  destruct (Wire sg rp w' w' R) as (L & I).
  exists rp, (form_request (httpClient sdk) PLACE_ORDER rp).
  split; [rewrite R; reflexivity |]. split; [exact L |]. split; [exact I |].
  split; [| repeat split].
  rewrite placeOrder_cases, B, S, R. cbn [fst]. rewrite submit_sent.
  rewrite B in K. cbn [snd] in K. cbn [sent recorded]. rewrite K. reflexivity.
Qed.

End MarketOrders.

Section Coverage.
Context {P : Platform}.

(** X1. An SDK made by the constructor from a key whose address is not
    empty identifies itself on every request: whatever the input and the
    server, each of the five operations sends at most one request, leaves
    the requests sent before in place, and the request it sends goes to
    the SDK's base URL with the wallet address in the X-Wallet-Address
    header. *)
Theorem every_request_carries_the_wallet_address (privateKey : string + Keypair)
    (url : string) (sdk : DipCoinPerpSDK) (params symbol : JsValue) :
  new_DipCoinPerpSDK privateKey url = Returned sdk ->
  walletAddress sdk <> "" ->
  let identified r :=
    get_header "X-Wallet-Address" (req_headers r) = Some (walletAddress sdk)
    /\ req_baseURL r = url in
  sends identified 1 (placeOrder sdk params)
  /\ sends identified 1 (cancelOrder sdk params)
  /\ sends identified 1 (getAccountInfo sdk)
  /\ sends identified 1 (getPositions sdk symbol)
  /\ sends identified 1 (getOpenOrders sdk symbol).
Proof.
  intros C N identified.
  assert (H : http_walletAddress (httpClient sdk) = Some (walletAddress sdk)
              /\ baseURL (httpClient sdk) = url).
  { unfold new_DipCoinPerpSDK in C.
    destruct privateKey as [exported | kp];
      [destruct (fromExportedKeypair exported); [| discriminate C] |];
      inversion C; subst; split; reflexivity. }
  destruct H as [Hw Hb].
  assert (I : forall r, through (httpClient sdk) r -> identified r).
  { intros r (config & -> & B). split.
    - apply interceptor_wallet_header; assumption.
    - cbn. rewrite B. exact Hb. }
  repeat split; (eapply sends_weaken; [exact I |]).
  - apply sends_placeOrder.
  - apply sends_cancelOrder.
  - apply sends_getAccountInfo.
  - apply sends_getPositions.
  - apply sends_getOpenOrders.
Qed.

(** X2. Each of the three queries sends exactly one GET request to its own
    endpoint, with no body, whatever the server answers (no retry after a
    failure, no request skipped); the symbol is passed as the only query
    parameter when it is truthy and left out otherwise. *)
Theorem queries_send_exactly_one_get (sdk : DipCoinPerpSDK) (symbol : JsValue) (w : World) :
  let filtered :=
    Some {| cfg_params := JObj (symbol_filter symbol); cfg_headers := [] |} in
  let c := httpClient sdk in
  sent (snd (getAccountInfo sdk w))
  = (sent w ++ [get_request c GET_ACCOUNT_INFO None])%list
  /\ sent (snd (getPositions sdk symbol w))
     = (sent w ++ [get_request c GET_POSITIONS filtered])%list
  /\ sent (snd (getOpenOrders sdk symbol w))
     = (sent w ++ [get_request c GET_OPEN_ORDERS filtered])%list
  /\ (forall url config,
        req_method (get_request c url config) = GET
        /\ req_url (get_request c url config) = url
        /\ req_data (get_request c url config) = None)
  /\ req_params (get_request c GET_ACCOUNT_INFO None) = JUndefined
  /\ (forall url,
        req_params (get_request c url filtered)
        = if truthy symbol then JObj [("symbol", symbol)] else JObj []).
Proof.
  cbv zeta. split; [| split; [| split; [| split; [| split]]]].
  - unfold getAccountInfo. rewrite get_then_quiet; [reflexivity |].
    intro response. quiet_walk.
  - unfold getPositions. cbv zeta. rewrite get_then_quiet; [reflexivity |].
    intro response. quiet_walk.
  - unfold getOpenOrders. cbv zeta. rewrite get_then_quiet; [reflexivity |].
    intro response. quiet_walk.
  - intros url config. repeat split.
  - reflexivity.
  - intro url. unfold get_request, request_interceptor, symbol_filter.
    cbn [req_params cfg_params]. destruct (truthy symbol); reflexivity.
Qed.

(** X3. When the transport rejects a request with an error, [get], [post]
    and [postForm] throw a new Error and return nothing; its message is
    the message of the server's response body when that is truthy,
    otherwise the message of the error itself when that is truthy,
    otherwise the text Request failed.  The request has been sent once. *)
Theorem rejected_requests_throw_the_best_message (c : HttpClient) (url : string)
    (data : JsValue) (fields : list (string * JsValue))
    (config : option AxiosRequestConfig) (w : World) (error : JsValue) :
  nullish error = false ->
  let thrown := Thrown (new_Error (String_ (errorMessage error))) in
  let server_message :=
    get_prop_opt (get_prop_opt (get_prop_opt error "response") "data") "message" in
  (server w (get_request c url config) = Rejected error ->
   get c url config w = (thrown, recorded w (get_request c url config)))
  /\ (server w (post_request c url data config) = Rejected error ->
      post c url data config w = (thrown, recorded w (post_request c url data config)))
  /\ (server w (form_request_with c url fields config) = Rejected error ->
      postForm c url fields config w
      = (thrown, recorded w (form_request_with c url fields config)))
  /\ (truthy server_message = true -> errorMessage error = server_message)
  /\ (truthy server_message = false ->
      truthy (get_prop_opt error "message") = true ->
      errorMessage error = get_prop_opt error "message")
  /\ (truthy server_message = false ->
      truthy (get_prop_opt error "message") = false ->
      errorMessage error = JStr "Request failed").
Proof.
  intros N thrown server_message. repeat split.
  - intro H. rewrite get_run, H. apply response_interceptor_rejected_message, N.
  - intro H. unfold post. rewrite instance_request_run. fold (post_request c url data config).
    rewrite H. apply response_interceptor_rejected_message, N.
  - intro H. rewrite postForm_run_with, H.
    apply response_interceptor_rejected_message, N.
  - intro T. unfold errorMessage. fold server_message. unfold js_or.
    rewrite T. rewrite T. reflexivity.
  - intros F T. unfold errorMessage. fold server_message. unfold js_or.
    rewrite F. rewrite T. reflexivity.
  - intros F1 F2. unfold errorMessage. fold server_message. unfold js_or.
    rewrite F1. rewrite F2. reflexivity.
Qed.

(** X4. [getOpenOrders] returns the same flat list for a code-200
    response whose data is the list and for one whose data is an envelope
    around the list; and both list queries return success with the empty
    list when a code-200 response carries neither (no data at all, or an
    envelope without a truthy data of its own). *)
Theorem list_queries_normalize_or_default (sdk : DipCoinPerpSDK) (symbol : JsValue)
    (w : World) (response : JsValue) :
  let filtered :=
    Some {| cfg_params := JObj (symbol_filter symbol); cfg_headers := [] |} in
  let data := get_prop_opt response "data" in
  strict_eq_num (get_prop_opt response "code") (number_of_Z 200) = true ->
  (server w (get_request (httpClient sdk) GET_OPEN_ORDERS filtered) = Fulfilled response ->
   (forall items,
       data = JArr items ->
       fst (getOpenOrders sdk symbol w) = Returned (success (JArr items)))
   /\ (forall envelope items,
         data = JObj envelope -> lookup "data" envelope = JArr items ->
         fst (getOpenOrders sdk symbol w) = Returned (success (JArr items)))
   /\ (isArray data = false -> truthy (get_prop_opt data "data") = false ->
       fst (getOpenOrders sdk symbol w) = Returned (success (JArr []))))
  /\ (server w (get_request (httpClient sdk) GET_POSITIONS filtered) = Fulfilled response ->
      isArray data = false -> truthy (get_prop_opt data "data") = false ->
      fst (getPositions sdk symbol w) = Returned (success (JArr []))).
Proof.
  intros filtered data C. split.
  - intro S.
    rewrite (getOpenOrders_fulfilled sdk symbol response w S (code_present _ _ C)).
    cbn [fst]. rewrite C. fold data. unfold normalize_list, js_or. repeat split.
    + intros items ->. reflexivity.
    + intros envelope items -> E. unfold get_prop_opt. cbn [isArray get_prop].
      rewrite E. reflexivity.
    + intros A T. rewrite A, T. reflexivity.
  - intros S A T.
    rewrite (getPositions_fulfilled sdk symbol response w S (code_present _ _ C)).
    cbn [fst]. rewrite C. fold data. unfold normalize_list, js_or. rewrite A, T.
    reflexivity.
Qed.

(** How a query turns an answer that is not a success into a failure
    result: the message of a response whose code is not 200 (the number),
    or [fallback] when that message is falsy; the message of the thrown
    Error when the transport rejects; and a failure as well when the
    response has no body to read. *)
Definition fails_with (op : M SDKResponse) (request : Request) (fallback : string)
    (w : World) : Prop :=
  (forall response,
      server w request = Fulfilled response -> nullish response = false ->
      strict_eq_num (get_prop_opt response "code") (number_of_Z 200) = false ->
      fst (op w)
      = Returned (failure (js_or (get_prop_opt response "message") (JStr fallback))))
  /\ (forall error,
        server w request = Rejected error -> nullish error = false ->
        fst (op w)
        = Returned (failure (JStr (formatError
                      (new_Error (String_ (errorMessage error)))))))
  /\ (forall response,
        server w request = Fulfilled response -> nullish response = true ->
        exists e, fst (op w) = Returned (failure (JStr (formatError e)))).

(** X5. Each of the three queries maps every answer other than a code-200
    response to a failure result: a response with another code gives the
    server's message, or the query's own generic message when the server
    gave none; a rejected request gives the message of the Error thrown by
    the transport; a response without a body gives a failure too. *)
Theorem queries_map_failures (sdk : DipCoinPerpSDK) (symbol : JsValue) (w : World) :
  let c := httpClient sdk in
  let filtered :=
    Some {| cfg_params := JObj (symbol_filter symbol); cfg_headers := [] |} in
  fails_with (getAccountInfo sdk) (get_request c GET_ACCOUNT_INFO None)
             "Failed to get account info" w
  /\ fails_with (getPositions sdk symbol) (get_request c GET_POSITIONS filtered)
                "Failed to get positions" w
  /\ fails_with (getOpenOrders sdk symbol) (get_request c GET_OPEN_ORDERS filtered)
                "Failed to get open orders" w.
Proof.
  cbv zeta. unfold fails_with. repeat split.
  - intros response S N C.
    rewrite (getAccountInfo_fulfilled sdk response w S N). cbn [fst]. rewrite C. reflexivity.
  - intros error S N. unfold getAccountInfo. apply query_rejected; assumption.
  - intros response S N. unfold getAccountInfo. rewrite (query_fulfilled _ _ _ _ _ _ S).
    destruct (get_prop_nullish response "code" N) as [e He]. exists e.
    unfold try_catch, bind, lift. rewrite He. reflexivity.
  - intros response S N C.
    rewrite (getPositions_fulfilled sdk symbol response w S N). cbn [fst]. rewrite C.
    reflexivity.
  - intros error S N. unfold getPositions. cbv zeta. apply query_rejected; assumption.
  - intros response S N. unfold getPositions. cbv zeta.
    rewrite (query_fulfilled _ _ _ _ _ _ S).
    destruct (get_prop_nullish response "code" N) as [e He]. exists e.
    unfold try_catch, bind, lift. rewrite He. reflexivity.
  - intros response S N C.
    rewrite (getOpenOrders_fulfilled sdk symbol response w S N). cbn [fst]. rewrite C.
    reflexivity.
  - intros error S N. unfold getOpenOrders. cbv zeta. apply query_rejected; assumption.
  - intros response S N. unfold getOpenOrders. cbv zeta.
    rewrite (query_fulfilled _ _ _ _ _ _ S).
    destruct (get_prop_nullish response "code" N) as [e He]. exists e.
    unfold try_catch, bind, lift. rewrite He. reflexivity.
Qed.

(** X6. The request parameters of an order are the eleven base fields,
    followed by the six take-profit fields exactly when the signature of
    the TP leg is a non-empty string, followed by the five stop-loss fields
    exactly when the signature of the SL leg is one.  A leg has a
    signature exactly when it was built.  triggerWay, always the text
    oracle, is one of the TP fields: an order with a stop-loss only carries
    none. *)
Theorem order_request_fields (sdk : DipCoinPerpSDK) (params : JsValue) (w w1 : World)
    (p : Params.t) (l : Legs) (sg : Signatures) (rp : list (string * JsValue)) :
  placeOrder_build sdk params w = (Returned (p, l), w1) ->
  fst (signLegs sdk l w1) = Returned sg ->
  fst (buildRequestParams sdk p l sg w1) = Returned rp ->
  Object_keys rp
  = (["symbol"; "side"; "orderType"; "quantity"; "price"; "leverage"; "salt"; "creator";
      "clientId"; "reduceOnly"; "orderSignature"]
     ++ (if present (tpOrderSignature sg)
         then ["tpOrderSignature"; "tpTriggerPrice"; "tpOrderType"; "tpOrderPrice";
               "tpSalt"; "triggerWay"]
         else [])
     ++ (if present (slOrderSignature sg)
         then ["slOrderSignature"; "slTriggerPrice"; "slOrderType"; "slOrderPrice"; "slSalt"]
         else []))%list
  /\ (present (tpOrderSignature sg) = true -> lookup "triggerWay" rp = JStr "oracle")
  /\ (present (tpOrderSignature sg) = false -> lookup "triggerWay" rp = JUndefined)
  /\ (tpOrderSignature sg <> None <-> tpOrder l <> None)
  /\ (slOrderSignature sg <> None <-> slOrder l <> None).
Proof.
  intros B S R.
  destruct (guards_by_signature _ _ _ _ _ _ _ B S) as [Gt Gs].
  destruct (signLegs_inv _ _ _ _ S) as (_ & St & Ss).
  destruct (buildRequestParams_inv _ _ _ _ _ _ R)
    as (quantity & price & leverage & reduceOnly & rp1 & _ & _ & _ & _ & Htp & Hsl).
  rewrite Gt in Htp. rewrite Gs in Hsl.
  assert (K : Object_keys rp
              = (["symbol"; "side"; "orderType"; "quantity"; "price"; "leverage"; "salt";
                  "creator"; "clientId"; "reduceOnly"; "orderSignature"]
                 ++ (if present (tpOrderSignature sg)
                     then ["tpOrderSignature"; "tpTriggerPrice"; "tpOrderType";
                           "tpOrderPrice"; "tpSalt"; "triggerWay"]
                     else [])
                 ++ (if present (slOrderSignature sg)
                     then ["slOrderSignature"; "slTriggerPrice"; "slOrderType";
                           "slOrderPrice"; "slSalt"]
                     else []))%list
              /\ lookup "triggerWay" rp
                 = if present (tpOrderSignature sg) then JStr "oracle" else JUndefined).
  { destruct (present (tpOrderSignature sg)), (present (slOrderSignature sg)).
    - destruct Htp as (a & b & _ & _ & ->). destruct Hsl as (c & d & _ & _ & ->).
      split; reflexivity.
    - destruct Htp as (a & b & _ & _ & ->). subst rp. split; reflexivity.
    - subst rp1. destruct Hsl as (c & d & _ & _ & ->). split; reflexivity.
    - subst rp1. subst rp. split; reflexivity. }
  destruct K as [K T]. split; [exact K |]. split; [| split; [| split]].
  - intro E. rewrite T, E. reflexivity.
  - intro E. rewrite T, E. reflexivity.
  - destruct (tpOrder l) as [tp |].
    + destruct St as (s & -> & _). split; intros _; discriminate.
    + rewrite St. split; intro N; contradiction N; reflexivity.
  - destruct (slOrder l) as [sl |].
    + destruct Ss as (s & -> & _). split; intros _; discriminate.
    + rewrite Ss. split; intro N; contradiction N; reflexivity.
Qed.

(** X7. What an order request says is what was signed: its salt, creator
    and orderSignature are the salt and creator of the main order and the
    signature of that order's message under the SDK's key; and when the
    take-profit (resp. stop-loss) fields are sent, tpSalt and
    tpOrderSignature (resp. slSalt and slOrderSignature) are the salt of the
    TP (resp. SL) leg and the signature of that leg's message. *)
Theorem order_request_matches_signed_legs (sdk : DipCoinPerpSDK) (params : JsValue)
    (w w1 : World) (p : Params.t) (l : Legs) (sg : Signatures)
    (rp : list (string * JsValue)) :
  placeOrder_build sdk params w = (Returned (p, l), w1) ->
  fst (signLegs sdk l w1) = Returned sg ->
  fst (buildRequestParams sdk p l sg w1) = Returned rp ->
  lookup "salt" rp = JStr (BigNumber_toString (Order.salt (order l)))
  /\ lookup "creator" rp = JStr (Order.creator (order l))
  /\ lookup "orderSignature" rp = JStr (orderSignature sg)
  /\ signed sdk (order l) (orderSignature sg)
  /\ (present (tpOrderSignature sg) = true ->
      exists tp s,
        tpOrder l = Some tp /\ signed sdk tp s
        /\ lookup "tpOrderSignature" rp = JStr s
        /\ lookup "tpSalt" rp = JStr (BigNumber_toString (Order.salt tp)))
  /\ (present (slOrderSignature sg) = true ->
      exists sl s,
        slOrder l = Some sl /\ signed sdk sl s
        /\ lookup "slOrderSignature" rp = JStr s
        /\ lookup "slSalt" rp = JStr (BigNumber_toString (Order.salt sl))).
Proof.
  intros B S R.
  destruct (guards_by_signature _ _ _ _ _ _ _ B S) as [Gt Gs].
  destruct (legs_by_trigger _ _ _ _ _ _ B) as (Es & Lt & Ls).
  destruct (signLegs_inv _ _ _ _ S) as (Sm & St & Ss).
  assert (Cr : Order.creator (order l) = walletAddress sdk).
  { apply placeOrder_build_inv in B. destruct B as (_ & _ & B).
    apply buildLegs_inv in B. destruct B as (w2 & Hm & _).
    apply buildMainOrder_fixed in Hm. apply Hm. }
  destruct (buildRequestParams_inv _ _ _ _ _ _ R)
    as (quantity & price & leverage & reduceOnly & rp1 & _ & _ & _ & _ & Htp & Hsl).
  rewrite Gt in Htp. rewrite Gs in Hsl. rewrite Cr, <- Es.
  assert (Base : forall k,
             In k ["salt"; "creator"; "orderSignature"; "tpOrderSignature"; "tpSalt"] ->
             lookup k rp = lookup k rp1).
  { intros k Hk. destruct (present (slOrderSignature sg)); [| subst rp; reflexivity].
    destruct Hsl as (c & d & _ & _ & ->). unfold sl_requestParams.
    cbn [In] in Hk.
    destruct Hk as [<- | [<- | [<- | [<- | [<- | []]]]]];
      rewrite !lookup_assign_other by reflexivity; reflexivity. }
  assert (Main : lookup "salt" rp1 = JStr (BigNumber_toString (saltBN l))
                 /\ lookup "creator" rp1 = JStr (walletAddress sdk)
                 /\ lookup "orderSignature" rp1 = JStr (orderSignature sg)).
  { destruct (present (tpOrderSignature sg)).
    - destruct Htp as (a & b & _ & _ & ->). unfold tp_requestParams.
      rewrite !lookup_assign_other by reflexivity. repeat split.
    - subst rp1. repeat split. }
  destruct Main as (M1 & M2 & M3).
  split; [rewrite Base by (cbn; auto); exact M1 |].
  split; [rewrite Base by (cbn; auto); exact M2 |].
  split; [rewrite Base by (cbn; auto 6); exact M3 |].
  split; [exact Sm |]. split.
  - intro On. rewrite On in Htp. destruct Htp as (a & b & _ & _ & E1).
    destruct (tpOrderSignature sg) as [s |] eqn:Sig; [| discriminate On].
    destruct (tpOrder l) as [tp |] eqn:Ftp; [| discriminate St].
    destruct St as (s' & Es' & Sg'). injection Es' as Es'. subst s'.
    exists tp, s. split; [reflexivity |]. split; [exact Sg' |].
    rewrite !Base by (cbn; auto 6). rewrite E1.
    assert (Salt : tpSalt l = Some (Order.salt tp)).
    { destruct (truthy (Params.tpTriggerPrice p)).
      - destruct Lt as (tp' & F & Sa). injection F as F. subst tp'. exact Sa.
      - destruct Lt as [F _]. discriminate F. }
    unfold tp_requestParams. rewrite Salt, Sig. split; reflexivity.
  - intro On. rewrite On in Hsl. destruct Hsl as (c & d & _ & _ & E1).
    destruct (slOrderSignature sg) as [s |] eqn:Sig; [| discriminate On].
    destruct (slOrder l) as [sl |] eqn:Fsl; [| discriminate Ss].
    destruct Ss as (s' & Es' & Sg'). injection Es' as Es'. subst s'.
    exists sl, s. split; [reflexivity |]. split; [exact Sg' |].
    rewrite E1.
    assert (Salt : slSalt l = Some (Order.salt sl)).
    { destruct (truthy (Params.slTriggerPrice p)).
      - destruct Ls as (sl' & F & Sa). injection F as F. subst sl'. exact Sa.
      - destruct Ls as [F _]. discriminate F. }
    unfold sl_requestParams. rewrite Salt, Sig. split.
    + rewrite !lookup_assign_other by reflexivity. apply lookup_assign_same.
    + apply lookup_assign_same.
Qed.

(** X8. [placeOrder] sends a request only when the intent passed
    validation, every leg was built, every leg was signed and the request
    parameters were assembled; the request it then sends is the form of
    exactly those parameters, posted to the place-order endpoint.  If any
    of the steps throws, nothing is sent. *)
Theorem placeOrder_sends_only_signed_orders (sdk : DipCoinPerpSDK) (params : JsValue)
    (w : World) :
  (forall p l w1 sg rp,
      placeOrder_build sdk params w = (Returned (p, l), w1) ->
      fst (signLegs sdk l w1) = Returned sg ->
      fst (buildRequestParams sdk p l sg w1) = Returned rp ->
      sent (snd (placeOrder sdk params w))
      = (sent w ++ [form_request (httpClient sdk) PLACE_ORDER rp])%list)
  /\ (sent (snd (placeOrder sdk params w)) <> sent w ->
      exists p l w1 sg rp,
        placeOrder_build sdk params w = (Returned (p, l), w1)
        /\ fst (signLegs sdk l w1) = Returned sg
        /\ fst (buildRequestParams sdk p l sg w1) = Returned rp).
Proof.
  pose proof (placeOrder_build_world sdk params w) as (_ & K & _).
  rewrite placeOrder_cases. split.
  - intros p l w1 sg rp B S R. rewrite B in *. rewrite S, R. cbn [snd] in K.
    rewrite submit_sent. cbn [sent recorded]. rewrite K. reflexivity.
  - intro N. destruct (placeOrder_build sdk params w) as [[[p l] | e] w1];
      cbn [snd] in *; [| contradiction].
    destruct (fst (signLegs sdk l w1)) as [sg | e] eqn:S; cbn [snd] in N; [| contradiction].
    destruct (fst (buildRequestParams sdk p l sg w1)) as [rp | e] eqn:R;
      cbn [snd] in N; [| contradiction].
    exists p, l, w1, sg, rp. repeat split; assumption.
Qed.

(** How an order operation reads the answer to [request]: a response with
    code 200 (the number) is returned whole as the data of a success;
    another code gives a failure with the server's message, or [fallback]
    when there is none; a rejected request gives the message of the Error
    the transport throws; a response without a body gives a failure. *)
Definition answers_with (op : M SDKResponse) (request : Request) (fallback : string)
    (w : World) : Prop :=
  (forall response,
      server w request = Fulfilled response -> nullish response = false ->
      fst (op w)
      = Returned (if strict_eq_num (get_prop_opt response "code") (number_of_Z 200)
                  then success response
                  else failure (js_or (get_prop_opt response "message") (JStr fallback))))
  /\ (forall error,
        server w request = Rejected error -> nullish error = false ->
        fst (op w)
        = Returned (failure (JStr (formatError
                      (new_Error (String_ (errorMessage error)))))))
  /\ (forall response,
        server w request = Fulfilled response -> nullish response = true ->
        exists e, fst (op w) = Returned (failure (JStr (formatError e)))).

(** X9. Once an order or a cancellation is on its way, the result is read
    off the server's answer alone: code 200 gives success with the whole
    response as data (not its data field), any other code a failure with
    the server's message or the operation's generic one, a rejected request
    a failure with the transport's message. *)
Theorem order_operations_read_the_answer (sdk : DipCoinPerpSDK) (w : World) :
  (forall params p l w1 sg rp,
      placeOrder_build sdk params w = (Returned (p, l), w1) ->
      fst (signLegs sdk l w1) = Returned sg ->
      fst (buildRequestParams sdk p l sg w1) = Returned rp ->
      answers_with (placeOrder sdk params)
        (form_request (httpClient sdk) PLACE_ORDER rp) "Failed to place order" w)
  /\ (forall props h rest signature,
        lookup "orderHashes" props = JArr (h :: rest) ->
        signMessage (keypair sdk) (cancel_bytes props) = Returned signature ->
        answers_with (cancelOrder sdk (JObj props))
          (form_request (httpClient sdk) CANCEL_ORDER
             (cancel_requestParams sdk props signature))
          "Failed to cancel order" w).
Proof.
  split.
  - intros params p l w1 sg rp B S R.
    pose proof (placeOrder_build_world sdk params w) as (K & _ & _).
    rewrite B in K. cbn [snd] in K.
    assert (E : placeOrder sdk params w
                = try_catch
                    (response <- postForm (httpClient sdk) PLACE_ORDER rp None ;;
                     order_result response "Failed to place order")
                    catch_all w1).
    { rewrite placeOrder_cases, B, S, R. reflexivity. }
    unfold answers_with. rewrite E, <- K. repeat split.
    + intros response Hs N. apply submit_fulfilled; assumption.
    + intros error Hs N. apply submit_rejected; assumption.
    + intros response Hs N. eapply submit_empty_response; eassumption.
  - intros props h rest signature H Hs.
    assert (E : cancelOrder sdk (JObj props) w
                = try_catch
                    (response <- postForm (httpClient sdk) CANCEL_ORDER
                                   (cancel_requestParams sdk props signature) None ;;
                     order_result response "Failed to cancel order")
                    catch_all w).
    { rewrite cancelOrder_object. cbv zeta. rewrite H, nonempty_length, Hs. reflexivity. }
    unfold answers_with. rewrite E. repeat split.
    + intros response Hr N. apply submit_fulfilled; assumption.
    + intros error Hr N. apply submit_rejected; assumption.
    + intros response Hr N. eapply submit_empty_response; eassumption.
Qed.

(** X10. Every leg of an order has the same fixed shape: postOnly false,
    orderbookOnly true, ioc false, expiration zero, and the wallet address
    of the SDK as creator.  The market of the main order is the market of
    the intent, or its symbol when the market is falsy; a take-profit or
    stop-loss leg has the market, quantity and leverage of the main
    order. *)
Theorem legs_share_the_main_order (sdk : DipCoinPerpSDK) (params : JsValue)
    (w w1 : World) (p : Params.t) (l : Legs) :
  placeOrder_build sdk params w = (Returned (p, l), w1) ->
  let fixed o :=
    Order.postOnly o = false /\ Order.orderbookOnly o = true /\ Order.ioc o = false
    /\ Order.expiration o = zeroBN /\ Order.creator o = walletAddress sdk in
  let follows o :=
    Order.market o = Order.market (order l)
    /\ Order.quantity o = Order.quantity (order l)
    /\ Order.leverage o = Order.leverage (order l) in
  fixed (order l)
  /\ Order.market (order l)
     = js_or (get_prop_opt params "market") (get_prop_opt params "symbol")
  /\ (forall tp, tpOrder l = Some tp -> fixed tp /\ follows tp)
  /\ (forall sl, slOrder l = Some sl -> fixed sl /\ follows sl).
Proof.
  intros B fixed follows.
  apply placeOrder_build_inv in B. destruct B as (_ & D & B).
  apply destructure_inv in D. cbv zeta in D.
  destruct D as (Esy & _ & _ & _ & _ & _ & Emk & _).
  apply buildLegs_inv in B. destruct B as (w2 & Hm & Ht & Hs & _).
  destruct (buildMainOrder_fixed _ _ _ _ _ Hm) as (M1 & M2 & M3 & M4 & M5 & M6).
  split; [repeat split; assumption |].
  split; [rewrite M1, Emk, Esy; reflexivity |]. split.
  - intros tp F.
    destruct (buildTpOrder_fixed _ _ _ _ _ _ tp Ht F)
      as (T1 & T2 & T3 & T4 & T5 & T6 & T7 & T8).
    repeat split; try assumption. rewrite T8. exact M6.
  - intros sl F.
    destruct (buildSlOrder_fixed _ _ _ _ _ _ sl Hs F)
      as (T1 & T2 & T3 & T4 & T5 & T6 & T7 & T8).
    repeat split; try assumption. rewrite T8. exact M6.
Qed.

(** X11. The price of a stop-loss or take-profit leg follows one rule:
    when the leg's order type is LIMIT it is the fixed-point conversion of
    the leg's order price, or of its trigger price when the order price is
    falsy or absent; for any other order type (MARKET, the default
    included) it is zero, whatever order price the intent gives. *)
Theorem leg_price_rule (sdk : DipCoinPerpSDK) (params : JsValue) (w w1 : World)
    (p : Params.t) (l : Legs) :
  placeOrder_build sdk params w = (Returned (p, l), w1) ->
  let field := get_prop_opt params in
  (forall sl, slOrder l = Some sl ->
      if strict_eq_str (field "slOrderType") OrderType.LIMIT
      then formatNormalToWeiBN (js_or (field "slOrderPrice") (field "slTriggerPrice"))
           = Returned (Order.price sl)
      else Order.price sl = zeroBN)
  /\ (forall tp, tpOrder l = Some tp ->
        if strict_eq_str (field "tpOrderType") OrderType.LIMIT
        then formatNormalToWeiBN (js_or (field "tpOrderPrice") (field "tpTriggerPrice"))
             = Returned (Order.price tp)
        else Order.price tp = zeroBN).
Proof.
  intros B field.
  apply placeOrder_build_inv in B. destruct B as (_ & D & B).
  apply destructure_inv in D. cbv zeta in D.
  destruct D as (_ & _ & _ & _ & _ & _ & _ & _ & _ & Et & Ety & Etp & Es & Esy & Esp).
  apply buildLegs_inv in B. destruct B as (w2 & _ & Ht & Hs & _).
  apply buildTpOrder_inv in Ht. apply buildSlOrder_inv in Hs. split.
  - intros sl F. destruct (truthy (Params.slTriggerPrice p)).
    + destruct Hs as (_ & sl' & F' & _ & _ & _ & _ & Pr). cbn [fst] in F'.
      rewrite F in F'. injection F' as F'. subst sl'.
      rewrite Esy, Esp, Es, strict_eq_str_with_default, js_or_with_default in Pr. exact Pr.
    + destruct Hs as [E _]. inversion E as [[E1 E2]]. rewrite F in E1. discriminate E1.
  - intros tp F. destruct (truthy (Params.tpTriggerPrice p)).
    + destruct Ht as (_ & tp' & F' & _ & _ & _ & _ & Pr). cbn [fst] in F'.
      rewrite F in F'. injection F' as F'. subst tp'.
      rewrite Ety, Etp, Et, strict_eq_str_with_default, js_or_with_default in Pr. exact Pr.
    + destruct Ht as [E _]. inversion E as [[E1 E2]]. rewrite F in E1. discriminate E1.
Qed.

(** X12. The price of an intent is converted whenever it is truthy, before
    the order type is looked at: if that conversion throws, [placeOrder]
    returns a failure with the thrown error and touches neither the clock
    nor the network, also for a MARKET intent, whose price is not used. *)
Theorem truthy_price_must_convert (sdk : DipCoinPerpSDK) (props : list (string * JsValue))
    (w : World) (e : JsValue) :
  missing_required props = false ->
  limit_without_price props = false ->
  truthy (lookup "price" props) = true ->
  formatNormalToWeiBN (lookup "price" props) = Thrown e ->
  placeOrder sdk (JObj props) w = (Returned (failure (JStr (formatError e))), w).
Proof.
  intros V1 V2 T C.
  unfold placeOrder, try_catch, bind at 1.
  rewrite placeOrder_validate_object, V1, V2.
  unfold bind at 1, lift at 1. cbn [destructure].
  unfold buildLegs, buildMainOrder, bind, lift. cbn [Params.price get_prop_opt get_prop].
  rewrite T, C. reflexivity.
Qed.

(** X13. In every success result of [getAccountInfo] the data is an object
    with exactly the five account fields, read off the data of the
    server's response: a field the server sent with a truthy value is that
    value, and a field it left out, or sent as an empty string or as 0 (or
    any other falsy value), is the string 0.  So each of the five is
    truthy. *)
Theorem account_info_fields_are_never_empty (sdk : DipCoinPerpSDK) (w w' : World)
    (r : SDKResponse) :
  getAccountInfo sdk w = (Returned r, w') ->
  status r = true ->
  exists response info,
    server w (get_request (httpClient sdk) GET_ACCOUNT_INFO None) = Fulfilled response
    /\ data r = Some (JObj info)
    /\ Object_keys info
       = ["walletBalance"; "totalUnrealizedProfit"; "accountValue"; "freeCollateral";
          "totalMargin"]
    /\ forall k, In k (Object_keys info) ->
         let served := get_prop_opt (get_prop_opt response "data") k in
         truthy (lookup k info) = true
         /\ (truthy served = true -> lookup k info = served)
         /\ (truthy served = false -> lookup k info = JStr "0")
         /\ (served = JUndefined \/ served = JStr "" \/ served = JNum (number_of_Z 0) ->
             lookup k info = JStr "0").
Proof.
  intros H St.
  destruct (getAccountInfo_no_response sdk w w' r H St) as (response & Hs & Hn).
  rewrite (getAccountInfo_fulfilled sdk response w Hs Hn) in H.
  inversion H as [[Hr Hw]]. clear H.
  destruct (strict_eq_num (get_prop_opt response "code") (number_of_Z 200)
            && truthy (get_prop_opt response "data")); [| subst r; discriminate St].
  subst r. exists response. eexists. split; [exact Hs |].
  split; [reflexivity |]. split; [reflexivity |].
  assert (F : forall served,
             truthy (js_or served (JStr "0")) = true
             /\ (truthy served = true -> js_or served (JStr "0") = served)
             /\ (truthy served = false -> js_or served (JStr "0") = JStr "0")
             /\ (served = JUndefined \/ served = JStr "" \/ served = JNum (number_of_Z 0) ->
                 js_or served (JStr "0") = JStr "0")).
  { intro served. split; [apply truthy_js_or_zero |]. unfold js_or.
    split; [intros ->; reflexivity |]. split; [intros ->; reflexivity |].
    intros [-> | [-> | ->]]; reflexivity. }
  intros k Hk. cbn [Object_keys map fst In] in Hk. cbv zeta.
  destruct Hk as [<- | [<- | [<- | [<- | [<- | []]]]]];
    cbn [lookup String.eqb Ascii.eqb Bool.eqb]; apply F.
Qed.

(** No two headers share a name, whatever the case. *)
Definition distinct_names (h : list (string * string)) : Prop :=
  NoDup (map (fun kv => toLowerCase (fst kv)) h).

Lemma names_set_header (k v n : string) (h : list (string * string)) :
  In n (map (fun kv => toLowerCase (fst kv)) (set_header k v h)) ->
  In n (map (fun kv => toLowerCase (fst kv)) h) \/ n = toLowerCase k.
Proof.
  induction h as [| [a x] h IH]; cbn.
  - intros [<- | []]. right. reflexivity.
  - destruct (header_eqb k a); cbn.
    + intros [E | I]; left; [left | right]; assumption.
    + intros [E | I]; [left; left; exact E |].
      destruct (IH I) as [J | J]; [left; right; exact J | right; exact J].
Qed.

Lemma distinct_set_header (k v : string) (h : list (string * string)) :
  distinct_names h -> distinct_names (set_header k v h).
Proof.
  unfold distinct_names. induction h as [| [a x] h IH]; cbn; intro D.
  - constructor; [intros [] | constructor].
  - inversion D as [| n ns Nin D']. subst. destruct (header_eqb k a) eqn:E; cbn.
    + constructor; assumption.
    + constructor; [| apply IH; exact D'].
      intro I. destruct (names_set_header _ _ _ _ I) as [J | J]; [contradiction |].
      unfold header_eqb in E. rewrite J, String.eqb_refl in E. discriminate E.
Qed.

Lemma distinct_spread_headers (base extra : list (string * string)) :
  distinct_names base -> distinct_names (spread_headers base extra).
Proof.
  unfold spread_headers. revert base.
  induction extra as [| [k v] extra IH]; intros base D; cbn; [exact D |].
  apply IH, distinct_set_header, D.
Qed.

Lemma distinct_request_interceptor (c : HttpClient) (config : Request) :
  distinct_names (req_headers config) ->
  distinct_names (req_headers (request_interceptor c config)).
Proof.
  intro D. unfold request_interceptor. cbn [req_headers].
  destruct (authToken c) as [t |], (http_walletAddress c) as [a |];
    repeat match goal with |- context [if ?b then _ else _] => destruct b end;
    repeat apply distinct_set_header; exact D.
Qed.

Lemma distinct_content_type (v : string) : distinct_names [("Content-Type", v)].
Proof. constructor; [intros [] | constructor]. Qed.

(** What the interceptor of [c] guarantees of a request: the wallet
    address and the bearer token of the client, when it has them, under
    their header names in whatever case they are asked for, and one header
    per name. *)
Definition identified (c : HttpClient) (r : Request) : Prop :=
  (forall address k,
      http_walletAddress c = Some address -> address <> "" ->
      header_eqb k "X-Wallet-Address" = true ->
      get_header k (req_headers r) = Some address)
  /\ (forall token k,
        authToken c = Some token -> token <> "" ->
        header_eqb k "Authorization" = true ->
        get_header k (req_headers r) = Some ("Bearer " ++ token))
  /\ distinct_names (req_headers r).

Lemma identified_request_interceptor (c : HttpClient) (config : Request) :
  distinct_names (req_headers config) -> identified c (request_interceptor c config).
Proof.
  intro D. split; [| split].
  - intros address k H N E. rewrite (get_header_eqb _ _ _ E).
    apply interceptor_wallet_header; assumption.
  - intros token k H N E. rewrite (get_header_eqb _ _ _ E).
    apply interceptor_auth_header; assumption.
  - apply distinct_request_interceptor, D.
Qed.

(** X14. The request interceptor has the last word on the two identity
    headers.  Whatever data and headers a caller passes to [get], [post]
    or [postForm], and in whatever case the caller wrote the header names,
    the one request sent has one header per name, carries the client's
    wallet address as X-Wallet-Address when one is set and not empty, and
    Bearer followed by the token as Authorization when a token is set and
    not empty.  Every header of another name, and these two when the
    client has nothing to put there, leaves the interceptor as it came.
    Setting the token keeps the wallet address and the base URL. *)
Theorem interceptor_sets_identity_headers (c : HttpClient) (url : string)
    (data : JsValue) (fields : list (string * JsValue))
    (config : option AxiosRequestConfig) :
  (forall w,
      sent (snd (get c url config w)) = (sent w ++ [get_request c url config])%list
      /\ sent (snd (post c url data config w))
         = (sent w ++ [post_request c url data config])%list
      /\ sent (snd (postForm c url fields config w))
         = (sent w ++ [form_request_with c url fields config])%list)
  /\ identified c (get_request c url config)
  /\ identified c (post_request c url data config)
  /\ identified c (form_request_with c url fields config)
  /\ (forall r : Request,
        (present (http_walletAddress c) = false ->
         get_header "X-Wallet-Address" (req_headers (request_interceptor c r))
         = get_header "X-Wallet-Address" (req_headers r))
        /\ (present (authToken c) = false ->
            get_header "Authorization" (req_headers (request_interceptor c r))
            = get_header "Authorization" (req_headers r))
        /\ (forall k,
              header_eqb k "X-Wallet-Address" = false ->
              header_eqb k "Authorization" = false ->
              get_header k (req_headers (request_interceptor c r))
              = get_header k (req_headers r)))
  /\ (forall token,
        http_walletAddress (setAuthToken c token) = http_walletAddress c
        /\ baseURL (setAuthToken c token) = baseURL c
        /\ authToken (setAuthToken c token) = Some token).
Proof.
  split; [| split; [| split; [| split; [| split]]]].
  - intro w. split; [| split].
    + rewrite get_run, quiet_response_interceptor. reflexivity.
    + unfold post. rewrite instance_request_run, quiet_response_interceptor. reflexivity.
    + rewrite postForm_run_with, quiet_response_interceptor. reflexivity.
  - apply identified_request_interceptor. cbn [req_headers].
    apply distinct_spread_headers, distinct_content_type.
  - apply identified_request_interceptor. cbn [req_headers].
    apply distinct_spread_headers, distinct_content_type.
  - apply identified_request_interceptor. cbn [req_headers].
    apply distinct_spread_headers, distinct_content_type.
  - intro r. split; [| split].
    + intro H. unfold request_interceptor. cbn [req_headers].
      destruct (http_walletAddress c) as [a |]; [rewrite H |];
        (destruct (authToken c) as [t |]; [destruct (present (Some t)) |]);
        rewrite ?get_header_set_other by reflexivity; reflexivity.
    + intro H. unfold request_interceptor. cbn [req_headers].
      destruct (authToken c) as [t |]; [rewrite H |];
        (destruct (http_walletAddress c) as [a |]; [destruct (present (Some a)) |]);
        rewrite ?get_header_set_other by reflexivity; reflexivity.
    + intros k N1 N2. apply interceptor_other_header; assumption.
  - intro token. repeat split.
Qed.

End Coverage.

(** X15. The base URL resolved by [initSDKOptions] is the caller's
    [apiBaseUrl] when that is a non-empty string, and the default of the
    chosen network otherwise, an empty override included; it is never
    empty, and the network and the custom RPC endpoint are passed on as
    given.  Both copies of the configuration module behave so, each over
    its own table. *)
Theorem initSDKOptions_resolves_the_base_url (options : PartialOptions) :
  let resolved := Config.initSDKOptions options in
  let resolved2 := Config2.initSDKOptions options in
  (forall url, given_apiBaseUrl options = Some url -> url <> "" ->
      apiBaseUrl resolved = url /\ apiBaseUrl resolved2 = url)
  /\ (given_apiBaseUrl options = None \/ given_apiBaseUrl options = Some "" ->
      apiBaseUrl resolved = Config.DEFAULT_API_URLS (given_network options)
      /\ apiBaseUrl resolved2 = Config2.DEFAULT_API_URLS (given_network options))
  /\ apiBaseUrl resolved <> "" /\ apiBaseUrl resolved2 <> ""
  /\ network resolved = given_network options
  /\ network resolved2 = given_network options
  /\ customRpc resolved = given_customRpc options
  /\ customRpc resolved2 = given_customRpc options.
Proof.
  cbv zeta. unfold Config.initSDKOptions, Config2.initSDKOptions. cbn [apiBaseUrl network customRpc].
  assert (D : forall n, Config.DEFAULT_API_URLS n <> "" /\ Config2.DEFAULT_API_URLS n <> "")
    by (intros []; split; discriminate).
  assert (R : forall url d, url <> "" -> string_or (Some url) d = url).
  { intros url d N. cbn. destruct (String.eqb url "") eqn:E; [| reflexivity].
    apply String.eqb_eq in E. contradiction. }
  assert (Nz : forall o d, d <> "" -> string_or o d <> "").
  { intros [s |] d N; cbn; [| exact N].
    destruct (String.eqb s "") eqn:E; [exact N |].
    intro Z. subst s. discriminate E. }
  repeat split.
  - rewrite H. apply R. assumption.
  - rewrite H. apply R. assumption.
  - destruct H as [-> | ->]; reflexivity.
  - destruct H as [-> | ->]; reflexivity.
  - apply Nz, D.
  - apply Nz, D.
Qed.

Section EntryResults.
Context {P : Platform}.

(** X16. An SDK made by [initDipCoinPerpSDK] from a key pair sends its
    requests to the caller's [apiBaseUrl] when that is a non-empty string
    and to the default URL of the chosen network otherwise, under the
    address derived from the key; construction fails only when a key given
    as a string cannot be imported. *)
Theorem initDipCoinPerpSDK_targets_the_resolved_url (privateKey : string + Keypair)
    (options : PartialOptions) :
  let url := string_or (given_apiBaseUrl options)
                       (Config.DEFAULT_API_URLS (given_network options)) in
  (forall kp,
      privateKey = inr kp \/
      (exists exported, privateKey = inl exported
                        /\ fromExportedKeypair exported = Returned kp) ->
      exists sdk,
        initDipCoinPerpSDK privateKey options = Returned sdk
        /\ keypair sdk = kp
        /\ walletAddress sdk = toSuiAddress kp
        /\ baseURL (httpClient sdk) = url
        /\ http_walletAddress (httpClient sdk) = Some (toSuiAddress kp)
        /\ authToken (httpClient sdk) = None)
  /\ (forall exported e,
        privateKey = inl exported -> fromExportedKeypair exported = Thrown e ->
        initDipCoinPerpSDK privateKey options = Thrown e)
  /\ (forall sdk params,
        initDipCoinPerpSDK privateKey options = Returned sdk ->
        walletAddress sdk <> "" ->
        sends (fun r => req_baseURL r = url
                        /\ get_header "X-Wallet-Address" (req_headers r)
                           = Some (walletAddress sdk))
              1 (placeOrder sdk params)).
Proof.
  cbv zeta. unfold initDipCoinPerpSDK, Config.initSDKOptions. cbn [apiBaseUrl].
  split; [| split].
  - intros kp [-> | (exported & -> & E)]; unfold new_DipCoinPerpSDK; [| rewrite E];
      eexists; repeat split.
  - intros exported e -> E. unfold new_DipCoinPerpSDK. rewrite E. reflexivity.
  - intros sdk params C N.
    assert (H : http_walletAddress (httpClient sdk) = Some (walletAddress sdk)
                /\ baseURL (httpClient sdk)
                   = string_or (given_apiBaseUrl options)
                       (Config.DEFAULT_API_URLS (given_network options))).
    { unfold new_DipCoinPerpSDK in C.
      destruct privateKey as [exported | kp];
        [destruct (fromExportedKeypair exported); [| discriminate C] |];
        inversion C; subst; split; reflexivity. }
    destruct H as [Hw Hb].
    eapply sends_weaken; [| apply sends_placeOrder].
    intros r (config & -> & B). split.
    + cbn. rewrite B. exact Hb.
    + apply interceptor_wallet_header; assumption.
Qed.

End EntryResults.

(* ================================================================== *)
(** ** Concrete runs *)
(* ================================================================== *)

Section Runs.
Import Demo.
#[local] Existing Instance Demo.platform.

(** The scenario intent on the wire: one form, its price field empty. *)
Example market_intent_on_the_wire :
  placeOrder sdk market_intent (still 1700000000000 order_200)
  = (Returned (success (JObj [("code", JNum (number_of_Z 200)); ("message", JStr "success")])),
     recorded (tick (still 1700000000000 order_200))
       {| req_method := POST;
          req_baseURL := "https://demoapi.dipcoin.io/exchange";
          req_url := "/api/perp-trade-api/trade/placeorder";
          req_params := JUndefined;
          req_data := Some "symbol=BTC-PERP&side=BUY&orderType=MARKET&quantity=10000000000000000&price=&leverage=10000000000000000000&salt=1700000000000&creator=0xwallet&clientId=&reduceOnly=false&orderSignature=sig14";
          req_headers := [ ("Content-Type", "application/x-www-form-urlencoded");
                           ("X-Wallet-Address", "0xwallet") ] |}).
Proof. vm_compute. reflexivity. Qed.

(** With a clock that gains a millisecond between two readings, the salts
    on the wire are main, main+2 and main+4. *)
Example advancing_salts_on_the_wire :
  map req_data (sent (snd (placeOrder sdk bracket_intent (advancing order_200))))
  = [ Some "symbol=BTC-PERP&side=BUY&orderType=LIMIT&quantity=10000000000000000&price=65000000000000000000000&leverage=10000000000000000000&salt=1700000000000&creator=0xwallet&clientId=&reduceOnly=false&orderSignature=sig14&tpOrderSignature=sig14&tpTriggerPrice=70000000000000000000000&tpOrderType=LIMIT&tpOrderPrice=70000000000000000000000&tpSalt=1700000000002&triggerWay=oracle&slOrderSignature=sig14&slTriggerPrice=60000000000000000000000&slOrderType=MARKET&slOrderPrice=&slSalt=1700000000004" ].
Proof. vm_compute. reflexivity. Qed.

(** C1, counterexample. The clock reads 1700000000000, then 1700000000001,
    then 1700000000002: the TP salt is main+2 and the SL salt is main+4,
    not main+1 and main+2. *)
Lemma leg_salts_counterexample :
  exists p l w' tp sl,
    placeOrder_build sdk bracket_intent (advancing order_200)
    = (Returned (p, l), w')
    /\ truthy (get_prop_opt bracket_intent "tpTriggerPrice") = true
    /\ truthy (get_prop_opt bracket_intent "slTriggerPrice") = true
    /\ tpOrder l = Some tp /\ slOrder l = Some sl
    /\ isEqualTo (Order.salt (order l)) (BigNumber_of_Z 1700000000000) = true
    /\ isEqualTo (Order.salt tp) (plusZ (Order.salt (order l)) 1) = false
    /\ isEqualTo (Order.salt sl) (plusZ (Order.salt (order l)) 2) = false
    /\ isEqualTo (Order.salt tp) (plusZ (Order.salt (order l)) 2) = true
    /\ isEqualTo (Order.salt sl) (plusZ (Order.salt (order l)) 4) = true.
Proof.
  destruct (placeOrder_build sdk bracket_intent (advancing order_200))
    as [[[p l] | e] w'] eqn:E; vm_compute in E; [| discriminate E].
  inversion E; subst. do 5 eexists.
  split; [reflexivity |]. split; [reflexivity |]. split; [reflexivity |].
  split; [reflexivity |]. split; [reflexivity |].
  repeat split; vm_compute; reflexivity.
Qed.

(** A clock that is set back between the readings can make the salts
    collide: here all three are equal. *)
Example salts_collide_when_clock_is_set_back :
  exists p l w' tp sl,
    placeOrder_build sdk bracket_intent (set_back order_200)
    = (Returned (p, l), w')
    /\ tpOrder l = Some tp /\ slOrder l = Some sl
    /\ isEqualTo (Order.salt tp) (Order.salt (order l)) = true
    /\ isEqualTo (Order.salt sl) (Order.salt (order l)) = true.
Proof.
  destruct (placeOrder_build sdk bracket_intent (set_back order_200))
    as [[[p l] | e] w'] eqn:E; vm_compute in E; [| discriminate E].
  inversion E; subst. do 5 eexists.
  split; [reflexivity |]. split; [reflexivity |]. split; [reflexivity |].
  repeat split; vm_compute; reflexivity.
Qed.

(** C1, witness: a call within one millisecond. *)
Lemma leg_salts_witness :
  exists p l w' tp sl,
    placeOrder_build sdk bracket_intent (still 1700000000000 order_200)
    = (Returned (p, l), w')
    /\ truthy (get_prop_opt bracket_intent "tpTriggerPrice") = true
    /\ truthy (get_prop_opt bracket_intent "slTriggerPrice") = true
    /\ tpOrder l = Some tp /\ slOrder l = Some sl
    /\ isEqualTo (Order.salt tp) (plusZ (Order.salt (order l)) 1) = true
    /\ isEqualTo (Order.salt sl) (plusZ (Order.salt (order l)) 2) = true
    /\ isEqualTo (Order.salt tp) (Order.salt (order l)) = false
    /\ isEqualTo (Order.salt sl) (Order.salt (order l)) = false
    /\ isEqualTo (Order.salt tp) (Order.salt sl) = false.
Proof.
  destruct (placeOrder_build sdk bracket_intent (still 1700000000000 order_200))
    as [[[p l] | e] w'] eqn:E; [| vm_compute in E; discriminate E].
  destruct (leg_salts_follow_clock_readings sdk bracket_intent _ _ p l E eq_refl eq_refl)
    as (tp & sl & Ftp & Fsl & _ & _ & _ & Htp & Hsl & Hd).
  exists p, l, w', tp, sl.
  destruct Hd as (D1 & D2 & D3); [cbn; lia |].
  repeat split; try assumption; try reflexivity.
  - apply Htp. reflexivity.
  - apply Hsl. reflexivity.
Defined.

(** C3, counterexample. A take-profit trigger price of 0 is supplied, the
    call builds its main order, and no take-profit leg is built. *)
Lemma zero_trigger_builds_no_leg :
  exists p l w',
    placeOrder_build sdk zero_trigger_intent (still 1700000000000 order_200)
    = (Returned (p, l), w')
    /\ get_prop_opt zero_trigger_intent "tpTriggerPrice" = JNum (number_of_Z 0)
    /\ get_prop_opt zero_trigger_intent "tpTriggerPrice" <> JUndefined
    /\ tpOrder l = None.
Proof.
  destruct (placeOrder_build sdk zero_trigger_intent (still 1700000000000 order_200))
    as [[[p l] | e] w'] eqn:E; vm_compute in E; [| discriminate E].
  inversion E; subst. do 3 eexists.
  split; [reflexivity |]. split; [reflexivity |]. split; [discriminate | reflexivity].
Qed.

(** C3, witness: both legs of the bracket intent. *)
Lemma legs_follow_trigger_truthiness_witness :
  exists p l w' tp sl,
    placeOrder_build sdk bracket_intent (still 1700000000000 order_200)
    = (Returned (p, l), w')
    /\ tpOrder l = Some tp /\ slOrder l = Some sl
    /\ Order.isLong (order l) = true
    /\ Order.reduceOnly tp = JBool true /\ Order.isLong tp = false
    /\ Order.reduceOnly sl = JBool true /\ Order.isLong sl = false.
Proof.
  destruct (placeOrder_build sdk bracket_intent (still 1700000000000 order_200))
    as [[[p l] | e] w'] eqn:E; [| vm_compute in E; discriminate E].
  destruct (legs_follow_trigger_truthiness sdk bracket_intent _ _ p l E)
    as (Itp & Isl & _ & _ & Ptp & Psl).
  assert (L : Order.isLong (order l) = true).
  { vm_compute in E. inversion E. reflexivity. }
  destruct (tpOrder l) as [tp |] eqn:Ftp;
    [| exfalso; apply (proj2 Itp eq_refl); reflexivity].
  destruct (slOrder l) as [sl |] eqn:Fsl;
    [| exfalso; apply (proj2 Isl eq_refl); reflexivity].
  destruct (Ptp tp eq_refl) as [R1 L1]. destruct (Psl sl eq_refl) as [R2 L2].
  rewrite L in L1, L2.
  exists p, l, w', tp, sl. repeat split; assumption.
Defined.

(** C5, witness: the MARKET intent of the scenario, from the main order
    to the body of the request sent. *)
Lemma market_order_canonical_form_witness :
  exists p l w' sg rp,
    placeOrder_build sdk market_intent (still 1700000000000 order_200)
    = (Returned (p, l), w')
    /\ get_prop_opt market_intent "orderType" = JStr OrderType.MARKET
    /\ Order.isLong (order l) = true
    /\ Order.price (order l) = zeroBN
    /\ Returned (Order.quantity (order l)) = formatNormalToWeiBN (JStr "0.01")
    /\ Order.reduceOnly (order l) = JBool false
    /\ fst (signLegs sdk l w') = Returned sg
    /\ wire_ready market_intent
    /\ fst (buildRequestParams sdk p l sg w') = Returned rp
    /\ lookup "price" rp = JStr ""
    /\ In ("price", "") (postForm_formData rp)
    /\ map req_data
         (sent (snd (placeOrder sdk market_intent (still 1700000000000 order_200))))
       = [Some (URLSearchParams_toString (postForm_formData rp))]
    /\ URLSearchParams_toString (postForm_formData rp)
       = "symbol=BTC-PERP&side=BUY&orderType=MARKET&quantity=10000000000000000&price=&leverage=10000000000000000000&salt=1700000000000&creator=0xwallet&clientId=&reduceOnly=false&orderSignature=sig14".
Proof.
  destruct (placeOrder_build sdk market_intent (still 1700000000000 order_200))
    as [[[p l] | e] w'] eqn:E; [| vm_compute in E; discriminate E].
  destruct (market_order_canonical_form sdk market_intent _ _ p l E eq_refl)
    as (Lg & Pz & Q & Ro & _ & Pay).
  assert (Rdy : wire_ready market_intent).
  { unfold wire_ready. cbv zeta. split; [| split; [| split; [| split]]].
    - exists "10000000000000000". reflexivity.
    - exists "10000000000000000000". reflexivity.
    - discriminate.
    - intro T. discriminate T.
    - intro T. discriminate T. }
  pose proof E as E0. vm_compute in E0. inversion E0. subst p l w'. clear E0.
  match type of Pay with
  | forall sg, fst (signLegs sdk ?cl ?cw) = _ -> _ =>
      destruct (fst (signLegs sdk cl cw)) as [sg | e] eqn:S;
        [| vm_compute in S; discriminate S]
  end.
  destruct (Pay sg eq_refl Rdy) as (rp & request & R & L & I & Sent & Req & _ & _ & D).
  do 3 eexists. exists sg, rp.
  split; [reflexivity |]. split; [reflexivity |].
  split; [apply Lg; reflexivity |]. split; [exact Pz |].
  split; [symmetry; exact Q |]. split; [apply Ro; reflexivity |].
  split; [exact S |]. split; [exact Rdy |]. split; [exact R |].
  split; [exact L |]. split; [exact I |]. split.
  - rewrite Sent. cbn [sent still app map]. rewrite D. reflexivity.
  - pose proof S as S0. vm_compute in S0. inversion S0. subst sg. clear S0.
    pose proof R as R0. vm_compute in R0. inversion R0. subst rp. clear R0.
    vm_compute. reflexivity.
Defined.

(** C6, witness: a LIMIT take-profit with a trigger price and no order
    price takes the trigger price. *)
Lemma tp_leg_price_without_order_price_witness :
  exists p l w' tp,
    placeOrder_build sdk bracket_intent (still 1700000000000 order_200)
    = (Returned (p, l), w')
    /\ truthy (get_prop_opt bracket_intent "tpTriggerPrice") = true
    /\ get_prop_opt bracket_intent "tpOrderPrice" = JUndefined
    /\ get_prop_opt bracket_intent "tpOrderType" = JStr OrderType.LIMIT
    /\ tpOrder l = Some tp
    /\ Returned (Order.price tp) = formatNormalToWeiBN (JStr "70000").
Proof.
  destruct (placeOrder_build sdk bracket_intent (still 1700000000000 order_200))
    as [[[p l] | e] w'] eqn:E; [| vm_compute in E; discriminate E].
  destruct (tp_leg_price_without_order_price sdk bracket_intent _ _ p l E eq_refl eq_refl)
    as (tp & F & Lim & _).
  exists p, l, w', tp. repeat split; try assumption.
  symmetry. apply Lim. reflexivity.
Defined.

(** C9, witness: a quantity of 0, and a LIMIT intent with an empty price. *)
Lemma placeOrder_validation_is_truthiness_witness :
  placeOrder sdk
    (JObj [ ("symbol", JStr "BTC-PERP"); ("side", JStr "BUY"); ("orderType", JStr "MARKET");
            ("quantity", JNum (number_of_Z 0)); ("leverage", JStr "10") ])
    (still 1700000000000 order_200)
  = (Returned (failure (JStr "Missing required order parameters")),
     still 1700000000000 order_200)
  /\ placeOrder sdk
       (JObj [ ("symbol", JStr "BTC-PERP"); ("side", JStr "BUY"); ("orderType", JStr "LIMIT");
               ("quantity", JStr "0.01"); ("leverage", JStr "10"); ("price", JStr "") ])
       (still 1700000000000 order_200)
     = (Returned (failure (JStr "Price is required for LIMIT orders")),
        still 1700000000000 order_200).
Proof.
  split.
  - apply (proj1 (proj2 (placeOrder_validation_is_truthiness sdk _ _))). reflexivity.
  - apply (proj2 (proj2 (proj2 (proj2 (proj2
             (placeOrder_validation_is_truthiness sdk _ _)))))).
    + reflexivity.
    + reflexivity.
    + right. left. reflexivity.
Defined.

(** C4, witness: an empty list is refused, a list of two hashes is sent. *)
Lemma cancelOrder_validates_then_submits_witness :
  cancelOrder sdk (JObj [("symbol", JStr "BTC-PERP"); ("orderHashes", JArr [])])
    (still 0 order_200)
  = (Returned (failure (JStr "Order hashes are required")), still 0 order_200)
  /\ map req_data (sent (snd (cancelOrder sdk (JObj cancel_intent) (still 0 order_200))))
     = [ Some "symbol=BTC-PERP&orderHashes=%5B%220xab%22%2C%220xcd%22%5D&signature=sig31&parentAddress=0xwallet" ].
Proof.
  split.
  - apply (proj1 (cancelOrder_validates_then_submits sdk _ _)). left. reflexivity.
  - destruct (proj1 (proj2 (cancelOrder_validates_then_submits sdk cancel_intent
                              (still 0 order_200)))
                (JStr "0xab") [JStr "0xcd"] "sig31" eq_refl eq_refl) as [S _].
    rewrite S. vm_compute. reflexivity.
Defined.

(** C7, witness: a bare list and the same list in an envelope. *)
Lemma getPositions_normalizes_both_shapes_witness :
  fst (getPositions sdk JUndefined (still 0 (Fulfilled bare_positions)))
  = Returned (success (JArr [position "BTC-PERP"; position "ETH-PERP"]))
  /\ fst (getPositions sdk JUndefined (still 0 (Fulfilled wrapped_positions)))
     = Returned (success (JArr [position "BTC-PERP"; position "ETH-PERP"])).
Proof.
  apply (getPositions_normalizes_both_shapes sdk JUndefined
           (still 0 (Fulfilled bare_positions)) (still 0 (Fulfilled wrapped_positions))
           bare_positions wrapped_positions
           [position "BTC-PERP"; position "ETH-PERP"]
           [ ("data", JArr [position "BTC-PERP"; position "ETH-PERP"]);
             ("pageNum", JNum (number_of_Z 1)) ]);
    reflexivity.
Defined.

(** C8, witness: undefined and null are left out, the array goes as JSON,
    the space is encoded. *)
Lemma postForm_serializes_fields_witness :
  NoDup (Object_keys form_data)
  /\ postForm_formData form_data
     = [ ("symbol", "BTC PERP"); ("reduceOnly", "false");
         ("orderHashes", JSON_stringify (JArr [JStr "0xab"])); ("leverage", "10") ]
  /\ map req_data (sent (snd (postForm (httpClient sdk) "/form" form_data None
                                (still 0 order_200))))
     = [ Some "symbol=BTC+PERP&reduceOnly=false&orderHashes=%5B%220xab%22%5D&leverage=10" ].
Proof.
  assert (ND : NoDup (Object_keys form_data)).
  { repeat constructor; cbn; intuition discriminate. }
  destruct (postForm_serializes_fields (httpClient sdk) "/form" form_data None
              (still 0 order_200) ND) as (E & _ & request & S & _ & _ & D & _).
  split; [exact ND |]. split.
  - rewrite E. reflexivity.
  - rewrite S. cbn [sent still map app]. rewrite D. vm_compute. reflexivity.
Defined.

(** C10, witness: two fields present, three absent; and a response with a
    code and no data. *)
Lemma getAccountInfo_needs_code_and_data_witness :
  (exists info,
      fst (getAccountInfo sdk (still 0 (Fulfilled account_response)))
      = Returned (success (JObj info))
      /\ lookup "walletBalance" info = JStr "125.5"
      /\ lookup "totalMargin" info = JStr "0")
  /\ fst (getAccountInfo sdk (still 0 (Fulfilled code_only_response)))
     = Returned (failure (JStr "Failed to get account info")).
Proof.
  split.
  - destruct (proj2 (proj2 (getAccountInfo_needs_code_and_data sdk
                              (still 0 (Fulfilled account_response))))
                account_response eq_refl eq_refl eq_refl) as (info & E & _ & F).
    exists info. split; [exact E |]. split.
    + apply (proj2 (F "walletBalance" (or_introl eq_refl))). reflexivity.
    + apply (proj1 (F "totalMargin"
                      (or_intror (or_intror (or_intror (or_intror (or_introl eq_refl))))))).
      reflexivity.
  - apply (proj1 (proj2 (getAccountInfo_needs_code_and_data sdk
                           (still 0 (Fulfilled code_only_response))))
             code_only_response); reflexivity.
Defined.

End Runs.

(** * Runs of the further properties *)

Section CoverageRuns.
Import Demo.
#[local] Existing Instance Demo.platform.

(** A MARKET intent with a stop-loss trigger only. *)
Definition stop_only_intent : JsValue :=
  JObj [ ("symbol", JStr "BTC-PERP"); ("side", JStr "SELL"); ("orderType", JStr "MARKET");
         ("quantity", JStr "0.01"); ("leverage", JStr "10");
         ("slTriggerPrice", JStr "72000") ].

(** A LIMIT stop-loss with its own order price, and a MARKET take-profit
    that is given an order price all the same. *)
Definition priced_legs_intent : JsValue :=
  JObj [ ("symbol", JStr "BTC-PERP"); ("side", JStr "BUY"); ("orderType", JStr "MARKET");
         ("quantity", JStr "0.01"); ("leverage", JStr "10");
         ("tpTriggerPrice", JStr "70000"); ("tpOrderType", JStr "MARKET");
         ("tpOrderPrice", JStr "71000");
         ("slTriggerPrice", JStr "60000"); ("slOrderType", JStr "LIMIT");
         ("slOrderPrice", JStr "59000") ].

(** A MARKET intent whose price is not a number. *)
Definition bad_price_intent : list (string * JsValue) :=
  [ ("symbol", JStr "BTC-PERP"); ("side", JStr "BUY"); ("orderType", JStr "MARKET");
    ("quantity", JStr "0.01"); ("leverage", JStr "10"); ("price", JStr "abc") ].

(** An account of which the server sends one field with a value, one
    empty and one as the number 0. *)
Definition sparse_account_response : JsValue :=
  JObj [ ("code", JNum (number_of_Z 200));
         ("data", JObj [ ("walletBalance", JStr "125.5");
                         ("accountValue", JStr "");
                         ("freeCollateral", JNum (number_of_Z 0)) ]) ].

(** An axios error that carries the server's own message. *)
Definition server_error : JsValue :=
  JObj [ ("message", JStr "Request failed with status code 400");
         ("response", JObj [("data", JObj [("message", JStr "bad salt")])]) ].

(** An axios error with no response. *)
Definition network_error : JsValue := JObj [("message", JStr "Network Error")].

(** The key pair of the runs, given as a key pair. *)
Definition key : string + @Keypair platform := inr tt.

Definition testnet_options : PartialOptions :=
  {| given_apiBaseUrl := None; given_network := testnet; given_customRpc := None |}.

(** Runs the three steps of an order on a concrete intent and world, and
    leaves their results in the context. *)
Ltac run_order intent world p l w1 sg rp B S R :=
  destruct (placeOrder_build sdk intent world) as [[[p l] | ?e] w1] eqn:B;
    [| vm_compute in B; discriminate B];
  let B0 := fresh "B0" in
  pose proof B as B0; vm_compute in B0; inversion B0; subst p l w1; clear B0;
  match type of B with
  | _ = (Returned (?cp, ?cl), ?cw) =>
      destruct (fst (signLegs sdk cl cw)) as [sg | ?e] eqn:S;
        [| vm_compute in S; discriminate S];
      let S0 := fresh "S0" in
      pose proof S as S0; vm_compute in S0; inversion S0; subst sg; clear S0;
      match type of S with
      | _ = Returned ?csg =>
          destruct (fst (buildRequestParams sdk cp cl csg cw)) as [rp | ?e] eqn:R;
            [| vm_compute in R; discriminate R]
      end
  end.

(** X1, witness: the SDK of the runs is the one the constructor makes
    from a key pair. *)
Lemma every_request_carries_the_wallet_address_witness :
  new_DipCoinPerpSDK key "https://demoapi.dipcoin.io/exchange" = Returned sdk
  /\ walletAddress sdk <> ""
  /\ sends (fun r =>
              get_header "X-Wallet-Address" (req_headers r) = Some "0xwallet"
              /\ req_baseURL r = "https://demoapi.dipcoin.io/exchange")
           1 (placeOrder sdk bracket_intent)
  /\ sends (fun r =>
              get_header "X-Wallet-Address" (req_headers r) = Some "0xwallet"
              /\ req_baseURL r = "https://demoapi.dipcoin.io/exchange")
           1 (getPositions sdk (JStr "BTC-PERP")).
Proof.
  split; [reflexivity |]. split; [discriminate |].
  destruct (every_request_carries_the_wallet_address
              key "https://demoapi.dipcoin.io/exchange" sdk bracket_intent
              (JStr "BTC-PERP") eq_refl ltac:(discriminate)) as (H1 & _ & _ & H4 & _).
  split; [exact H1 | exact H4].
Defined.

(** X3, witness: the server's message wins over the error's own, and the
    error's own is used when there is no response. *)
Lemma rejected_requests_throw_the_best_message_witness :
  fst (get (httpClient sdk) "/x" None (still 0 (Rejected server_error)))
  = Thrown (new_Error "bad salt")
  /\ fst (postForm (httpClient sdk) "/x" form_data None (still 0 (Rejected network_error)))
     = Thrown (new_Error "Network Error").
Proof.
  split.
  - destruct (rejected_requests_throw_the_best_message (httpClient sdk) "/x" JUndefined
                form_data None (still 0 (Rejected server_error)) server_error eq_refl)
      as (G & _).
    rewrite (G eq_refl). reflexivity.
  - destruct (rejected_requests_throw_the_best_message (httpClient sdk) "/x" JUndefined
                form_data None (still 0 (Rejected network_error)) network_error eq_refl)
      as (_ & _ & F & _).
    rewrite (F eq_refl). reflexivity.
Defined.

(** X4, witness: an envelope, and a response with a code and nothing else. *)
Lemma list_queries_normalize_or_default_witness :
  fst (getOpenOrders sdk JUndefined (still 0 (Fulfilled wrapped_positions)))
  = Returned (success (JArr [position "BTC-PERP"; position "ETH-PERP"]))
  /\ fst (getOpenOrders sdk JUndefined (still 0 (Fulfilled code_only_response)))
     = Returned (success (JArr []))
  /\ fst (getPositions sdk JUndefined (still 0 (Fulfilled code_only_response)))
     = Returned (success (JArr [])).
Proof.
  split; [| split].
  - apply (proj1 (proj2 (proj1 (list_queries_normalize_or_default sdk JUndefined
                                  (still 0 (Fulfilled wrapped_positions))
                                  wrapped_positions eq_refl) eq_refl))
             [ ("data", JArr [position "BTC-PERP"; position "ETH-PERP"]);
               ("pageNum", JNum (number_of_Z 1)) ]
             [position "BTC-PERP"; position "ETH-PERP"]); reflexivity.
  - apply (proj2 (proj2 (proj1 (list_queries_normalize_or_default sdk JUndefined
                                  (still 0 (Fulfilled code_only_response))
                                  code_only_response eq_refl) eq_refl))); reflexivity.
  - apply (proj2 (list_queries_normalize_or_default sdk JUndefined
                    (still 0 (Fulfilled code_only_response))
                    code_only_response eq_refl)); reflexivity.
Defined.

(** X6, witness: an order with a stop-loss only has the base fields and
    the stop-loss fields, and no triggerWay. *)
Lemma order_request_fields_witness :
  exists p l w1 sg rp,
    placeOrder_build sdk stop_only_intent (still 1700000000000 order_200)
    = (Returned (p, l), w1)
    /\ fst (signLegs sdk l w1) = Returned sg
    /\ fst (buildRequestParams sdk p l sg w1) = Returned rp
    /\ Object_keys rp
       = ["symbol"; "side"; "orderType"; "quantity"; "price"; "leverage"; "salt"; "creator";
          "clientId"; "reduceOnly"; "orderSignature";
          "slOrderSignature"; "slTriggerPrice"; "slOrderType"; "slOrderPrice"; "slSalt"]
    /\ lookup "triggerWay" rp = JUndefined.
Proof.
  run_order stop_only_intent (still 1700000000000 order_200) p l w1 sg rp Hb Hs Hr.
  destruct (order_request_fields sdk _ _ _ _ _ _ rp Hb Hs Hr) as (K & _ & T & _).
  do 5 eexists. split; [exact Hb |]. split; [exact Hs |]. split; [exact Hr |].
  split; [exact K | exact (T eq_refl)].
Defined.

(** X7, witness: the bracket intent under a clock that gains a millisecond
    per reading. *)
Lemma order_request_matches_signed_legs_witness :
  exists p l w1 sg rp tp sl,
    placeOrder_build sdk bracket_intent (advancing order_200) = (Returned (p, l), w1)
    /\ fst (signLegs sdk l w1) = Returned sg
    /\ fst (buildRequestParams sdk p l sg w1) = Returned rp
    /\ tpOrder l = Some tp /\ slOrder l = Some sl
    /\ lookup "salt" rp = JStr (BigNumber_toString (Order.salt (order l)))
    /\ lookup "tpSalt" rp = JStr (BigNumber_toString (Order.salt tp))
    /\ lookup "slSalt" rp = JStr (BigNumber_toString (Order.salt sl))
    /\ lookup "tpSalt" rp = JStr "1700000000002"
    /\ lookup "slSalt" rp = JStr "1700000000004".
Proof.
  run_order bracket_intent (advancing order_200) p l w1 sg rp Hb Hs Hr.
  destruct (order_request_matches_signed_legs sdk _ _ _ _ _ _ rp Hb Hs Hr)
    as (M & _ & _ & _ & T & L).
  destruct (T eq_refl) as (tp & s & Ftp & _ & _ & Tsalt).
  destruct (L eq_refl) as (sl & s' & Fsl & _ & _ & Lsalt).
  do 5 eexists. exists tp, sl.
  split; [exact Hb |]. split; [exact Hs |]. split; [exact Hr |].
  split; [exact Ftp |]. split; [exact Fsl |].
  split; [exact M |]. split; [exact Tsalt |]. split; [exact Lsalt |].
  cbn [tpOrder slOrder] in Ftp, Fsl.
  injection Ftp as <-. injection Fsl as <-.
  split; [rewrite Tsalt | rewrite Lsalt]; vm_compute; reflexivity.
Defined.

(** X10, witness: the legs of the bracket intent. *)
Lemma legs_share_the_main_order_witness :
  exists p l w1 tp sl,
    placeOrder_build sdk bracket_intent (still 1700000000000 order_200)
    = (Returned (p, l), w1)
    /\ tpOrder l = Some tp /\ slOrder l = Some sl
    /\ Order.market (order l) = JStr "0xabc"
    /\ Order.market tp = Order.market (order l)
    /\ Order.quantity sl = Order.quantity (order l)
    /\ Order.creator tp = "0xwallet"
    /\ Order.orderbookOnly sl = true.
Proof.
  destruct (placeOrder_build sdk bracket_intent (still 1700000000000 order_200))
    as [[[p l] | e] w1] eqn:B; [| vm_compute in B; discriminate B].
  destruct (legs_share_the_main_order sdk bracket_intent _ _ p l B)
    as (_ & Mk & Htp & Hsl).
  pose proof B as B0. vm_compute in B0. inversion B0. subst p l w1. clear B0.
  cbn [tpOrder slOrder] in Htp, Hsl.
  destruct (Htp _ eq_refl) as ((_ & _ & _ & _ & C) & (M & _ & _)).
  destruct (Hsl _ eq_refl) as ((_ & O & _) & (_ & Q & _)).
  do 5 eexists. split; [exact B |]. split; [reflexivity |]. split; [reflexivity |].
  split; [exact Mk |]. split; [exact M |]. split; [exact Q |]. split; [exact C | exact O].
Defined.

(** X11, witness: a LIMIT stop-loss takes its own order price, and a
    MARKET take-profit has price zero although an order price is given. *)
Lemma leg_price_rule_witness :
  exists p l w1 tp sl,
    placeOrder_build sdk priced_legs_intent (still 1700000000000 order_200)
    = (Returned (p, l), w1)
    /\ tpOrder l = Some tp /\ slOrder l = Some sl
    /\ formatNormalToWeiBN (JStr "59000") = Returned (Order.price sl)
    /\ Order.price tp = zeroBN.
Proof.
  destruct (placeOrder_build sdk priced_legs_intent (still 1700000000000 order_200))
    as [[[p l] | e] w1] eqn:B; [| vm_compute in B; discriminate B].
  destruct (leg_price_rule sdk priced_legs_intent _ _ p l B) as (Hsl & Htp).
  pose proof B as B0. vm_compute in B0. inversion B0. subst p l w1. clear B0.
  cbn [tpOrder slOrder] in Htp, Hsl.
  do 5 eexists. split; [exact B |]. split; [reflexivity |]. split; [reflexivity |].
  split; [exact (Hsl _ eq_refl) | exact (Htp _ eq_refl)].
Defined.

(** X12, witness: a MARKET intent with the price abc. *)
Lemma truthy_price_must_convert_witness :
  placeOrder sdk (JObj bad_price_intent) (still 1700000000000 order_200)
  = (Returned (failure (JStr "Invalid number")), still 1700000000000 order_200).
Proof.
  apply (truthy_price_must_convert sdk bad_price_intent (still 1700000000000 order_200)
           (new_Error "Invalid number")); reflexivity.
Defined.

(** X13, witness: of the five fields the server sent one with a value,
    one empty, one as the number 0, and left two out. *)
Lemma account_info_fields_are_never_empty_witness :
  exists r w' info,
    getAccountInfo sdk (still 0 (Fulfilled sparse_account_response)) = (Returned r, w')
    /\ status r = true
    /\ data r = Some (JObj info)
    /\ lookup "walletBalance" info = JStr "125.5"
    /\ lookup "accountValue" info = JStr "0"
    /\ lookup "freeCollateral" info = JStr "0"
    /\ lookup "totalMargin" info = JStr "0"
    /\ truthy (lookup "totalUnrealizedProfit" info) = true.
Proof.
  destruct (getAccountInfo sdk (still 0 (Fulfilled sparse_account_response)))
    as [[r | e] w'] eqn:H; [| vm_compute in H; discriminate H].
  assert (St : status r = true).
  { vm_compute in H. inversion H. reflexivity. }
  destruct (account_info_fields_are_never_empty sdk _ _ r H St)
    as (response & info & Hs & D & K & T).
  injection Hs as <-.
  exists r, w', info. split; [reflexivity |]. split; [exact St |]. split; [exact D |].
  assert (I : forall k,
             In k ["walletBalance"; "totalUnrealizedProfit"; "accountValue";
                   "freeCollateral"; "totalMargin"] -> In k (Object_keys info))
    by (intros k Hk; rewrite K; exact Hk).
  split; [| split; [| split; [| split]]].
  - apply (T "walletBalance"); [apply I; cbn; auto | reflexivity].
  - apply (T "accountValue"); [apply I; cbn; auto |]. right. left. reflexivity.
  - apply (T "freeCollateral"); [apply I; cbn; auto |]. right. right. reflexivity.
  - apply (T "totalMargin"); [apply I; cbn; auto 6 |]. left. reflexivity.
  - apply (T "totalUnrealizedProfit"). apply I. cbn. auto.
Defined.

(** X14, witness: the caller writes both identity headers in lower case;
    the client's values go out, one header per name. *)
Lemma interceptor_sets_identity_headers_witness :
  let c := setAuthToken (httpClient sdk) "t0ken" in
  let config :=
    Some {| cfg_params := JUndefined;
            cfg_headers := [("x-wallet-address", "0xother"); ("authorization", "none");
                            ("Accept", "text/plain")] |} in
  map req_headers (sent (snd (get c "/x" config (still 0 order_200))))
  = [ [ ("Content-Type", "application/json"); ("x-wallet-address", "0xwallet");
        ("authorization", "Bearer t0ken"); ("Accept", "text/plain") ] ]
  /\ get_header "X-Wallet-Address" (req_headers (get_request c "/x" config))
     = Some "0xwallet"
  /\ get_header "Authorization" (req_headers (get_request c "/x" config))
     = Some "Bearer t0ken"
  /\ get_header "accept" (req_headers (get_request c "/x" config)) = Some "text/plain"
  /\ distinct_names (req_headers (get_request c "/x" config)).
Proof.
  cbv zeta.
  destruct (interceptor_sets_identity_headers (setAuthToken (httpClient sdk) "t0ken")
              "/x" JUndefined []
              (Some {| cfg_params := JUndefined;
                       cfg_headers := [("x-wallet-address", "0xother");
                                       ("authorization", "none");
                                       ("Accept", "text/plain")] |}))
    as (S1 & (W & A & D) & _ & _ & O & _).
  split; [rewrite (proj1 (S1 (still 0 order_200))); reflexivity |].
  split; [apply W; [reflexivity | discriminate | reflexivity] |].
  split; [apply A; [reflexivity | discriminate | reflexivity] |].
  split; [| exact D].
  unfold get_request. rewrite (proj2 (proj2 (O _))) by reflexivity. reflexivity.
Defined.

(** X15, witness: an override, an empty override, and no override. *)
Lemma initSDKOptions_resolves_the_base_url_witness :
  apiBaseUrl (Config.initSDKOptions
                {| given_apiBaseUrl := Some "http://localhost:8080";
                   given_network := mainnet; given_customRpc := None |})
  = "http://localhost:8080"
  /\ apiBaseUrl (Config.initSDKOptions
                   {| given_apiBaseUrl := Some ""; given_network := mainnet;
                      given_customRpc := None |})
     = "https://gray-api.dipcoin.io"
  /\ apiBaseUrl (Config.initSDKOptions testnet_options)
     = "https://demoapi.dipcoin.io/exchange".
Proof.
  split; [| split].
  - apply (proj1 (initSDKOptions_resolves_the_base_url
                    {| given_apiBaseUrl := Some "http://localhost:8080";
                       given_network := mainnet; given_customRpc := None |})
             "http://localhost:8080"); [reflexivity | discriminate].
  - apply (proj1 (proj2 (initSDKOptions_resolves_the_base_url
                           {| given_apiBaseUrl := Some ""; given_network := mainnet;
                              given_customRpc := None |}))).
    right. reflexivity.
  - apply (proj1 (proj2 (initSDKOptions_resolves_the_base_url testnet_options))).
    left. reflexivity.
Defined.

(** X16, witness: the SDK of the runs is the one the entry point makes
    for the test network. *)
Lemma initDipCoinPerpSDK_targets_the_resolved_url_witness :
  initDipCoinPerpSDK key testnet_options = Returned sdk
  /\ sends (fun r => req_baseURL r = "https://demoapi.dipcoin.io/exchange"
                     /\ get_header "X-Wallet-Address" (req_headers r) = Some "0xwallet")
           1 (placeOrder sdk market_intent).
Proof.
  split; [reflexivity |].
  apply (proj2 (proj2 (initDipCoinPerpSDK_targets_the_resolved_url key testnet_options))
           sdk market_intent); [reflexivity | discriminate].
Defined.

End CoverageRuns.
